(** * Novum job matcher: the retrieval and ranking core

    A shallow embedding of the parts of [classifier.py] and [app.py] that
    decide how a resume is matched against job postings: the embedding
    function and its LRU cache, cosine scoring, the location / job-type
    filters, the similarity threshold with its local backfill, the RAG
    search floor, the LLM rerank parse and the search-query derivation.

    Conventions of the model.
    - Python [str] is [string] (a sequence of 8-bit characters); the
      character classes used by [lower], [strip], [split], [title],
      [isalpha] and the regular expression are the ASCII ones.
    - Python [float] is an exact rational [Q]; [round(x, 2)] is rounding to
      the nearest hundredth, ties to even.
    - An exception is a value [Raise e] of [Result]; [try ... except
      Exception] is the combinator [try_catch].
    - Calls that leave the process (Vertex AI, OpenAI) are oracles of an
      environment record; the embedding oracles see the trace of earlier
      events, so two calls on one text may answer differently. *)

From Stdlib Require Import String Ascii List Bool Arith ZArith QArith.
From Stdlib Require Import Lia Lqa Permutation Sorted Field Qfield.
From Stdlib Require Import DecimalString.
Import ListNotations.

Set Implicit Arguments.

Local Open Scope string_scope.

(* ------------------------------------------------------------------ *)
(** ** Python string primitives *)

Module PyStr.

Definition code (c : ascii) : nat := nat_of_ascii c.

Definition between (lo hi n : nat) : bool := (lo <=? n)%nat && (n <=? hi)%nat.

(** [str.isspace] on one ASCII character: TAB..CR, FS..US and the blank. *)
Definition is_space (c : ascii) : bool :=
  between 9 13 (code c) || between 28 32 (code c).

Definition is_upper (c : ascii) : bool := between 65 90 (code c).
Definition is_lower (c : ascii) : bool := between 97 122 (code c).
Definition is_alpha (c : ascii) : bool := is_upper c || is_lower c.
Definition is_digit (c : ascii) : bool := between 48 57 (code c).

(** The class [\w] of [re]: letters, digits and the underscore. *)
Definition is_word (c : ascii) : bool :=
  is_alpha c || is_digit c || (code c =? 95)%nat.

Definition to_lower (c : ascii) : ascii :=
  if is_upper c then ascii_of_nat (code c + 32) else c.

Definition to_upper (c : ascii) : ascii :=
  if is_lower c then ascii_of_nat (code c - 32) else c.

Fixpoint smap (f : ascii -> ascii) (s : string) : string :=
  match s with
  | EmptyString => EmptyString
  | String c r => String (f c) (smap f r)
  end.

(** [s.lower()] *)
Definition lower (s : string) : string := smap to_lower s.

Fixpoint srev_onto (acc s : string) : string :=
  match s with
  | EmptyString => acc
  | String c r => srev_onto (String c acc) r
  end.

Definition srev (s : string) : string := srev_onto EmptyString s.

Fixpoint lstrip (s : string) : string :=
  match s with
  | EmptyString => EmptyString
  | String c r => if is_space c then lstrip r else s
  end.

Definition rstrip (s : string) : string := srev (lstrip (srev s)).

(** [s.strip()] *)
Definition strip (s : string) : string := rstrip (lstrip s).

(** Truthiness of a string: [bool(s)]. *)
Definition truthy (s : string) : bool :=
  match s with EmptyString => false | String _ _ => true end.

(** [p] is a prefix of [s]: [s.startswith(p)]. *)
Definition startswith (s p : string) : bool := String.prefix p s.

(** [sub in s] *)
Fixpoint contains (sub s : string) : bool :=
  String.prefix sub s ||
  match s with
  | EmptyString => false
  | String _ r => contains sub r
  end.

(** [s[:n]] and [s[n:]] for a non-negative [n]. *)
Fixpoint take (n : nat) (s : string) : string :=
  match n, s with
  | S k, String c r => String c (take k r)
  | _, _ => EmptyString
  end.

Fixpoint drop (n : nat) (s : string) : string :=
  match n, s with
  | S k, String _ r => drop k r
  | _, _ => s
  end.

(** [s[a:b]] for non-negative bounds; empty when [b <= a]. *)
Definition slice (a b : nat) (s : string) : string := take (b - a) (drop a s).

(** [s.replace(c, '')] for a one-character [c]. *)
Fixpoint remove_char (c : ascii) (s : string) : string :=
  match s with
  | EmptyString => EmptyString
  | String d r =>
      if Ascii.eqb c d then remove_char c r else String d (remove_char c r)
  end.

(** [s.find(c)]: the index of the first [c], if any. *)
Fixpoint find (c : ascii) (s : string) : option nat :=
  match s with
  | EmptyString => None
  | String d r =>
      if Ascii.eqb c d then Some 0%nat
      else match find c r with Some i => Some (S i) | None => None end
  end.

(** [s.rfind(c)]: the index of the last [c], if any. *)
Fixpoint rfind (c : ascii) (s : string) : option nat :=
  match s with
  | EmptyString => None
  | String d r =>
      match rfind c r with
      | Some i => Some (S i)
      | None => if Ascii.eqb c d then Some 0%nat else None
      end
  end.

(** [s.split()]: maximal runs of non-space characters. [tok] is the run
    being read. *)
Fixpoint split_go (tok s : string) : list string :=
  match s with
  | EmptyString => if truthy tok then [tok] else []
  | String c r =>
      if is_space c
      then (if truthy tok then tok :: split_go EmptyString r
            else split_go EmptyString r)
      else split_go (tok ++ String c EmptyString) r
  end.

Definition split (s : string) : list string := split_go EmptyString s.

(** [s.split(c)] for a one-character separator: empty pieces are kept. *)
Fixpoint split_on_go (sep : ascii) (tok s : string) : list string :=
  match s with
  | EmptyString => [tok]
  | String c r =>
      if Ascii.eqb sep c then tok :: split_on_go sep EmptyString r
      else split_on_go sep (tok ++ String c EmptyString) r
  end.

Definition split_on (sep : ascii) (s : string) : list string :=
  split_on_go sep EmptyString s.

(** [sep.join(l)] *)
Fixpoint join (sep : string) (l : list string) : string :=
  match l with
  | [] => EmptyString
  | [x] => x
  | x :: r => x ++ sep ++ join sep r
  end.

(** [s.title()]: a cased character is upper-cased after an uncased one and
    lower-cased after a cased one. *)
Fixpoint title_go (prev_cased : bool) (s : string) : string :=
  match s with
  | EmptyString => EmptyString
  | String c r =>
      if is_alpha c
      then String (if prev_cased then to_lower c else to_upper c)
                  (title_go true r)
      else String c (title_go false r)
  end.

Definition title (s : string) : string := title_go false s.

Fixpoint all_chars (p : ascii -> bool) (s : string) : bool :=
  match s with
  | EmptyString => true
  | String c r => p c && all_chars p r
  end.

(** [s.isalpha()] *)
Definition isalpha (s : string) : bool := truthy s && all_chars is_alpha s.

(** [not text or len(text.strip()) == 0] *)
Definition blank (s : string) : bool :=
  negb (truthy s) || (String.length (strip s) =? 0)%nat.

Definition nl : string := String (ascii_of_nat 10) EmptyString.

End PyStr.

(* ------------------------------------------------------------------ *)
(** ** Python list and number primitives *)

Module Py.

(** [l[:k]] for any integer [k]: a negative [k] drops the last [-k]. *)
Definition slice_to {A} (k : Z) (l : list A) : list A :=
  if (0 <=? k)%Z then firstn (Z.to_nat k) l
  else firstn (length l - Z.to_nat (- k)) l.

(** [l[1:-1]] *)
Definition inner {A} (l : list A) : list A :=
  firstn (length l - 2) (tl l).

Definition Qltb (a b : Q) : bool := negb (Qle_bool b a).

(** [max(a, b)]: the first argument unless the second is greater. *)
Definition max (a b : Q) : Q := if Qltb a b then b else a.

(** Rounding a rational to the nearest integer, ties to even. *)
Definition round_half_even (q : Q) : Z :=
  let n := Qnum q in
  let d := Zpos (Qden q) in
  let f := (n / d)%Z in
  let r := (n mod d)%Z in
  match (2 * r ?= d)%Z with
  | Lt => f
  | Gt => (f + 1)%Z
  | Eq => if Z.even f then f else (f + 1)%Z
  end.

(** [round(x, 2)] *)
Definition round2 (x : Q) : Q := inject_Z (round_half_even (x * 100)) / 100.

(** [sorted(l, key=key)]: a stable sort, ascending in [key]. *)
Fixpoint insert_by {A} (key : A -> Q) (x : A) (l : list A) : list A :=
  match l with
  | [] => [x]
  | y :: t =>
      if Qle_bool (key x) (key y) then x :: y :: t
      else y :: insert_by key x t
  end.

Definition sorted {A} (key : A -> Q) (l : list A) : list A :=
  fold_right (insert_by key) [] l.

(** [sorted(l, key=key, reverse=True)]: descending in [key], equal keys in
    their original order. *)
Definition sorted_reverse {A} (key : A -> Q) (l : list A) : list A :=
  sorted (fun x => - key x) l.

End Py.

(* ------------------------------------------------------------------ *)
(** ** Exceptions and the process-wide state *)

Inductive Exn : Type :=
| ValueError (msg : string)
| TypeError (msg : string)
| AttributeError (msg : string)
| JSONDecodeError (msg : string)
| ProviderError (msg : string).

(** [str(e)] *)
Definition str_exn (e : Exn) : string :=
  match e with
  | ValueError m | TypeError m | AttributeError m
  | JSONDecodeError m | ProviderError m => m
  end.

Inductive Result (A : Type) : Type :=
| Ok (a : A)
| Raise (e : Exn).

Arguments Ok {A} a.
Arguments Raise {A} e.

(** An embedding vector: [numpy.ndarray] of one dimension. *)
Definition Vec : Type := list Q.

(** [np.zeros(n)] *)
Definition zeros (n : nat) : Vec := repeat 0%Q n.

Inductive Event : Type :=
| CallGetEmbedding (text : string)
| CallVertexEmbed (text : string)
| CallOpenAIEmbed (text : string).

(** What a request handler can observe and change: the memo table of
    [cached_get_embedding], most recently used entry first, and the trace
    of embedding calls made so far. *)
Record World : Type := mkWorld {
  cache : list (string * Vec);
  trace : list Event
}.

Definition M (A : Type) : Type := World -> Result A * World.

Definition ret {A} (a : A) : M A := fun w => (Ok a, w).

Definition raise {A} (e : Exn) : M A := fun w => (Raise e, w).

Definition bind {A B} (c : M A) (k : A -> M B) : M B :=
  fun w =>
    match c w with
    | (Ok a, w') => k a w'
    | (Raise e, w') => (Raise e, w')
    end.

(** [try: body / except Exception as e: handler(e)] *)
Definition try_catch {A} (body : M A) (handler : Exn -> M A) : M A :=
  fun w =>
    match body w with
    | (Ok a, w') => (Ok a, w')
    | (Raise e, w') => handler e w'
    end.

Definition emit (ev : Event) : M unit :=
  fun w => (Ok tt, mkWorld (cache w) (trace w ++ [ev])).

Declare Scope py_scope.
Delimit Scope py_scope with py.
Notation "x <- c ;; k" := (bind c (fun x => k))
  (at level 61, c at next level, right associativity) : py_scope.
Notation "c ;;; k" := (bind c (fun _ => k))
  (at level 61, right associativity) : py_scope.

(* ------------------------------------------------------------------ *)
(** ** classifier.py: embeddings *)

Module Classifier.

Local Open Scope py_scope.

(** The two AI backends as the module sees them after import:
    [USE_VERTEX], [openai_client] (set or [None]) and the four remote
    calls. An embedding call's answer may depend on the trace. A text
    generation answers [Ok None] when the response carries no text. *)
Record Env : Type := mkEnv {
  USE_VERTEX : bool;
  openai_client : bool;
  vertex_get_embeddings : list Event -> string -> Result Vec;
  openai_embeddings_create : list Event -> string -> Result Vec;
  vertex_generate_content : string -> Result (option string);
  openai_chat_create : string -> Result (option string)
}.

Definition call_vertex (E : Env) (text : string) : M Vec :=
  fun w =>
    (vertex_get_embeddings E (trace w) text,
     mkWorld (cache w) (trace w ++ [CallVertexEmbed text])).

(** [openai_client.embeddings.create(...)]: with no client the attribute
    access raises before anything is sent. *)
Definition call_openai (E : Env) (text : string) : M Vec :=
  if openai_client E then
    fun w =>
      (openai_embeddings_create E (trace w) text,
       mkWorld (cache w) (trace w ++ [CallOpenAIEmbed text]))
  else raise (AttributeError "'NoneType' object has no attribute 'embeddings'").

(** [get_embedding(text)] *)
Definition get_embedding (E : Env) (text : string) : M Vec :=
  emit (CallGetEmbedding text) ;;;
  if PyStr.blank text then ret (zeros 768)
  else
    v <- (if USE_VERTEX E
          then try_catch (x <- call_vertex E text ;; ret (Some x))
                         (fun _ => ret None)
          else ret None) ;;
    match v with
    | Some x => ret x
    | None => try_catch (call_openai E text) (fun _ => ret (zeros 1536))
    end.

(** The dimension each backend's vectors have according to the module:
    the empty-text vector is sized for Vertex, the failure vector of the
    OpenAI branch for OpenAI. *)
Inductive Backend : Type := Vertex | OpenAI.

Definition declared_dimension (b : Backend) : nat :=
  match b with Vertex => 768%nat | OpenAI => 1536%nat end.

(** The backend [get_embedding] asks first for a text that is not blank. *)
Definition active_backend (E : Env) : Backend :=
  if USE_VERTEX E then Vertex else OpenAI.

(** No embedding backend succeeds: whatever the trace and the text,
    both remote calls raise. *)
Definition embedding_unreachable (E : Env) : Prop :=
  (forall tr text, exists e, vertex_get_embeddings E tr text = Raise e)
  /\ (forall tr text, exists e, openai_embeddings_create E tr text = Raise e).

Section Cosine.

(** [numpy.sqrt], which has no rational model: kept abstract. *)
Variable sqrt : Q -> Q.

Fixpoint dot (a b : Vec) : Q :=
  match a, b with
  | x :: a', y :: b' => x * y + dot a' b'
  | _, _ => 0
  end.

(** [sklearn.preprocessing.normalize]: a zero norm is replaced by one. *)
Definition normalize (a : Vec) : Vec :=
  let n := sqrt (dot a a) in
  let n' := if Qeq_bool n 0 then 1 else n in
  map (fun x => x / n') a.

(** [cosine_similarities(vec1, vec2)]:
    [float(cosine_similarity([vec1], [vec2])[0][0])]; sklearn refuses rows
    of different lengths and rows without features. *)
Definition cosine_similarities (vec1 vec2 : Vec) : Result Q :=
  if (length vec1 =? 0)%nat || (length vec2 =? 0)%nat
  then Raise (ValueError "Found array with 0 feature(s)")
  else if (length vec1 =? length vec2)%nat
  then Ok (dot (normalize vec1) (normalize vec2))
  else Raise (ValueError "Incompatible dimension for X and Y matrices").

End Cosine.

End Classifier.

(* ------------------------------------------------------------------ *)
(** ** app.py: the embedding cache *)

Module Cache.

Import Classifier.
Local Open Scope py_scope.

(** [@lru_cache(maxsize=1024)] *)
Definition maxsize : nat := 1024.

Fixpoint lookup (k : string) (c : list (string * Vec)) : option Vec :=
  match c with
  | [] => None
  | (k', v) :: r => if String.eqb k k' then Some v else lookup k r
  end.

Fixpoint remove (k : string) (c : list (string * Vec)) : list (string * Vec) :=
  match c with
  | [] => []
  | (k', v) :: r =>
      if String.eqb k k' then remove k r else (k', v) :: remove k r
  end.

(** A hit moves the entry to the front; a miss calls the wrapped function,
    stores its result in front and, past [maxsize] entries, drops the
    entry at the back, the least recently used one. A call that raises
    stores nothing. *)
Definition cached_get_embedding (E : Env) (text : string) : M Vec :=
  fun w =>
    match lookup text (cache w) with
    | Some v => (Ok v, mkWorld ((text, v) :: remove text (cache w)) (trace w))
    | None =>
        match get_embedding E text w with
        | (Ok v, w') =>
            (Ok v, mkWorld (firstn maxsize ((text, v) :: cache w')) (trace w'))
        | (Raise e, w') => (Raise e, w')
        end
    end.

(** [clear_embedding_cache()] *)
Definition clear_embedding_cache : M unit :=
  fun w => (Ok tt, mkWorld [] (trace w)).

(** [cached_get_embedding] called for each text of a list in turn. *)
Fixpoint calls (E : Env) (texts : list string) (w : World) : World :=
  match texts with
  | [] => w
  | t :: rest => calls E rest (snd (cached_get_embedding E t w))
  end.

(** A use of [t]: it becomes the most recently used text of the list. *)
Definition touch (t : string) (used : list string) : list string :=
  t :: filter (fun x => negb (String.eqb x t)) used.

(** The texts of a sequence of requests in the order of their last use,
    the most recently used first, each of them once. *)
Definition by_last_use (texts : list string) : list string :=
  fold_left (fun used t => touch t used) texts [].

(** The calls of [get_embedding] on [text] recorded in a trace. *)
Definition embedder_calls (text : string) (t : list Event) : nat :=
  length (filter (fun ev => match ev with
                            | CallGetEmbedding s => String.eqb s text
                            | _ => false
                            end) t).

(** In every cache the handlers build, a blank key holds the empty-text
    vector. *)
Definition blank_entries_zero (c : list (string * Vec)) : Prop :=
  forall k v, lookup k c = Some v -> PyStr.blank k = true -> v = zeros 768.

(** A cache that holds nothing but failure vectors, as a cache filled
    with texts that are not blank while no backend answers; the empty
    cache is one. *)
Definition failure_cache (c : list (string * Vec)) : Prop :=
  Forall (fun kv => snd kv = zeros 1536) c.

(** The two facts every reachable cache satisfies. *)
Definition cache_ok (w : World) : Prop :=
  (length (cache w) <= maxsize)%nat /\ blank_entries_zero (cache w).

(** A computation that keeps them. *)
Definition keeps {A} (c : M A) : Prop :=
  forall w, cache_ok w -> cache_ok (snd (c w)).

(** The provider requests recorded in a trace. *)
Definition provider_calls (t : list Event) : list Event :=
  filter (fun ev => match ev with
                    | CallGetEmbedding _ => false
                    | _ => true
                    end) t.

End Cache.

(* ------------------------------------------------------------------ *)
(** ** app.py: [api_match] *)

Module App.

Import Classifier Cache.
Local Open Scope py_scope.

(** A job dictionary. Rows of [list_jobs] carry no ["location"] key and a
    possibly NULL description; external jobs carry both. ["source"] and
    ["similarity_pct"] are the keys the matcher writes on its copy. *)
Record Job : Type := mkJob {
  id : string;
  title : string;
  description : option string;
  skills : list string;
  responsibilities : list string;
  qualifications : list string;
  location : option string;
  source : option string;
  similarity_pct : option Q
}.

(** One entry of [local_matches] / [external_matches]. *)
Record Match : Type := mkMatch {
  job : Job;
  similarity : Q
}.

Definition nonempty {A} (l : list A) : bool :=
  match l with [] => false | _ :: _ => true end.

(** The composite text [full_job_desc] of a local job. *)
Definition full_job_desc (j : Job) : string :=
  let job_desc := match description j with Some d => d | None => "" end in
  let s1 := if nonempty (skills j)
            then job_desc ++ PyStr.nl ++ PyStr.nl ++ "Required Skills: "
                 ++ PyStr.join ", " (skills j)
            else job_desc in
  let s2 := if nonempty (responsibilities j)
            then s1 ++ PyStr.nl ++ PyStr.nl ++ "Responsibilities:" ++ PyStr.nl
                 ++ PyStr.join PyStr.nl (responsibilities j)
            else s1 in
  if nonempty (qualifications j)
  then s2 ++ PyStr.nl ++ PyStr.nl ++ "Qualifications:" ++ PyStr.nl
       ++ PyStr.join PyStr.nl (qualifications j)
  else s2.

(** [(j.get("location") or "").lower()] *)
Definition loc_of (j : Job) : string :=
  match location j with Some l => PyStr.lower l | None => "" end.

(** The two [continue] tests of the local loop. *)
Definition local_location_excluded (preferred_location loc : string) : bool :=
  PyStr.truthy preferred_location && PyStr.truthy loc
  && negb (PyStr.contains preferred_location loc).

Definition local_job_type_excluded (job_type title_desc : string) : bool :=
  PyStr.truthy job_type && negb (String.eqb job_type "any")
  && negb (PyStr.contains job_type title_desc).

(** The two [continue] tests of the external loop. *)
Definition external_location_excluded (preferred_location loc : string) : bool :=
  PyStr.truthy preferred_location && negb (PyStr.contains preferred_location loc).

Definition external_job_type_excluded (job_type title_desc : string) : bool :=
  PyStr.truthy job_type && negb (PyStr.contains job_type title_desc).

Definition external_title_desc (j : Job) : string :=
  PyStr.lower (title j ++ " "
               ++ match description j with Some d => d | None => "" end).

(** [candidate_external] *)
Definition candidate_external (preferred_location job_type : string)
    (external_jobs : list Job) : list Job :=
  filter (fun j =>
            negb (external_location_excluded preferred_location (loc_of j))
            && negb (external_job_type_excluded job_type (external_title_desc j)))
         external_jobs.

Definition lift {A} (r : Result A) : M A := fun w => (r, w).

Section Scoring.

Variable sqrt : Q -> Q.
Variable E : Env.

(** [pct = round(sim * 100, 2)] *)
Definition pct_of (resume_emb job_emb : Vec) : Result Q :=
  match cosine_similarities sqrt resume_emb job_emb with
  | Ok sim => Ok (Py.round2 (sim * 100))
  | Raise e => Raise e
  end.

Definition tagged (j : Job) (src : string) (pct : Q) : Match :=
  mkMatch (mkJob (id j) (title j) (description j) (skills j)
                 (responsibilities j) (qualifications j) (location j)
                 (Some src) (Some pct))
          (pct / 100).

(** Phase 1: the loop over [local_jobs]. *)
Fixpoint match_local (resume_emb : Vec) (preferred_location job_type : string)
    (local_jobs : list Job) : M (list Match) :=
  match local_jobs with
  | [] => ret []
  | j :: rest =>
      let full := full_job_desc j in
      if negb (PyStr.truthy (PyStr.strip full))
      then match_local resume_emb preferred_location job_type rest
      else
        r <- try_catch
               (job_emb <- cached_get_embedding E full ;;
                pct <- lift (pct_of resume_emb job_emb) ;;
                ret (Some pct))
               (fun _ => ret None) ;;
        match r with
        | None => match_local resume_emb preferred_location job_type rest
        | Some pct =>
            let title_desc := PyStr.lower (title j ++ " " ++ full) in
            if local_location_excluded preferred_location (loc_of j)
            then match_local resume_emb preferred_location job_type rest
            else if local_job_type_excluded job_type title_desc
            then match_local resume_emb preferred_location job_type rest
            else
              ms <- match_local resume_emb preferred_location job_type rest ;;
              ret (tagged j "local" pct :: ms)
        end
  end.

(** Phase 2: the loop over [candidate_external]; nothing is caught here. *)
Fixpoint match_external (resume_emb : Vec) (candidates : list Job)
    : M (list Match) :=
  match candidates with
  | [] => ret []
  | j :: rest =>
      let desc := match description j with Some d => d | None => "" end in
      job_emb <- cached_get_embedding E desc ;;
      pct <- lift (pct_of resume_emb job_emb) ;;
      ms <- match_external resume_emb rest ;;
      ret (tagged j "external" pct :: ms)
  end.

End Scoring.

(** The effective threshold, from the parsed value of the environment
    variable [MATCH_THRESHOLD] ([None] when it is not set). *)
Definition threshold_pct_of (MATCH_THRESHOLD : option Q) : Q :=
  let threshold_env := match MATCH_THRESHOLD with Some v => v | None => 50 end in
  let threshold_pct :=
    if Py.Qltb threshold_env 1 then threshold_env * 100 else threshold_env in
  Py.max threshold_pct 40.

Definition source_is (s : string) (m : Match) : bool :=
  match source (job m) with Some x => String.eqb x s | None => false end.

(** [m["similarity"] * 100 >= t] *)
Definition reaches (t : Q) (m : Match) : bool :=
  Qle_bool t (similarity m * 100).

(** The threshold filter followed by the local backfill: the value of
    [filtered] after line 901. *)
Definition filter_and_backfill (threshold_pct : Q)
    (local_matches external_matches : list Match) : list Match :=
  let matches := (local_matches ++ external_matches)%list in
  let filtered := filter (reaches threshold_pct) matches in
  let filtered_local_count := length (filter (source_is "local") filtered) in
  if (0 <? length local_matches)%nat && (filtered_local_count =? 0)%nat
  then
    let local_above_30 := filter (reaches 30) local_matches in
    if nonempty local_above_30
    then (local_above_30
          ++ filter (fun m => negb (source_is "local" m)) filtered)%list
    else filtered
  else filtered.

(** The diagnostic messages, with the values their f-strings insert. *)
Inductive Message : Type :=
| MsgNoJobsAtAll
| MsgNoneMeetThreshold (found : nat) (threshold_pct top_sim : Q)
| MsgNoJobsConfigured
| MsgNoJobsForFilters
| MsgNoneSimilar (threshold_pct : Q).

Record MatchBody : Type := mkBody {
  matches : list Match;
  local_matches : list Match;
  external_matches : list Match;
  threshold_pct : Q;
  message : option Message
}.

Inductive Response : Type :=
| Success (b : MatchBody)
| SuccessNoJobs (msg : Message)
| Failure (status : nat) (error : string).

Definition message_of (threshold_pct : Q) (local_jobs external_jobs : list Job)
    (local_matches external_matches filtered : list Match) : option Message :=
  let matches := (local_matches ++ external_matches)%list in
  if nonempty filtered then None
  else
    match matches with
    | top_match :: _ =>
        Some (MsgNoneMeetThreshold (length matches) threshold_pct
                                   (similarity top_match * 100))
    | [] =>
        if (length local_matches =? 0)%nat && (length external_matches =? 0)%nat
        then
          if (length local_jobs =? 0)%nat && (length external_jobs =? 0)%nat
          then Some MsgNoJobsConfigured
          else Some MsgNoJobsForFilters
        else Some (MsgNoneSimilar threshold_pct)
    end.

(** The body of [api_match] from the resolved resume text on; the
    external jobs are those the SerpAPI stage produced (none when it
    failed or is not configured). *)
Definition api_match_body (sqrt : Q -> Q) (E : Env)
    (MATCH_THRESHOLD : option Q)
    (resume_text preferred_location job_type : string)
    (local_jobs external_jobs : list Job) : M Response :=
  if negb (PyStr.truthy resume_text)
  then ret (Failure 400 "resume_text or user_id required")
  else if negb (nonempty local_jobs) && negb (nonempty external_jobs)
  then ret (SuccessNoJobs MsgNoJobsAtAll)
  else
    resume_emb <- cached_get_embedding E resume_text ;;
    lm <- match_local sqrt E resume_emb preferred_location job_type local_jobs ;;
    em <- match_external sqrt E resume_emb
            (candidate_external preferred_location job_type external_jobs) ;;
    let lm := Py.sorted (fun x => - similarity x) lm in
    let em := Py.sorted (fun x => - similarity x) em in
    let t := threshold_pct_of MATCH_THRESHOLD in
    let filtered := filter_and_backfill t lm em in
    ret (Success
           (mkBody filtered
                   (filter (source_is "local") filtered)
                   (filter (source_is "external") filtered)
                   t
                   (message_of t local_jobs external_jobs lm em filtered))).

(** [api_match]: the outer [except Exception] turns any exception into a
    500 response. *)
Definition api_match (sqrt : Q -> Q) (E : Env)
    (MATCH_THRESHOLD : option Q)
    (resume_text preferred_location job_type : string)
    (local_jobs external_jobs : list Job) (w : World) : Response * World :=
  match api_match_body sqrt E MATCH_THRESHOLD resume_text preferred_location
                       job_type local_jobs external_jobs w with
  | (Ok r, w') => (r, w')
  | (Raise e, w') => (Failure 500 (str_exn e), w')
  end.

End App.

(* ------------------------------------------------------------------ *)
(** ** classifier.py: [chat_complete] *)

Module Chat.

Import Classifier.

Definition rbind {A B} (r : Result A) (k : A -> Result B) : Result B :=
  match r with Ok a => k a | Raise e => Raise e end.

(** [try: body / except Exception as e: handler(e)] without state. *)
Definition rtry {A} (body : Result A) (handler : Exn -> Result A) : Result A :=
  match body with Ok a => Ok a | Raise e => handler e end.

(** The scanner behind [re.findall(r'\b[A-Z][a-zA-Z]+\b', prompt)]. *)
Inductive Scan : Type :=
| AtBoundary               (* the previous character is not a word character *)
| InWord                   (* inside a word that cannot match any more *)
| InMatch (acc : string).  (* reading letters after a capital at a boundary *)

Definition emit_match (acc : string) (rest : list string) : list string :=
  if (2 <=? String.length acc)%nat then acc :: rest else rest.

Fixpoint findall_go (st : Scan) (s : string) : list string :=
  match s with
  | EmptyString =>
      match st with InMatch acc => emit_match acc [] | _ => [] end
  | String c r =>
      match st with
      | AtBoundary =>
          if PyStr.is_upper c then findall_go (InMatch (String c EmptyString)) r
          else if PyStr.is_word c then findall_go InWord r
          else findall_go AtBoundary r
      | InWord =>
          if PyStr.is_word c then findall_go InWord r
          else findall_go AtBoundary r
      | InMatch acc =>
          if PyStr.is_alpha c
          then findall_go (InMatch (acc ++ String c EmptyString)) r
          else if PyStr.is_word c then findall_go InWord r
          else emit_match acc (findall_go AtBoundary r)
      end
  end.

Definition findall_capitalized (prompt : string) : list string :=
  findall_go AtBoundary prompt.

(** [a or b] on strings. *)
Definition str_or (a b : string) : string := if PyStr.truthy a then a else b.

Definition fallback_sentence : string :=
  "Sorry, AI response could not be generated at the moment.".

(** The Vertex branch: [Some s] when the function returns [s] from it,
    [None] when control falls through to the OpenAI branch. *)
Definition vertex_branch (E : Env) (prompt : string) : Result (option string) :=
  rtry
    (rbind (vertex_generate_content E prompt) (fun response =>
       match response with
       | Some text =>
           if PyStr.truthy text then Ok (Some (PyStr.strip text)) else Ok None
       | None => Ok None
       end))
    (fun _ =>
       rtry
         (let keywords := findall_capitalized prompt in
          Ok (Some (str_or (PyStr.join " " (firstn 10 keywords))
                           "general job search")))
         (fun _ => Ok None)).

(** The OpenAI branch: [content.strip()] raises when there is no content. *)
Definition openai_branch (E : Env) (prompt : string) : Result (option string) :=
  rtry
    (rbind (openai_chat_create E prompt) (fun content =>
       match content with
       | Some text => Ok (Some (PyStr.strip text))
       | None => Raise (AttributeError "'NoneType' object has no attribute 'strip'")
       end))
    (fun _ => Ok None).

(** The Vertex branch ends without returning and without an exception:
    Vertex is switched off, or its response has no text. *)
Definition vertex_silent (E : Env) (prompt : string) : Prop :=
  USE_VERTEX E = false
  \/ vertex_generate_content E prompt = Ok None
  \/ vertex_generate_content E prompt = Ok (Some EmptyString).

(** OpenAI gives nothing: no client, a failed request, or no content. *)
Definition openai_down (E : Env) (prompt : string) : Prop :=
  openai_client E = false
  \/ (exists e, openai_chat_create E prompt = Raise e)
  \/ openai_chat_create E prompt = Ok None.

(** [chat_complete(prompt)]. The opening [vertexai_init] call sits in a
    [try] of its own and has no bearing on the result. *)
Definition chat_complete (E : Env) (prompt : string) : Result string :=
  rbind (if USE_VERTEX E then vertex_branch E prompt else Ok None) (fun v =>
    match v with
    | Some s => Ok s
    | None =>
        rbind (if openai_client E then openai_branch E prompt else Ok None)
          (fun o =>
             match o with
             | Some s => Ok s
             | None => Ok fallback_sentence
             end)
    end).

End Chat.

(* ------------------------------------------------------------------ *)
(** ** app.py: [api_rag_search] *)

Module Rag.

Import Classifier App Chat.

(** Indices [i] with [sims[i] >= floor], in order. *)
Definition indices_at_least (floor : Q) (sims : list Q) : list (nat * Q) :=
  filter (fun p => Qle_bool floor (snd p)) (combine (seq 0 (length sims)) sims).

(** [valid_indices] after the optional relaxation, paired with their
    similarities ([valid_sims] before it is sorted). *)
Definition valid_sims (RAG_MIN_SIMILARITY : option Q) (sims : list Q)
    : list (nat * Q) :=
  let min_similarity :=
    match RAG_MIN_SIMILARITY with Some v => v | None => 3 # 10 end in
  let valid := indices_at_least min_similarity sims in
  if nonempty valid then valid
  else indices_at_least (2 # 10) sims.

(** [top_indices] *)
Definition top_indices (RAG_MIN_SIMILARITY : option Q) (top_k : Z)
    (sims : list Q) : list nat :=
  map fst (Py.slice_to top_k
             (Py.sorted_reverse snd (valid_sims RAG_MIN_SIMILARITY sims))).

(** Decoded JSON, as [json.loads] returns it. *)
#[warnings="-register-all"]
Inductive Json : Type :=
| JNull
| JBool (b : bool)
| JInt (z : Z)
| JFloat (q : Q)
| JStr (s : string)
| JList (l : list Json)
| JDict (d : list (string * Json)).

(** The two library functions the rerank step relies on: [json.loads]
    and the builtin [int]. *)
Record PyLib : Type := mkPyLib {
  json_loads : string -> Result Json;
  py_int : Json -> Result Z
}.

Fixpoint dict_get (k : string) (d : list (string * Json)) : option Json :=
  match d with
  | [] => None
  | (k', v) :: r => if String.eqb k k' then Some v else dict_get k r
  end.

(** One element of [results]. The explanation is whatever value the
    decoded object holds under ["explanation"]. *)
Record ResultEntry : Type := mkEntry {
  entry_job : Job;
  entry_similarity : Q;
  match_score : Q;
  match_explanation : Json;
  llm_score : option Z
}.

Definition with_explanation (x : Json) (r : ResultEntry) : ResultEntry :=
  mkEntry (entry_job r) (entry_similarity r) (match_score r) x (llm_score r).

Definition with_llm_score (z : Z) (r : ResultEntry) : ResultEntry :=
  mkEntry (entry_job r) (entry_similarity r) (match_score r)
          (match_explanation r) (Some z).

Definition dq : string := String (ascii_of_nat 34) EmptyString.
Definition lbrace : ascii := ascii_of_nat 123.
Definition rbrace : ascii := ascii_of_nat 125.

(** The rerank prompt for one candidate. *)
Definition rerank_prompt (resume_text job_desc : string) : string :=
  "Analyze how well this resume matches the job description. "
  ++ "Provide a detailed explanation of the match, highlighting:" ++ PyStr.nl
  ++ "1. Key skills that match" ++ PyStr.nl
  ++ "2. Experience alignment" ++ PyStr.nl
  ++ "3. Any gaps or areas for improvement" ++ PyStr.nl ++ PyStr.nl
  ++ "Resume (first 2000 chars):" ++ PyStr.nl
  ++ PyStr.take 2000 resume_text ++ PyStr.nl ++ PyStr.nl
  ++ "Job Description:" ++ PyStr.nl
  ++ PyStr.take 2000 job_desc ++ PyStr.nl ++ PyStr.nl
  ++ "Return a JSON object with: {" ++ dq ++ "score" ++ dq ++ ": <0-100>, "
  ++ dq ++ "explanation" ++ dq ++ ": " ++ dq ++ "<detailed explanation>"
  ++ dq ++ "}".

(** [llm_out[start:end]] with [start = find("{")], [end = rfind("}") + 1];
    only read when both braces occur. *)
Definition json_span (llm_out : string) : string :=
  match PyStr.find lbrace llm_out, PyStr.rfind rbrace llm_out with
  | Some start, Some last => PyStr.slice start (S last) llm_out
  | _, _ => EmptyString
  end.

(** ["{" in llm_out and "}" in llm_out] *)
Definition has_braces (llm_out : string) : bool :=
  PyStr.contains "{" llm_out && PyStr.contains "}" llm_out.

(** The body of the rerank [try], given what [chat_complete] returned. *)
Definition parse_into (L : PyLib) (llm_out : string) (r : ResultEntry)
    : Result ResultEntry :=
  if has_braces llm_out then
    rbind (json_loads L (json_span llm_out)) (fun parsed =>
      match parsed with
      | JDict d =>
          rbind
            (match dict_get "score" d with
             | None | Some JNull => Ok r
             | Some v => rbind (py_int L v) (fun z => Ok (with_llm_score z r))
             end)
            (fun r' =>
               Ok (with_explanation
                     (match dict_get "explanation" d with
                      | Some x => x
                      | None => JStr ""
                      end) r'))
      | _ => Ok r
      end)
  else Ok (with_explanation (JStr llm_out) r).

(** The rerank step for one candidate: the [try] and its [except]. An
    exception leaves the entry as it was when it was raised, which is
    the fresh entry: [llm_score] is only written after [int] returned.
    [job_desc] is the job's ["full_description"]: the composite text of a
    catalog row, the description of an external posting (which has no
    skill, responsibility or qualification list). *)
Definition rerank_entry (L : PyLib) (E : Env) (resume_text : string)
    (r : ResultEntry) : ResultEntry :=
  let job_desc := full_job_desc (entry_job r) in
  let outcome :=
    rtry
      (rbind (chat_complete E (rerank_prompt resume_text job_desc))
             (fun llm_out => parse_into L llm_out r))
      (fun e =>
         Ok (with_explanation
               (JStr ("Analysis unavailable: " ++ str_exn e)) r)) in
  match outcome with Ok r' => r' | Raise _ => r end.

(** [raw_results] turned into fresh entries. *)
Definition fresh_entry (j : Job) (score : Q) : ResultEntry :=
  mkEntry j score (Py.round2 (score * 100)) (JStr "") None.

Definition has_llm_score (r : ResultEntry) : bool :=
  match llm_score r with Some _ => true | None => false end.

(** [x.get("llm_score", x.get("match_score", 0))] *)
Definition rank_key (r : ResultEntry) : Q :=
  match llm_score r with Some z => inject_Z z | None => match_score r end.

(** [results] after the rerank loop and the final sort. *)
Definition rag_results (L : PyLib) (E : Env) (rerank : bool)
    (resume_text : string) (entries : list ResultEntry) : list ResultEntry :=
  let results :=
    if rerank then map (rerank_entry L E resume_text) entries else entries in
  if rerank && existsb has_llm_score results
  then Py.sorted_reverse rank_key results
  else Py.sorted_reverse match_score results.

End Rag.

(* ------------------------------------------------------------------ *)
(** ** app.py: deriving the external search query *)

Module Query.

Definition placeholder : string := "software engineer".

Definition first_in (vocabulary : list string) (text : string) : option string :=
  List.find (fun term => PyStr.contains term text) vocabulary.

(** [term] is the first entry of the vocabulary that occurs in [text]. *)
Definition first_occurring (vocabulary : list string) (text term : string)
    : Prop :=
  exists before after,
    vocabulary = (before ++ term :: after)%list
    /\ PyStr.contains term text = true
    /\ forall u, In u before -> PyStr.contains u text = false.

(** No entry of the vocabulary occurs in [text]. *)
Definition none_occurs (vocabulary : list string) (text : string) : Prop :=
  forall u, In u vocabulary -> PyStr.contains u text = false.

(** *** In [api_match] (lines 640-670) *)

Definition match_titles : list string :=
  ["engineer"; "developer"; "analyst"; "scientist"; "manager"; "designer";
   "architect"; "programmer"].

(** The query as cleaned from the model's text, before the length test. *)
Definition match_extract (raw : string) : string :=
  let query := PyStr.strip raw in
  let query :=
    PyStr.strip (PyStr.remove_char "'" (PyStr.remove_char (ascii_of_nat 34) query)) in
  let query :=
    if PyStr.startswith (PyStr.lower query) "query:"
    then PyStr.strip (PyStr.drop 6 query) else query in
  let query :=
    if PyStr.startswith query "```"
    then PyStr.strip (PyStr.join PyStr.nl
                        (Py.inner (PyStr.split_on (ascii_of_nat 10) query)))
    else query in
  let words := firstn 5 (PyStr.split query) in
  PyStr.take 50 (PyStr.join " " words).

(** [not query or len(query) < 3] *)
Definition too_short (query : string) : bool :=
  negb (PyStr.truthy query) || (String.length query <? 3)%nat.

(** The [try] body, from the text [chat_complete] returned. *)
Definition match_clean (raw : string) : string :=
  let query := match_extract raw in
  if too_short query then placeholder else query.

(** The words the handler takes for skills: alphabetic, longer than three
    characters, among the first 300 characters of the resume. *)
Definition leading_words (resume_text : string) : list string :=
  firstn 3 (filter (fun w => (3 <? String.length w)%nat && PyStr.isalpha w)
                   (PyStr.split (PyStr.take 300 resume_text))).

(** The [except] handler. *)
Definition match_fallback (resume_text : string) : string :=
  let resume_lower := PyStr.lower resume_text in
  let found_title := first_in match_titles resume_lower in
  let skills := leading_words resume_text in
  let query_parts :=
    ((match found_title with Some t => [PyStr.title t] | None => [] end)
     ++ firstn 2 skills)%list in
  if App.nonempty query_parts then PyStr.join " " query_parts else placeholder.

(** [query] in [api_match], from the outcome of
    [chat_complete(query_prompt)]. *)
Definition match_query (llm : Result string) (resume_text : string) : string :=
  match llm with
  | Ok raw => match_clean raw
  | Raise _ => match_fallback resume_text
  end.

(** *** In [api_rag_search] (lines 1006-1057) *)

Definition rag_prefixes : list string :=
  ["Query:"; "Search:"; "Jobs:"; "The query is:"; "Query is:"].

Definition rag_titles : list string :=
  ["engineer"; "developer"; "analyst"; "scientist"; "manager"; "designer";
   "architect"; "consultant"; "specialist"].

Definition rag_skills : list string :=
  ["python"; "java"; "react"; "javascript"; "sql"; "data";
   "machine learning"; "ai"; "cloud"; "aws"].

(** The query as cleaned from the model's text, before the length test. *)
Definition rag_clean (raw : string) : string :=
  let query := PyStr.strip raw in
  let query :=
    PyStr.strip (PyStr.remove_char "'" (PyStr.remove_char (ascii_of_nat 34) query)) in
  let query :=
    fold_left (fun q prefix =>
                 if PyStr.startswith (PyStr.lower q) (PyStr.lower prefix)
                 then PyStr.strip (PyStr.drop (String.length prefix) q)
                 else q)
              rag_prefixes query in
  let words :=
    firstn 5 (filter (fun w => (2 <? String.length w)%nat) (PyStr.split query)) in
  PyStr.take 50 (PyStr.join " " words).

(** The scan run when the cleaned query is too short. *)
Definition rag_scan (resume_text : string) : string :=
  let resume_lower := PyStr.lower resume_text in
  let found_title := first_in rag_titles resume_lower in
  let found_skill := first_in rag_skills resume_lower in
  match found_title, found_skill with
  | Some t, Some s => PyStr.title t ++ " " ++ PyStr.title s
  | Some t, None => PyStr.title t
  | None, _ => placeholder
  end.

(** The [except] handler. *)
Definition rag_fallback (resume_text : string) : string :=
  let resume_lower := PyStr.lower resume_text in
  if PyStr.contains "data" resume_lower && PyStr.contains "scientist" resume_lower
  then "Data Scientist"
  else if PyStr.contains "engineer" resume_lower
          || PyStr.contains "developer" resume_lower
  then "Software Engineer"
  else placeholder.

(** [query] in [api_rag_search]. *)
Definition rag_query (llm : Result string) (resume_text : string) : string :=
  match llm with
  | Ok raw =>
      let query := rag_clean raw in
      if too_short query then rag_scan resume_text else query
  | Raise _ => rag_fallback resume_text
  end.

End Query.

(* ------------------------------------------------------------------ *)
(** ** classifier.py: [match_resume_to_job] *)

Module ClassifierMatch.

Import Classifier App.
Local Open Scope py_scope.

(** [match_resume_to_job(resume_text, job_description)]: two uncached
    embeddings, their cosine, as a percentage with two decimals. *)
Definition match_resume_to_job (sqrt : Q -> Q) (E : Env)
    (resume_text job_description : string) : M Q :=
  emb_resume <- get_embedding E resume_text ;;
  emb_job <- get_embedding E job_description ;;
  similarity <- lift (cosine_similarities sqrt emb_resume emb_job) ;;
  ret (Py.round2 (similarity * 100)).

End ClassifierMatch.

(* ------------------------------------------------------------------ *)
(** ** app.py: scoring submitted answers, generating questions *)

Module Assessment.

Import Classifier Chat Rag.

(** Truthiness of a decoded JSON value. *)
Definition json_truthy (x : Json) : bool :=
  match x with
  | JNull => false
  | JBool b => b
  | JInt z => negb (z =? 0)%Z
  | JFloat q => negb (Qeq_bool q 0)
  | JStr s => PyStr.truthy s
  | JList l => App.nonempty l
  | JDict d => App.nonempty d
  end.

(** [a or b] *)
Definition json_or (a b : Json) : Json := if json_truthy a then a else b.

(** [d.get(k, default)] and [d.get(k)] *)
Definition get_or (k : string) (d : list (string * Json)) (default : Json)
    : Json :=
  match dict_get k d with Some v => v | None => default end.

Definition get_none (k : string) (d : list (string * Json)) : Json :=
  get_or k d JNull.

(** The sum of a list of integers. *)
Definition zsum (l : list Z) : Z := fold_right Z.add 0%Z l.

(** [str(n)] for a natural number. *)
Definition str_nat (n : nat) : string :=
  NilEmpty.string_of_uint (Nat.to_uint n).

Section Submit.

Variable L : PyLib.
Variable E : Env.

(** [str(x)], also what an f-string writes for [{x}]. *)
Variable py_str : Json -> string.

(** [job.get('description', '')] and the [answers] dictionary. *)
Variable job_description : Json.
Variable answers : list (string * Json).

(** [qtxt] *)
Definition question_text (q : Json) : Json :=
  match q with
  | JDict d =>
      json_or (get_none "question" d) (json_or (get_none "text" d) (JStr ""))
  | _ => JStr (py_str q)
  end.

Definition validate_prompt (qtxt ans : Json) : string :=
  "Job description: " ++ py_str job_description ++ PyStr.nl
  ++ "Question: " ++ py_str qtxt ++ PyStr.nl
  ++ "Answer: " ++ py_str ans ++ PyStr.nl
  ++ "Assess relevance from 0-100 and say if likely copied or original. "
  ++ "Return JSON like {'score':int,'originality':'original'|'copied','feedback':'...'}".

(** What the model answers for the question at position [idx]. *)
Definition model_output (idx : nat) (q : Json) : Result string :=
  let key := str_nat (idx + 1) in
  chat_complete E
    (validate_prompt (question_text q) (get_or key answers (JStr ""))).

(** [parsed]: the decoded output, or the stand-in when it does not decode. *)
Definition validation_of (out : string) : Json :=
  match json_loads L out with
  | Ok parsed => parsed
  | Raise _ =>
      JDict [("score", JInt 70); ("originality", JStr "original");
             ("feedback", JStr (PyStr.take 200 out))]
  end.

(** [int(parsed.get("score", 70))]; a value that is not a dictionary has
    no [get]. *)
Definition score_of (parsed : Json) : Result Z :=
  match parsed with
  | JDict d => py_int L (get_or "score" d (JInt 70))
  | _ => Raise (AttributeError "object has no attribute 'get'")
  end.

(** One entry of [results]. *)
Record Validated : Type := mkValidated {
  v_key : string;
  v_question : Json;
  v_answer : Json;
  v_validation : Json
}.

(** The loop over [enumerate(questions)], from position [idx] with the
    score and the results accumulated so far. *)
Fixpoint assess_loop (idx : nat) (questions : list Json) (total_score : Z)
    (results : list Validated) : Result (Z * list Validated) :=
  match questions with
  | [] => Ok (total_score, results)
  | q :: rest =>
      let key := str_nat (idx + 1) in
      let ans := get_or key answers (JStr "") in
      let qtxt := question_text q in
      rbind (model_output idx q) (fun out =>
        let parsed := validation_of out in
        let results' :=
          (results ++ [mkValidated key qtxt ans parsed])%list in
        rbind (score_of parsed) (fun s =>
          assess_loop (S idx) rest (total_score + s)%Z results'))
  end.

(** [percent] *)
Definition percent_of (total_score : Z) (questions : list Json) : Q :=
  if App.nonempty questions
  then Py.round2 (inject_Z total_score
                  / (inject_Z (Z.of_nat (length questions)) * 100) * 100)
  else 0.

(** The scoring part of [api_submit_answers] (lines 1279-1300): percent,
    status and results, or the exception that makes the endpoint answer
    500. [PASS_THRESHOLD] is the parsed value of the environment
    variable, [None] when it is not set. *)
Definition assess (PASS_THRESHOLD : option Q) (questions : list Json)
    : Result (Q * string * list Validated) :=
  rbind (assess_loop 0 questions 0%Z []) (fun tr =>
    let percent := percent_of (fst tr) questions in
    let threshold := match PASS_THRESHOLD with Some v => v | None => 60 end in
    let status := if Qle_bool threshold percent then "passed" else "failed" in
    Ok (percent, status, snd tr)).

End Submit.

Section Generate.

Variable L : PyLib.
Variable E : Env.
Variable py_str : Json -> string.

(** [job_context] *)
Definition job_context (j : App.Job) : string :=
  let c0 :=
    "Job Title: " ++ App.title j ++ PyStr.nl ++ PyStr.nl
    ++ "Description: "
    ++ match App.description j with Some d => d | None => "None" end
    ++ PyStr.nl ++ PyStr.nl in
  let c1 := if App.nonempty (App.skills j)
            then c0 ++ "Required Skills: " ++ PyStr.join ", " (App.skills j)
                 ++ PyStr.nl ++ PyStr.nl
            else c0 in
  let c2 := if App.nonempty (App.responsibilities j)
            then c1 ++ "Responsibilities:" ++ PyStr.nl
                 ++ PyStr.join PyStr.nl (App.responsibilities j)
                 ++ PyStr.nl ++ PyStr.nl
            else c1 in
  if App.nonempty (App.qualifications j)
  then c2 ++ "Qualifications:" ++ PyStr.nl
       ++ PyStr.join PyStr.nl (App.qualifications j) ++ PyStr.nl ++ PyStr.nl
  else c2.

Definition questions_prompt (j : App.Job) (experience_level : string) : string :=
  "Generate 5-7 technical interview questions for this job posting. The questions should be:"
  ++ PyStr.nl
  ++ "1. Relevant to the job description and required skills" ++ PyStr.nl
  ++ "2. Appropriate for " ++ experience_level ++ " level candidates" ++ PyStr.nl
  ++ "3. Cover both technical skills and problem-solving abilities" ++ PyStr.nl
  ++ "4. Mix of conceptual and practical questions" ++ PyStr.nl ++ PyStr.nl
  ++ "Job Details:" ++ PyStr.nl
  ++ job_context j ++ PyStr.nl ++ PyStr.nl
  ++ "Return the questions as a JSON array of strings. Each question should be clear, specific, and test relevant technical knowledge."
  ++ PyStr.nl ++ PyStr.nl
  ++ "Example format:" ++ PyStr.nl
  ++ "[" ++ dq ++ "What is the difference between REST and GraphQL APIs?" ++ dq
  ++ ", " ++ dq ++ "How would you optimize a slow database query?" ++ dq
  ++ ", ...]" ++ PyStr.nl ++ PyStr.nl
  ++ "Return ONLY the JSON array, no other text:".

(** [re.search(r'\[.*\]', response, re.DOTALL)]: from the first opening
    bracket to the last closing bracket, when the latter comes later. *)
Definition bracket_span (response : string) : option string :=
  match PyStr.find "[" response, PyStr.rfind "]" response with
  | Some i, Some j =>
      if (i <? j)%nat then Some (PyStr.slice i (S j) response) else None
  | _, _ => None
  end.

(** [generic_questions] *)
Definition generic_questions (skills : list string) : list string :=
  map (fun skill => "Explain your experience with " ++ skill ++ ".")
      (firstn 3 skills).

(** The text handed to [json.loads]: the bracketed span, or the whole
    response when there is none. *)
Definition questions_text (response : string) : string :=
  match bracket_span response with
  | Some span => span
  | None => response
  end.

(** The questions as decoded and topped up, before they are stored. *)
Definition build_questions (response : string) (skills : list string)
    : Result (list Json) :=
  rbind (json_loads L (questions_text response))
        (fun decoded =>
           let questions :=
             match decoded with
             | JList l => l
             | other => [JStr (py_str other)]
             end in
           Ok (if (length questions <? 5)%nat
               then (questions
                     ++ map JStr (firstn (5 - length questions)
                                         (generic_questions skills)))%list
               else questions)).

Definition fallback_questions : list string :=
  ["What relevant experience do you have for this role?";
   "Describe a challenging technical problem you've solved.";
   "How do you stay updated with the latest technologies in this field?";
   "What is your approach to debugging and troubleshooting?";
   "Can you walk us through a project you're proud of?"].

(** The inner [try] of [api_generate_questions] for a job that exists:
    the questions returned, and whether the note about the fallback is
    attached. [store] is the UPDATE of the job row. *)
Definition generate_questions (store : list Json -> Result unit)
    (j : App.Job) (experience_level : string) : list Json * bool :=
  match
    rbind (chat_complete E (questions_prompt j experience_level))
      (fun response =>
         rbind (build_questions response (App.skills j)) (fun questions =>
           rbind (store questions) (fun _ => Ok questions)))
  with
  | Ok questions => (questions, false)
  | Raise _ => (map JStr fallback_questions, true)
  end.

End Generate.

End Assessment.

(* ------------------------------------------------------------------ *)
(** ** app.py: external postings from the job-search provider *)

Module External.

(** A value of the provider's highlight lists: a list of strings, or a
    single string. *)
Inductive Highlight : Type :=
| HList (l : list string)
| HText (s : string).

Definition highlight_truthy (h : Highlight) : bool :=
  match h with
  | HList l => App.nonempty l
  | HText s => PyStr.truthy s
  end.

(** [quals if isinstance(quals, list) else [str(quals)]] *)
Definition highlight_lines (h : Highlight) : list string :=
  match h with
  | HList l => l
  | HText s => [s]
  end.

(** One element of [jobs_results] that is a dictionary (the loop skips
    the others), with the keys the code reads; a key that is absent is
    [None]. [job_highlights_is_dict] tells whether ["job_highlights"] is
    absent or a dictionary, the two highlight fields being its
    ["Qualifications"] and ["Responsibilities"]; [apply_options] lists
    the ["link"] of each option. *)
Record RawItem : Type := mkRawItem {
  raw_title : option string;
  raw_description : option string;
  raw_qualifications : option Highlight;
  raw_responsibilities : option Highlight;
  job_highlights_is_dict : bool;
  raw_via : option string;
  raw_company_name : option string;
  raw_job_id : option string;
  raw_location : option string;
  apply_options : list (option string)
}.

(** A normalised external job. *)
Record Posting : Type := mkPosting {
  p_id : string;
  p_title : string;
  p_description : string;
  p_location : string;
  p_company : string;
  p_apply_link : string;
  p_source : string;
  p_via : string
}.

Definition get_str (x : option string) : string :=
  match x with Some s => s | None => "" end.

(** [item.get("title") and item.get("description")] *)
Definition usable (item : RawItem) : bool :=
  PyStr.truthy (get_str (raw_title item))
  && PyStr.truthy (get_str (raw_description item)).

Definition append_highlight (desc : string) (h : option Highlight) : string :=
  match h with
  | Some x =>
      if highlight_truthy x
      then desc ++ PyStr.nl ++ PyStr.join PyStr.nl (highlight_lines x)
      else desc
  | None => desc
  end.

(** [desc] after the highlights are appended. *)
Definition full_description (item : RawItem) : string :=
  let desc := get_str (raw_description item) in
  if job_highlights_is_dict item
  then append_highlight (append_highlight desc (raw_qualifications item))
                        (raw_responsibilities item)
  else desc.

(** [is_company_site] *)
Definition is_company_site (item : RawItem) : bool :=
  let via := PyStr.lower (get_str (raw_via item)) in
  PyStr.contains "company" via || PyStr.contains "direct" via
  || PyStr.contains (PyStr.lower (get_str (raw_company_name item))) via.

(** The first option's link, when there is an option. *)
Definition apply_link (item : RawItem) : string :=
  match apply_options item with
  | first :: _ => get_str first
  | [] => ""
  end.

(** [job_data] in [api_match]; [fresh] is the [uuid4] drawn for the item. *)
Definition posting (fresh : string) (item : RawItem) : Posting :=
  mkPosting
    ("ext_" ++ match raw_job_id item with Some i => i | None => fresh end)
    (get_str (raw_title item))
    (PyStr.take 4000 (full_description item))
    (get_str (raw_location item))
    (match raw_company_name item with
     | Some c => c
     | None => get_str (raw_via item)
     end)
    (apply_link item)
    (if is_company_site item then "company" else "other")
    (get_str (raw_via item)).

Definition is_company (p : Posting) : bool := String.eqb (p_source p) "company".

(** The postings built by the loop over [items[:n]], in order; [uuid4 i]
    is the identifier drawn at position [i]. *)
Definition postings_of (build : string -> RawItem -> Posting)
    (uuid4 : nat -> string) (n : nat) (items : list RawItem) : list Posting :=
  map (fun ix => build (uuid4 (fst ix)) (snd ix))
      (filter (fun ix => usable (snd ix))
              (combine (seq 0 (length (firstn n items))) (firstn n items))).

(** [external_jobs] in [api_match]:
    [company_jobs[:10] + other_jobs[:5]]. *)
Definition external_jobs (uuid4 : nat -> string) (items : list RawItem)
    : list Posting :=
  let ps := postings_of posting uuid4 20 items in
  (firstn 10 (filter is_company ps)
   ++ firstn 5 (filter (fun p => negb (is_company p)) ps))%list.

(** The dictionary appended in [api_rag_search]; it has no ["via"] key. *)
Definition rag_posting (fresh : string) (item : RawItem) : Posting :=
  mkPosting
    ("ext_" ++ match raw_job_id item with Some i => i | None => fresh end)
    (get_str (raw_title item))
    (PyStr.take 4000 (full_description item))
    (get_str (raw_location item))
    (get_str (raw_company_name item))
    (apply_link item)
    "external"
    "".

(** [external_jobs] in [api_rag_search]. *)
Definition rag_external_jobs (uuid4 : nat -> string) (items : list RawItem)
    : list Posting :=
  postings_of rag_posting uuid4 15 items.

(** The posting as the matcher reads it. *)
Definition job_of (p : Posting) : App.Job :=
  App.mkJob (p_id p) (p_title p) (Some (p_description p)) [] [] []
            (Some (p_location p)) (Some (p_source p)) None.

End External.

(* ------------------------------------------------------------------ *)
(** ** gcp_secrets.py: [get_secret] *)

Module Secrets.

(** How fetching and decoding a secret can fail: the two exceptions
    [get_secret] catches, and any other one (missing credentials, a
    payload that is not UTF-8). *)
Inductive AccessError : Type :=
| NotFound (msg : string)
| GoogleAPICallError (msg : string)
| OtherError (msg : string).

Inductive Access : Type :=
| Payload (s : string)
| Fails (e : AccessError).

(** What [get_secret] raises: its own [RuntimeError], or an exception it
    does not catch. *)
Inductive SecretExn : Type :=
| RuntimeError (msg : string)
| Uncaught (msg : string).

Inductive Outcome (A : Type) : Type :=
| Returned (a : A)
| Raised (e : SecretExn).

Arguments Returned {A} a.
Arguments Raised {A} e.

(** What the process sees outside itself: [os.getenv] and the request
    [_client().access_secret_version(name=name)] followed by the decoding
    of its payload. *)
Record Outside : Type := mkOutside {
  getenv : string -> option string;
  access_secret_version : string -> Access
}.

Definition opt_truthy (x : option string) : bool :=
  match x with Some s => PyStr.truthy s | None => false end.

(** [a or b] on optional strings. *)
Definition opt_or (a b : option string) : option string :=
  if opt_truthy a then a else b.

(** [_resolve_project_id(explicit_project)] *)
Definition resolve_project_id (O : Outside) (explicit_project : option string)
    : option string :=
  if opt_truthy explicit_project then explicit_project
  else opt_or (getenv O "GCP_PROJECT")
              (opt_or (getenv O "GOOGLE_CLOUD_PROJECT")
                      (getenv O "GCLOUD_PROJECT")).

(** The arguments of one call. *)
Record Args : Type := mkArgs {
  secret_id : string;
  project_id : option string;
  version : string;
  default : option string;
  required : bool
}.

Definition is_none (x : option string) : bool :=
  match x with Some _ => false | None => true end.

(** [raise RuntimeError(msg)] when the secret is required and has no
    default, [return default] otherwise. *)
Definition unavailable (a : Args) (msg : string) : Outcome (option string) :=
  if required a && is_none (default a) then Raised (RuntimeError msg)
  else Returned (default a).

(** [project] *)
Definition get_project (O : Outside) (a : Args) : string :=
  match resolve_project_id O (project_id a) with Some p => p | None => "" end.

Definition unresolved_message (a : Args) : string :=
  "Cannot resolve project for secret '" ++ secret_id a
  ++ "'. Set GCP_PROJECT/GOOGLE_CLOUD_PROJECT or provide project_id.".

(** [name], when a project is resolved. *)
Definition secret_name (O : Outside) (a : Args) : option string :=
  match resolve_project_id O (project_id a) with
  | Some project =>
      if PyStr.truthy project
      then Some ("projects/" ++ project ++ "/secrets/" ++ secret_id a
                 ++ "/versions/" ++ version a)
      else None
  | None => None
  end.

(** The body of [get_secret]. *)
Definition get_secret_body (O : Outside) (a : Args) : Outcome (option string) :=
  match getenv O (secret_id a) with
  | Some env_override => Returned (Some env_override)
  | None =>
      match secret_name O a with
      | None => unavailable a (unresolved_message a)
      | Some name =>
          match access_secret_version O name with
          | Payload payload => Returned (Some payload)
          | Fails (NotFound _) =>
              unavailable a ("Secret '" ++ secret_id a ++ "' (version '"
                         ++ version a ++ "') not found in project '"
                         ++ get_project O a ++ "'.")
          | Fails (GoogleAPICallError exc) =>
              unavailable a ("Failed to access secret '" ++ secret_id a
                         ++ "': " ++ exc)
          | Fails (OtherError exc) => Raised (Uncaught exc)
          end
      end
  end.

Definition opt_eqb (x y : option string) : bool :=
  match x, y with
  | Some a, Some b => String.eqb a b
  | None, None => true
  | _, _ => false
  end.

(** Equality of two argument tuples, the key of the memo table. *)
Definition args_eqb (a b : Args) : bool :=
  String.eqb (secret_id a) (secret_id b)
  && opt_eqb (project_id a) (project_id b)
  && String.eqb (version a) (version b)
  && opt_eqb (default a) (default b)
  && Bool.eqb (required a) (required b).

Definition Memo : Type := list (Args * option string).

Fixpoint memo_lookup (a : Args) (m : Memo) : option (option string) :=
  match m with
  | [] => None
  | (k, v) :: r => if args_eqb a k then Some v else memo_lookup a r
  end.

Fixpoint memo_remove (a : Args) (m : Memo) : Memo :=
  match m with
  | [] => []
  | (k, v) :: r =>
      if args_eqb a k then memo_remove a r else (k, v) :: memo_remove a r
  end.

(** [get_secret] under [@lru_cache(maxsize=256)]: a result that was
    returned is kept, most recent first; an exception is not kept. *)
Definition get_secret (O : Outside) (a : Args) (m : Memo)
    : Outcome (option string) * Memo :=
  match memo_lookup a m with
  | Some v => (Returned v, (a, v) :: memo_remove a m)
  | None =>
      match get_secret_body O a with
      | Returned v => (Returned v, firstn 256 ((a, v) :: m))
      | Raised e => (Raised e, m)
      end
  end.

End Secrets.

(* ------------------------------------------------------------------ *)
(** ** mcp_server.py: the tool registry and the job-search tool *)

Module Mcp.

Import Rag.

(** One entry of [ToolRegistry.tools]. *)
Record Tool : Type := mkTool {
  tool_name : string;
  tool_description : string;
  tool_parameters : Json
}.

(** [self.tools[name] = {...}] on a dictionary kept in insertion order:
    a name already present keeps its place and gets the new value. *)
Fixpoint dict_set (t : Tool) (tools : list Tool) : list Tool :=
  match tools with
  | [] => [t]
  | x :: r =>
      if String.eqb (tool_name t) (tool_name x) then t :: r
      else x :: dict_set t r
  end.

(** [register_tool(name, description, parameters)]; [parameters or {}]. *)
Definition register_tool (name description : string)
    (parameters : option Json) (tools : list Tool) : list Tool :=
  dict_set (mkTool name description
              (match parameters with
               | Some p => if Assessment.json_truthy p then p else JDict []
               | None => JDict []
               end))
           tools.

(** [get_tools()] *)
Definition get_tools (tools : list Tool) : list Tool := tools.

Fixpoint find_tool (name : string) (tools : list Tool) : option Tool :=
  match tools with
  | [] => None
  | x :: r => if String.eqb name (tool_name x) then Some x else find_tool name r
  end.

(** What the tool raises inside its [try]. *)
Inductive ToolExn : Type :=
| HTTPException (status_code : nat) (detail : string)
| RequestError (msg : string).

Inductive Attempt (A : Type) : Type :=
| Done (a : A)
| Failed (e : ToolExn).

Arguments Done {A} a.
Arguments Failed {A} e.

(** One element of ["results"]. *)
Record Found : Type := mkFound {
  f_title : string;
  f_company : string;
  f_location : string;
  f_description : string;
  f_apply_link : string
}.

(** The body of a tool's answer. *)
Record Answer : Type := mkAnswer {
  ok : bool;
  error : option string;
  results : list Found
}.

Section SearchTool.

(** [str(e)] for the exceptions of the tool. *)
Variable str_exn : ToolExn -> string.

(** The environment variables [JOB_LOCATION] and [SERPAPI_KEY]. *)
Variable JOB_LOCATION : option string.
Variable SERPAPI_KEY : option string.

(** The request to the provider with its parameters (query, key,
    location, limit), up to the list under ["jobs_results"]; an element
    that is not a dictionary is [None]. *)
Variable serpapi : string -> string -> string -> Z ->
                   Attempt (list (option External.RawItem)).

(** [isinstance(item, dict) and item.get("title")] *)
Definition titled (item : option External.RawItem) : bool :=
  match item with
  | Some i => PyStr.truthy (External.get_str (External.raw_title i))
  | None => false
  end.

Definition found_of (item : External.RawItem) : Found :=
  mkFound (External.get_str (External.raw_title item))
          (External.get_str (External.raw_company_name item))
          (External.get_str (External.raw_location item))
          (External.get_str (External.raw_description item))
          (External.apply_link item).

(** The results built from the items that pass the test. *)
Fixpoint found_list (items : list (option External.RawItem)) : list Found :=
  match items with
  | [] => []
  | Some i :: rest =>
      if titled (Some i) then found_of i :: found_list rest
      else found_list rest
  | None :: rest => found_list rest
  end.

(** The [try] body of [search_jobs_tool]. [location] is [None] when the
    request names none; [limit] is the value read from the request, 10
    when it names none. *)
Definition search_jobs_body (query : string) (location : option string)
    (limit : Z) : Attempt Answer :=
  let location :=
    match location with
    | Some l => l
    | None => match JOB_LOCATION with Some l => l | None => "United States" end
    end in
  if negb (PyStr.truthy query)
  then Failed (HTTPException 400 "query is required")
  else
    match SERPAPI_KEY with
    | Some api_key =>
        if PyStr.truthy api_key then
          match serpapi query api_key location limit with
          | Done items =>
              Done (mkAnswer true None
                      (found_list (Py.slice_to limit items)))
          | Failed e => Failed e
          end
        else Done (mkAnswer false (Some "SERPAPI_KEY not configured") [])
    | None => Done (mkAnswer false (Some "SERPAPI_KEY not configured") [])
    end.

(** [search_jobs_tool]: the [except Exception] turns every exception,
    the [HTTPException] included, into an answer. *)
Definition search_jobs_tool (query : string) (location : option string)
    (limit : Z) : Answer :=
  match search_jobs_body query location limit with
  | Done a => a
  | Failed e => mkAnswer false (Some (str_exn e)) []
  end.

End SearchTool.

End Mcp.

(* ------------------------------------------------------------------ *)
(** ** app.py: the job table and the endpoints that write it *)

Module Jobs.

Import Chat Rag.

(** A row of the table [jobs]. The columns the program reads with
    [... if r[k] else ...] may hold NULL. *)
Record Row : Type := mkRow {
  row_id : string;
  row_title : string;
  row_description : string;
  row_skills : option string;
  row_questions : option string;
  row_created_by : string;
  row_responsibilities : option string;
  row_qualifications : option string;
  row_company_name : option string;
  row_hr_email : option string
}.

(** The table, oldest row first. *)
Definition Table : Type := list Row.

(** The dictionary [get_job_by_id] builds from a row. *)
Record JobDict : Type := mkJobDict {
  job_id : string;
  job_title : string;
  job_description : string;
  job_skills : Json;
  job_questions : Json;
  job_created_by : string;
  job_responsibilities : Json;
  job_qualifications : Json;
  job_company_name : option string;
  job_hr_email : option string
}.

(** What an endpoint returns: the body given to [jsonify] and the status. *)
Definition Reply : Type := (Json * nat)%type.

Definition error_reply (msg : string) (status : nat) : Reply :=
  (JDict [("ok", JBool false); ("error", JStr msg)], status).

(** [type(v).__name__] *)
Definition type_name (v : Json) : string :=
  match v with
  | JNull => "NoneType"
  | JBool _ => "bool"
  | JInt _ => "int"
  | JFloat _ => "float"
  | JStr _ => "str"
  | JList _ => "list"
  | JDict _ => "dict"
  end.

Definition no_attribute (v : Json) (attr : string) : Exn :=
  AttributeError ("'" ++ type_name v ++ "' object has no attribute '"
                  ++ attr ++ "'").

(** [data.get(k, default)] on a decoded body. *)
Definition body_get (data : Json) (k : string) (default : Json)
    : Result Json :=
  match data with
  | JDict d => Ok (Assessment.get_or k d default)
  | _ => Raise (no_attribute data "get")
  end.

(** [v.strip()] *)
Definition strip_of (v : Json) : Result string :=
  match v with
  | JStr s => Ok (PyStr.strip s)
  | _ => Raise (no_attribute v "strip")
  end.

(** [data.get(k, "").strip()] *)
Definition stripped_field (data : Json) (k : string) : Result string :=
  rbind (body_get data k (JStr "")) strip_of.

(** [[s.strip() for s in text.split(sep) if s.strip()]] *)
Definition pieces (sep : ascii) (text : string) : list string :=
  map PyStr.strip
      (filter (fun s => PyStr.truthy (PyStr.strip s))
              (PyStr.split_on sep text)).

(** A field that is an array or a separated string; anything else
    counts as the empty list. *)
Definition as_list (sep : ascii) (v : Json) : Json :=
  match v with
  | JStr s => JList (map JStr (pieces sep s))
  | JList _ => v
  | _ => JList []
  end.

(** [x or None] on a string that may be [None]. *)
Definition text_or_none (c : option string) : option string :=
  match c with
  | Some s => if PyStr.truthy s then Some s else None
  | None => None
  end.

Definition comma : ascii := ascii_of_nat 44.
Definition newline : ascii := ascii_of_nat 10.

(** The fields the create and the update endpoint read after their
    checks, in the order of the source: skills, responsibilities,
    qualifications, company_name, hr_email. *)
Definition optional_fields (data : Json)
    : Result (Json * Json * Json * option string * option string) :=
  rbind (body_get data "skills" (JList [])) (fun skills =>
  rbind (body_get data "responsibilities" (JList [])) (fun responsibilities =>
  rbind (body_get data "qualifications" (JList [])) (fun qualifications =>
  rbind (stripped_field data "company_name") (fun company_name =>
  rbind (stripped_field data "hr_email") (fun hr_email =>
  Ok (as_list comma skills, as_list newline responsibilities,
      as_list newline qualifications,
      text_or_none (Some company_name), text_or_none (Some hr_email))))))).

Section Store.

(** [json.loads] (in [L]) and [json.dumps]. *)
Variable L : PyLib.
Variable json_dumps : Json -> string.

(** [str(q)] *)
Variable py_str : Json -> string.

(** [json.loads(c) if c else default] *)
Definition loads_if (c : option string) (default : Json) : Result Json :=
  match c with
  | Some s => if PyStr.truthy s then json_loads L s else Ok default
  | None => Ok default
  end.

(** [json.dumps(v) if v else None] *)
Definition dumps_if (v : Json) : option string :=
  if Assessment.json_truthy v then Some (json_dumps v) else None.

(** What the endpoints rely on when they read back what they wrote:
    [json.loads(json.dumps(v)) == v], and the text written is not empty. *)
Definition round_trips (v : Json) : Prop :=
  json_loads L (json_dumps v) = Ok v /\ PyStr.truthy (json_dumps v) = true.

Definition decode (r : Row) : Result JobDict :=
  rbind (loads_if (row_skills r) (JList [])) (fun skills =>
  rbind (loads_if (row_questions r) JNull) (fun questions =>
  rbind (loads_if (row_responsibilities r) (JList [])) (fun responsibilities =>
  rbind (loads_if (row_qualifications r) (JList [])) (fun qualifications =>
  Ok (mkJobDict (row_id r) (row_title r) (row_description r) skills
                questions (row_created_by r) responsibilities qualifications
                (text_or_none (row_company_name r))
                (text_or_none (row_hr_email r))))))).

Definition has_id (id : string) (r : Row) : bool := String.eqb (row_id r) id.

(** [get_job_by_id]: the first row with the id, decoded. *)
Definition get_job_by_id (id : string) (t : Table) : Result (option JobDict) :=
  match find (has_id id) t with
  | None => Ok None
  | Some r => rbind (decode r) (fun j => Ok (Some j))
  end.

(** [list_jobs], on a table that has all the columns. *)
Fixpoint list_jobs (t : Table) : Result (list JobDict) :=
  match t with
  | [] => Ok []
  | r :: rest =>
      rbind (decode r) (fun j =>
      rbind (list_jobs rest) (fun out => Ok (j :: out)))
  end.

(** INSERT: [id] is the primary key of the table (the exception is
    [sqlite3.IntegrityError]). *)
Definition insert_row (r : Row) (t : Table) : Result Table :=
  if existsb (has_id (row_id r)) t
  then Raise (ProviderError "UNIQUE constraint failed: jobs.id")
  else Ok (t ++ [r])%list.

(** [save_job]; [jid] is the identifier [uuid.uuid4()] draws. *)
Definition save_job (jid title description : string) (skills questions : Json)
    (created_by : string) (responsibilities qualifications : Json)
    (company_name hr_email : option string) (t : Table) : Result Table :=
  insert_row (mkRow jid title description (Some (json_dumps skills))
                    (dumps_if questions) created_by
                    (dumps_if responsibilities) (dumps_if qualifications)
                    (text_or_none company_name) (text_or_none hr_email))
             t.

(** [update_job]: UPDATE ... WHERE id=? *)
Definition update_job (id title description : string) (skills : Json)
    (responsibilities qualifications : Json)
    (company_name hr_email : option string) (t : Table) : Table :=
  map (fun r =>
         if has_id id r
         then mkRow (row_id r) title description (Some (json_dumps skills))
                    (row_questions r) (row_created_by r)
                    (dumps_if responsibilities) (dumps_if qualifications)
                    (text_or_none company_name) (text_or_none hr_email)
         else r)
      t.

(** [delete_job]: DELETE ... WHERE id=? *)
Definition delete_job (id : string) (t : Table) : Table :=
  filter (fun r => negb (has_id id r)) t.

(** [update_job_questions] *)
Definition update_job_questions (id : string) (questions : Json) (t : Table)
    : Table :=
  map (fun r =>
         if has_id id r
         then mkRow (row_id r) (row_title r) (row_description r)
                    (row_skills r) (dumps_if questions) (row_created_by r)
                    (row_responsibilities r) (row_qualifications r)
                    (row_company_name r) (row_hr_email r)
         else r)
      t.

(** An endpoint body inside [try ... except Exception as e], which
    answers 500 with [str(e)] and has written nothing by then. *)
Definition guarded (t : Table) (body : Result (Reply * Table))
    : Reply * Table :=
  match body with
  | Ok r => r
  | Raise e => (error_reply (str_exn e) 500, t)
  end.

(** [api_create_job] on the decoded body [data]. *)
Definition api_create_job (data : Json) (jid : string) (t : Table)
    : Reply * Table :=
  guarded t
    (rbind (stripped_field data "title") (fun title =>
     rbind (stripped_field data "description") (fun description =>
     rbind (stripped_field data "created_by") (fun created_by =>
     if negb (PyStr.truthy title)
     then Ok (error_reply "title is required" 400, t)
     else if negb (PyStr.truthy description)
     then Ok (error_reply "description is required" 400, t)
     else if negb (PyStr.truthy created_by)
     then Ok (error_reply "created_by is required" 400, t)
     else
       rbind (optional_fields data) (fun f =>
       let '(skills, responsibilities, qualifications, company_name,
             hr_email) := f in
       rbind (save_job jid title description skills JNull created_by
                       responsibilities qualifications company_name
                       hr_email t) (fun t' =>
       Ok ((JDict [("ok", JBool true); ("job_id", JStr jid);
                   ("message", JStr "Job created successfully")], 200%nat),
           t'))))))).

(** [api_update_job] *)
Definition api_update_job (id : string) (data : Json) (t : Table)
    : Reply * Table :=
  guarded t
    (rbind (get_job_by_id id t) (fun job =>
     match job with
     | None => Ok (error_reply "Job not found" 404, t)
     | Some _ =>
         rbind (stripped_field data "title") (fun title =>
         rbind (stripped_field data "description") (fun description =>
         if negb (PyStr.truthy title)
         then Ok (error_reply "title is required" 400, t)
         else if negb (PyStr.truthy description)
         then Ok (error_reply "description is required" 400, t)
         else
           rbind (optional_fields data) (fun f =>
           let '(skills, responsibilities, qualifications, company_name,
                 hr_email) := f in
           Ok ((JDict [("ok", JBool true);
                       ("message", JStr "Job updated successfully")], 200%nat),
               update_job id title description skills responsibilities
                          qualifications company_name hr_email t))))
     end)).

(** [api_delete_job] *)
Definition api_delete_job (id : string) (t : Table) : Reply * Table :=
  guarded t
    (rbind (get_job_by_id id t) (fun job =>
     match job with
     | None => Ok (error_reply "Job not found" 404, t)
     | Some _ =>
         Ok ((JDict [("ok", JBool true);
                     ("message", JStr "Job deleted successfully")], 200%nat),
             delete_job id t)
     end)).

(** The text kept for one element of ["questions"]. *)
Definition question_line (q : Json) : string :=
  match q with
  | JStr s => PyStr.strip s
  | JDict d => PyStr.strip (py_str (Assessment.get_or "question" d (JStr "")))
  | _ => PyStr.strip (py_str q)
  end.

(** [cleaned] *)
Definition cleaned_questions (questions : list Json) : list string :=
  filter PyStr.truthy (map question_line questions).

(** [api_save_questions]; [request.get_json(force=True) or {}]. *)
Definition api_save_questions (id : string) (data : Json) (t : Table)
    : Reply * Table :=
  guarded t
    (rbind (get_job_by_id id t) (fun job =>
     match job with
     | None => Ok (error_reply "Job not found" 404, t)
     | Some _ =>
         let data := Assessment.json_or data (JDict []) in
         rbind (body_get data "questions" (JList [])) (fun questions =>
         match questions with
         | JList l =>
             let cleaned := JList (map JStr (cleaned_questions l)) in
             Ok ((JDict [("ok", JBool true); ("questions", cleaned)], 200%nat),
                 update_job_questions id cleaned t)
         | _ => Ok (error_reply "questions must be an array" 400, t)
         end)
     end)).

(** The endpoint [get_job]: the job with its questions as a list. It has
    no [try], so an exception leaves it. *)
Definition get_job (id : string) (t : Table) : Result (option JobDict) :=
  rbind (get_job_by_id id t) (fun job =>
  match job with
  | None => Ok None
  | Some j =>
      let with_questions (q : Json) :=
        mkJobDict (job_id j) (job_title j) (job_description j) (job_skills j)
                  q (job_created_by j) (job_responsibilities j)
                  (job_qualifications j) (job_company_name j)
                  (job_hr_email j) in
      if Assessment.json_truthy (job_questions j) then
        match job_questions j with
        | JStr s => rbind (json_loads L s) (fun q => Ok (Some (with_questions q)))
        | JList _ => Ok (Some j)
        | _ => Ok (Some (with_questions (JList [])))
        end
      else Ok (Some (with_questions (JList [])))
  end).

End Store.

End Jobs.

(* ------------------------------------------------------------------ *)
(** ** app.py: the user table *)

Module Users.

(** A row of the table [users]; the values are texts or NULL. *)
Record UserRow : Type := mkUserRow {
  u_id : string;
  u_username : option string;
  u_password : option string;
  u_role : option string;
  u_name : option string
}.

Definition Table : Type := list UserRow.

(** SQL [=] on values that may be NULL: a comparison with NULL is never
    true. *)
Definition sql_eq (a b : option string) : bool :=
  match a, b with
  | Some x, Some y => String.eqb x y
  | _, _ => false
  end.

(** The INSERT is refused when the primary key [id] or the UNIQUE
    column [username] would repeat. *)
Definition violates (uid : string) (username : option string) (t : Table)
    : bool :=
  existsb (fun r => String.eqb (u_id r) uid || sql_eq (u_username r) username)
          t.

(** [register_user]; [uid] is the identifier [uuid.uuid4()] draws. *)
Definition register_user (uid : string)
    (username password role name : option string) (t : Table)
    : (bool * string) * Table :=
  if violates uid username t
  then ((false, "Username exists"), t)
  else ((true, uid),
        (t ++ [mkUserRow uid username password role name])%list).

(** The dictionary [authenticate] returns. *)
Record User : Type := mkUser {
  id : string;
  role : option string;
  name : option string;
  username : option string
}.

Definition credentials (username password : option string) (r : UserRow)
    : bool :=
  sql_eq (u_username r) username && sql_eq (u_password r) password.

(** [authenticate]: the first row with the user name and the password. *)
Definition authenticate (username password : option string) (t : Table)
    : option User :=
  match find (credentials username password) t with
  | None => None
  | Some r => Some (mkUser (u_id r) (u_role r) (u_name r) username)
  end.

End Users.

(* ------------------------------------------------------------------ *)
(** ** Concrete requests and environments *)

Module Scenario.

Import Classifier Cache App Chat Rag Query.

(** A local catalog row and an external posting. *)
Definition p5_local_job : Job :=
  mkJob "1" "Office Assistant" (Some "Filing and scheduling") [] [] [] None
        None None.

Definition p5_external_job : Job :=
  mkJob "ext_9" "Python Developer" (Some "Build APIs") [] [] []
        (Some "Austin, TX") (Some "other") None.

(** Every remote call fails: both backends are configured and neither
    answers. *)
Definition env_all_down : Env :=
  mkEnv true true
        (fun _ _ => Raise (ProviderError "503 Service Unavailable"))
        (fun _ _ => Raise (ProviderError "Connection error."))
        (fun _ => Raise (ProviderError "503 Service Unavailable"))
        (fun _ => Raise (ProviderError "Connection error.")).

(** Vertex answers every prompt with [text]; OpenAI is not configured. *)
Definition env_answering (text : string) : Env :=
  mkEnv true false
        (fun _ _ => Raise (ProviderError "503 Service Unavailable"))
        (fun _ _ => Raise (ProviderError "Connection error."))
        (fun _ => Ok (Some text))
        (fun _ => Raise (ProviderError "Connection error.")).

(** The library's answers in a run where the only document handed to
    [json.loads] is ["{good}"], which it rejects with this message, and
    [int] is never reached. *)
Definition lib_rejecting : PyLib :=
  mkPyLib
    (fun _ => Raise (JSONDecodeError
       "Expecting property name enclosed in double quotes: line 1 column 2 (char 1)"))
    (fun _ => Raise (TypeError "int() argument must be a string, a bytes-like object or a real number")).

(** A candidate as the retrieval step hands it to the rerank loop. *)
Definition candidate : ResultEntry := fresh_entry p5_local_job (1 # 2).

(** Vertex is switched off; OpenAI answers with vectors of its model's
    1536 dimensions. *)
Definition env_openai_only : Env :=
  mkEnv false true
        (fun _ _ => Raise (ProviderError "Vertex AI not available"))
        (fun _ _ => Ok (repeat (1 # 100) 1536))
        (fun _ => Raise (ProviderError "Vertex AI not available"))
        (fun _ => Ok (Some "ok")).

(** A freshly started process. *)
Definition w0 : World := mkWorld [] [].

(** A stand-in for [numpy.sqrt] that agrees with it on 0 and 1. *)
Definition sqrt_fixpoints : Q -> Q := fun x => x.

(** Nothing is configured: Vertex switched off, no OpenAI client. *)
Definition env_unconfigured : Env :=
  mkEnv false false
        (fun _ _ => Raise (ProviderError "Vertex AI not available"))
        (fun _ _ => Raise (ProviderError "no client"))
        (fun _ => Raise (ProviderError "Vertex AI not available"))
        (fun _ => Raise (ProviderError "no client")).

(** Vertex answers with unit vectors of two components: one direction
    for texts that mention Python, another, at cosine 0.6, for the rest.
    Their norm is 1, where [sqrt_fixpoints] agrees with the square root. *)
Definition env_toy : Env :=
  mkEnv true false
        (fun _ text => Ok (if PyStr.contains "Python" text
                           then [1; 0] else [3 # 5; 4 # 5]))
        (fun _ _ => Raise (ProviderError "no client"))
        (fun _ => Ok (Some "ok"))
        (fun _ => Raise (ProviderError "no client")).

Definition python_external_job : Job :=
  mkJob "ext_7" "Backend Engineer" (Some "Python services") [] [] []
        (Some "Remote") (Some "company") None.

(** A request served by [env_toy] from a fresh process. *)
Definition toy_response : Response :=
  fst (api_match sqrt_fixpoints env_toy None "Python developer" "" ""
                 [p5_local_job] [p5_external_job; python_external_job] w0).

(** The library's answers while the model is down: the only documents
    handed to [json.loads] are the fixed sentence of [chat_complete],
    which it rejects with this message; [int] is the identity on
    integers. *)
Definition lib_model_down : PyLib :=
  mkPyLib
    (fun _ => Raise (JSONDecodeError "Expecting value: line 1 column 1 (char 0)"))
    (fun v => match v with
              | JInt z => Ok z
              | _ => Raise (TypeError "int() argument must be a string, a bytes-like object or a real number")
              end).

(** The library's answers in a run where every document decoded is the
    text of [v]. *)
Definition lib_decoding (v : Json) : PyLib :=
  mkPyLib (fun _ => Ok v)
          (fun x => match x with
                    | JInt z => Ok z
                    | _ => Raise (TypeError "int() argument must be a string, a bytes-like object or a real number")
                    end).

(** [str] on the strings met in the runs below. *)
Definition str_of_strings (x : Json) : string :=
  match x with JStr s => s | _ => "" end.

(** The text of the JSON object with the single member "score": 85. *)
Definition score_85_text : string := "{" ++ dq ++ "score" ++ dq ++ ": 85}".

(** The text of a JSON array of two questions, and its decoded value. *)
Definition two_questions_text : string :=
  "Here you go: [" ++ dq ++ "What is REST?" ++ dq ++ ", " ++ dq
  ++ "What is SQL?" ++ dq ++ "] Good luck.".

Definition two_questions : Json :=
  JList [JStr "What is REST?"; JStr "What is SQL?"].

Definition one_skill_job : Job :=
  mkJob "2" "Data Analyst" (Some "Dashboards") ["sql"] [] [] None None None.

(** Two items of a provider response: one without company name, one
    from an aggregator. *)
Definition item_no_company : External.RawItem :=
  External.mkRawItem (Some "Python Developer") (Some "Build APIs")
    (Some (External.HList ["3 years of Python"])) None true
    (Some "via LinkedIn") None (Some "abc") (Some "Austin, TX") [].

Definition item_aggregator : External.RawItem :=
  External.mkRawItem (Some "Data Analyst") (Some "Dashboards") None None false
    (Some "via Indeed") (Some "Acme") None None [Some "https://example.org/a"].

(** An environment where only the secret itself is set, to the empty
    string, and Secret Manager cannot be reached for lack of credentials. *)
Definition outside_empty_key : Secrets.Outside :=
  Secrets.mkOutside
    (fun name => if String.eqb name "SERPAPI_KEY" then Some "" else None)
    (fun _ => Secrets.Fails (Secrets.OtherError "DefaultCredentialsError")).

(** Only the project is set, and there are no credentials. *)
Definition outside_no_credentials : Secrets.Outside :=
  Secrets.mkOutside
    (fun name => if String.eqb name "GCP_PROJECT" then Some "demo" else None)
    (fun _ => Secrets.Fails (Secrets.OtherError "DefaultCredentialsError")).

(** [get_secret("SERPAPI_KEY", required=False)], as [app.py] calls it. *)
Definition serpapi_args : Secrets.Args :=
  Secrets.mkArgs "SERPAPI_KEY" None "latest" None false.

(** [json.dumps] on lists of strings without characters to escape, and a
    [json.loads] that decodes the texts of the given values. *)
Definition dumps_string_lists (v : Rag.Json) : string :=
  match v with
  | Rag.JList l =>
      "[" ++ PyStr.join ", "
               (map (fun x => match x with
                              | Rag.JStr s => Rag.dq ++ s ++ Rag.dq
                              | _ => "null"
                              end) l)
      ++ "]"
  | _ => "null"
  end.

Definition lib_knowing (vs : list Rag.Json) : Rag.PyLib :=
  Rag.mkPyLib
    (fun s => match find (fun v => String.eqb (dumps_string_lists v) s) vs with
              | Some v => Ok v
              | None => Raise (JSONDecodeError "Expecting value")
              end)
    (fun _ => Raise (TypeError "int() argument must be a string or a number")).

(** A request to create a job, and the table with one job. *)
Definition create_request : list (string * Rag.Json) :=
  [("title", Rag.JStr " Data Engineer ");
   ("description", Rag.JStr "Build pipelines");
   ("created_by", Rag.JStr "hr-1");
   ("skills", Rag.JStr "Python, SQL")].

Definition lib_jobs : Rag.PyLib :=
  lib_knowing [Rag.JList [Rag.JStr "Python"; Rag.JStr "SQL"]; Rag.JList []].

Definition one_job_table : Jobs.Table :=
  [Jobs.mkRow "job-1" "Analyst" "Reports" (Some "[]") None "hr-1" None None
              None None].

(** A request to save two questions, one of them blank. *)
Definition questions_request : list (string * Rag.Json) :=
  [("questions", Rag.JList [Rag.JStr " What is SQL? "; Rag.JStr "  "])].

Definition lib_questions : Rag.PyLib :=
  lib_knowing [Rag.JList [Rag.JStr "What is SQL?"]; Rag.JList []].

(** The texts "0", ..., "1023", and the process after it was asked for
    each of them in turn and then for "0" again: the cache is full, and
    "1" is the text used least recently. *)
Definition numbered_texts : list string :=
  map Assessment.str_nat (seq 0 1024).

Definition w_full : World :=
  Cache.calls env_toy (numbered_texts ++ ["0"]) w0.

End Scenario.

(* ================================================================== *)
(** * Properties *)

Import Classifier Cache App Chat Rag Query Scenario.

(* ------------------------------------------------------------------ *)
(** ** Rational comparisons *)

Lemma Qltb_true_iff (a b : Q) : Py.Qltb a b = true <-> a < b.
Proof.
  unfold Py.Qltb. rewrite negb_true_iff.
  split; intro H.
  - apply Qnot_le_lt. intro Hle. apply Qle_bool_iff in Hle. congruence.
  - destruct (Qle_bool b a) eqn:Hb; [|reflexivity].
    apply Qle_bool_iff in Hb. exfalso. eapply Qlt_not_le; eauto.
Qed.

Lemma Qltb_false_iff (a b : Q) : Py.Qltb a b = false <-> b <= a.
Proof.
  unfold Py.Qltb. rewrite negb_false_iff. apply Qle_bool_iff.
Qed.

Lemma py_max_lower_bound (a b : Q) : b <= Py.max a b.
Proof.
  unfold Py.max. destruct (Py.Qltb a b) eqn:H.
  - apply Qle_refl.
  - now apply Qltb_false_iff.
Qed.

(** A rational is zero exactly when its numerator is. *)
Definition zero_num (q : Q) : Prop := Qnum q = 0%Z.

Lemma zero_num_mult_l (a b : Q) : zero_num a -> zero_num (a * b).
Proof. unfold zero_num; destruct a, b; simpl; intros ->; reflexivity. Qed.

Lemma zero_num_plus (a b : Q) : zero_num a -> zero_num b -> zero_num (a + b).
Proof. unfold zero_num; destruct a, b; simpl; intros -> ->; reflexivity. Qed.

Lemma zero_num_div (a b : Q) : zero_num a -> zero_num (a / b).
Proof. intro H. unfold Qdiv. now apply zero_num_mult_l. Qed.

Lemma zero_num_round2 (x : Q) : zero_num x -> zero_num (Py.round2 x).
Proof.
  intro H. unfold Py.round2. apply zero_num_div.
  assert (Hx : Qnum (x * 100) = 0%Z) by (now apply zero_num_mult_l).
  unfold zero_num, Py.round_half_even. rewrite Hx. simpl.
  reflexivity.
Qed.

Lemma zero_num_below (t x : Q) : 0 < t -> zero_num x -> Qle_bool t x = false.
Proof.
  intros Ht Hx. destruct (Qle_bool t x) eqn:H; [|reflexivity].
  apply Qle_bool_iff in H. exfalso.
  assert (Hz : x == 0) by (unfold Qeq; rewrite Hx; reflexivity).
  rewrite Hz in H. eapply Qlt_not_le; eauto.
Qed.

(* ------------------------------------------------------------------ *)
(** ** The stable sort *)

Lemma insert_by_perm {A} (key : A -> Q) (x : A) (l : list A) :
  Permutation (x :: l) (Py.insert_by key x l).
Proof.
  induction l as [|y t IH]; simpl.
  - apply Permutation_refl.
  - destruct (Qle_bool (key x) (key y)).
    + apply Permutation_refl.
    + eapply perm_trans; [apply perm_swap|]. now apply perm_skip.
Qed.

Lemma sorted_perm {A} (key : A -> Q) (l : list A) :
  Permutation l (Py.sorted key l).
Proof.
  induction l as [|x t IH]; simpl.
  - apply perm_nil.
  - eapply perm_trans; [apply perm_skip, IH|]. apply insert_by_perm.
Qed.

Lemma sorted_Forall {A} (P : A -> Prop) (key : A -> Q) (l : list A) :
  Forall P l -> Forall P (Py.sorted key l).
Proof.
  intro H. eapply Permutation_Forall; [apply sorted_perm|exact H].
Qed.

Lemma sorted_length {A} (key : A -> Q) (l : list A) :
  length (Py.sorted key l) = length l.
Proof. symmetry. apply Permutation_length, sorted_perm. Qed.

(** The head of a sorted list has the least key. *)
Lemma insert_by_head {A} (key : A -> Q) (x : A) (l : list A) :
  (forall h t, l = h :: t -> forall y, In y t -> key h <= key y) ->
  forall h t, Py.insert_by key x l = h :: t ->
  forall y, In y t -> key h <= key y.
Proof.
  intros Hl h t E y Hy.
  destruct l as [|z l']; simpl in E.
  - inversion E; subst. destruct Hy.
  - destruct (Qle_bool (key x) (key z)) eqn:Hc.
    + inversion E; subst. apply Qle_bool_iff in Hc.
      destruct Hy as [<-|Hy]; [exact Hc|].
      eapply Qle_trans; [exact Hc|]. eapply Hl; eauto.
    + inversion E; subst.
      assert (Hzx : key h <= key x).
      { apply Qlt_le_weak. apply Qnot_le_lt. intro Hle.
        apply Qle_bool_iff in Hle. congruence. }
      apply (Permutation_in _ (Permutation_sym (insert_by_perm key x l'))) in Hy.
      destruct Hy as [<-|Hy]; [exact Hzx|]. eapply Hl; eauto.
Qed.

Lemma sorted_head {A} (key : A -> Q) (l : list A) :
  forall h t, Py.sorted key l = h :: t -> forall y, In y t -> key h <= key y.
Proof.
  induction l as [|x l IH]; simpl; intros h t E.
  - discriminate.
  - eapply insert_by_head; eauto.
Qed.

(* ------------------------------------------------------------------ *)
(** ** The similarity threshold *)

(** C3. Whatever value [MATCH_THRESHOLD] holds, the effective threshold
    is at least 40; a configured 10 and a configured 0.10 both give
    exactly 40; a value below 1 is multiplied by 100 before the clamp, a
    value from 1 on is clamped as it is; with the variable unset the
    threshold is 50. *)
Theorem C3_threshold_floor :
  (forall env : option Q, 40 <= threshold_pct_of env)
  /\ threshold_pct_of (Some 10) = 40
  /\ threshold_pct_of (Some (1 # 10)) = 40
  /\ (forall v : Q, v < 1 -> threshold_pct_of (Some v) = Py.max (v * 100) 40)
  /\ (forall v : Q, 1 <= v -> threshold_pct_of (Some v) = Py.max v 40)
  /\ threshold_pct_of None = 50.
Proof.
  repeat split.
  - intro env. unfold threshold_pct_of. apply py_max_lower_bound.
  - intros v Hv. unfold threshold_pct_of.
    apply Qltb_true_iff in Hv. now rewrite Hv.
  - intros v Hv. unfold threshold_pct_of.
    apply Qltb_false_iff in Hv. now rewrite Hv.
Qed.

(* ------------------------------------------------------------------ *)
(** ** Threshold filter and local backfill *)

Lemma source_external_not_local (m : Match) :
  source_is "external" m = true -> source_is "local" m = false.
Proof.
  unfold source_is. destruct (source (job m)) as [s|]; [|discriminate].
  intro H. apply String.eqb_eq in H. subst s. reflexivity.
Qed.

Lemma filter_all_false {A} (p : A -> bool) (l : list A) :
  (forall x, In x l -> p x = false) -> filter p l = [].
Proof.
  induction l as [|x t IH]; simpl; intro H; [reflexivity|].
  rewrite (H x (or_introl eq_refl)). apply IH. intros y Hy. apply H. now right.
Qed.

Lemma filter_all_true {A} (p : A -> bool) (l : list A) :
  (forall x, In x l -> p x = true) -> filter p l = l.
Proof.
  induction l as [|x t IH]; simpl; intro H; [reflexivity|].
  rewrite (H x (or_introl eq_refl)). f_equal. apply IH.
  intros y Hy. apply H. now right.
Qed.

Lemma externals_have_no_local (p : Match -> bool) (em : list Match) :
  Forall (fun m => source_is "external" m = true) em ->
  filter (source_is "local") (filter p em) = []
  /\ filter (fun m => negb (source_is "local" m)) (filter p em) = filter p em.
Proof.
  intro H. rewrite Forall_forall in H. split.
  - apply filter_all_false. intros m Hm. apply filter_In in Hm.
    apply source_external_not_local, H, Hm.
  - apply filter_all_true. intros m Hm. apply filter_In in Hm.
    rewrite source_external_not_local; [reflexivity|]. apply H, Hm.
Qed.

(** C2. When there are local matches and none of them reaches the
    threshold, the filtered list is the local matches at 30% or more
    (in their order) followed by the external matches that reached the
    threshold. *)
Theorem C2_local_backfill (t : Q) (lm em : list Match) :
  Forall (fun m => source_is "local" m = true) lm ->
  Forall (fun m => source_is "external" m = true) em ->
  lm <> [] ->
  (forall m, In m lm -> reaches t m = false) ->
  filter_and_backfill t lm em
  = (filter (reaches 30) lm ++ filter (reaches t) em)%list.
Proof.
  intros Hl He Hne Hnone.
  unfold filter_and_backfill.
  rewrite filter_app, (filter_all_false _ _ Hnone). simpl.
  destruct (externals_have_no_local (reaches t) He) as [E1 E2].
  rewrite E1, E2. simpl.
  assert (Hlen : (0 <? length lm)%nat = true).
  { destruct lm; [congruence|reflexivity]. }
  rewrite Hlen. simpl.
  destruct (filter (reaches 30) lm); reflexivity.
Qed.

(** The scenario of the spec: one local job at 35%, one external job at
    60%, the default threshold of 50%. *)
Lemma C2_local_backfill_witness :
  let l := tagged p5_local_job "local" 35 in
  let e := tagged p5_external_job "external" 60 in
  filter_and_backfill (threshold_pct_of None) [l] [e] = [l; e].
Proof.
  intros l e.
  refine (eq_trans (@C2_local_backfill (threshold_pct_of None) [l] [e] _ _ _ _) _).
  - repeat constructor.
  - repeat constructor.
  - discriminate.
  - intros m [<-|[]]. reflexivity.
  - reflexivity.
Defined.

(* ------------------------------------------------------------------ *)
(** ** The job-type filter *)

(** C4. With [job_type = "any"] the local loop excludes no job, whatever
    its text; the external loop has no such exemption and drops every
    external job whose title and description do not contain the letters
    "any". *)
Theorem C4_any_job_type :
  (forall title_desc, local_job_type_excluded "any" title_desc = false)
  /\ (forall title_desc,
        external_job_type_excluded "any" title_desc
        = negb (PyStr.contains "any" title_desc))
  /\ external_title_desc p5_external_job = "python developer build apis"
  /\ external_job_type_excluded "any" (external_title_desc p5_external_job) = true
  /\ candidate_external "" "any" [p5_external_job] = [].
Proof.
  repeat split.
Qed.

(* ------------------------------------------------------------------ *)
(** ** Text generation *)

Lemma vertex_branch_ok (E : Env) (prompt : string) :
  exists v, vertex_branch E prompt = Ok v.
Proof.
  unfold vertex_branch, rtry, rbind.
  destruct (vertex_generate_content E prompt) as [[text|]|e]; eauto.
  destruct (PyStr.truthy text); eauto.
Qed.

Lemma openai_branch_ok (E : Env) (prompt : string) :
  exists v, openai_branch E prompt = Ok v.
Proof.
  unfold openai_branch, rtry, rbind.
  destruct (openai_chat_create E prompt) as [[text|]|e]; eauto.
Qed.

Lemma chat_complete_ok (E : Env) (prompt : string) :
  exists s, chat_complete E prompt = Ok s.
Proof.
  unfold chat_complete.
  destruct (vertex_branch_ok E prompt) as [v Hv].
  destruct (openai_branch_ok E prompt) as [o Ho].
  destruct (USE_VERTEX E); [rewrite Hv|]; simpl.
  - destruct v; eauto.
    destruct (openai_client E); [rewrite Ho|]; simpl; eauto.
    destruct o; eauto.
  - destruct (openai_client E); [rewrite Ho|]; simpl; eauto.
    destruct o; eauto.
Qed.

Lemma vertex_silent_falls_through (E : Env) (prompt : string) :
  vertex_silent E prompt ->
  (if USE_VERTEX E then vertex_branch E prompt else Ok None) = Ok None.
Proof.
  intros [H|[H|H]]; [now rewrite H| |];
    destruct (USE_VERTEX E); try reflexivity;
    unfold vertex_branch; rewrite H; reflexivity.
Qed.

Lemma openai_down_falls_through (E : Env) (prompt : string) :
  openai_down E prompt ->
  (if openai_client E then openai_branch E prompt else Ok None) = Ok None.
Proof.
  intros [H|[[e H]|H]]; [now rewrite H| |];
    destruct (openai_client E); try reflexivity;
    unfold openai_branch; rewrite H; reflexivity.
Qed.

(** C10 as the code has it. [chat_complete] always returns a string and
    never raises. It returns the fixed sentence when the Vertex branch
    falls through (Vertex switched off, or a response without text) and
    OpenAI gives nothing. When Vertex is switched on and its call raises,
    the result is instead the first ten capitalised words of the prompt
    joined by blanks ("general job search" when there are none), and
    OpenAI is not consulted. *)
Theorem C10_chat_complete_total (E : Env) (prompt : string) :
  (exists s, chat_complete E prompt = Ok s)
  /\ (vertex_silent E prompt -> openai_down E prompt ->
      chat_complete E prompt = Ok fallback_sentence)
  /\ (USE_VERTEX E = true ->
      (exists e, vertex_generate_content E prompt = Raise e) ->
      chat_complete E prompt
      = Ok (str_or (PyStr.join " " (firstn 10 (findall_capitalized prompt)))
                   "general job search")).
Proof.
  split; [apply chat_complete_ok|split].
  - intros Hv Ho. unfold chat_complete.
    rewrite (vertex_silent_falls_through Hv). simpl.
    rewrite (openai_down_falls_through Ho). reflexivity.
  - intros Hu [e He]. unfold chat_complete, vertex_branch.
    rewrite Hu, He. reflexivity.
Qed.

Lemma C10_chat_complete_total_witness :
  chat_complete env_unconfigured "Analyze this Resume" = Ok fallback_sentence.
Proof.
  exact (proj1 (proj2 (C10_chat_complete_total env_unconfigured
                         "Analyze this Resume"))
               (or_introl eq_refl) (or_introl eq_refl)).
Defined.

(** With both backends configured and both failing, the caller gets
    words of its own prompt, not the fixed sentence. *)
Lemma C10_counterexample :
  (exists e, vertex_generate_content env_all_down "Analyze this Resume" = Raise e)
  /\ openai_down env_all_down "Analyze this Resume"
  /\ chat_complete env_all_down "Analyze this Resume" = Ok "Analyze Resume"
  /\ chat_complete env_all_down "Analyze this Resume" <> Ok fallback_sentence.
Proof.
  split; [eexists; reflexivity|].
  split; [right; left; eexists; reflexivity|].
  split; [reflexivity|discriminate].
Qed.

(* ------------------------------------------------------------------ *)
(** ** Deriving the search query *)

Lemma first_in_some (vocabulary : list string) (text t : string) :
  first_in vocabulary text = Some t -> first_occurring vocabulary text t.
Proof.
  unfold first_in, first_occurring.
  induction vocabulary as [|u vs IH]; simpl; [discriminate|].
  destruct (PyStr.contains u text) eqn:Hu.
  - intro H. inversion H; subst. exists [], vs. repeat split; auto.
    intros ? [].
  - intro H. destruct (IH H) as (b & a & -> & Ht & Hb).
    exists (u :: b), a. repeat split; auto.
    intros x [<-|Hx]; auto.
Qed.

Lemma first_in_none (vocabulary : list string) (text : string) :
  first_in vocabulary text = None -> none_occurs vocabulary text.
Proof.
  unfold first_in, none_occurs. intros H u Hu.
  exact (find_none _ _ H u Hu).
Qed.

Lemma first_occurring_first_in (vocabulary : list string) (text t : string) :
  first_occurring vocabulary text t -> first_in vocabulary text = Some t.
Proof.
  unfold first_in. intros (b & a & -> & Ht & Hb).
  induction b as [|u b IH]; simpl.
  - now rewrite Ht.
  - rewrite (Hb u (or_introl eq_refl)). apply IH.
    intros x Hx. apply Hb. now right.
Qed.

Lemma none_occurs_first_in (vocabulary : list string) (text : string) :
  none_occurs vocabulary text -> first_in vocabulary text = None.
Proof.
  unfold first_in, none_occurs. intro H.
  induction vocabulary as [|u vs IH]; simpl; [reflexivity|].
  rewrite (H u (or_introl eq_refl)). apply IH.
  intros x Hx. apply H. now right.
Qed.

(** C8 as the code has it, site by site.
    In [api_rag_search], a cleaned query of fewer than 3 characters is
    replaced by a scan of the lower-cased resume: the first role title
    of the vocabulary that occurs, title-cased, followed by the first
    skill keyword that occurs, if any; the placeholder is used when no
    role title occurs, whether or not a skill keyword does.
    In [api_match], such a query is replaced by the placeholder with no
    scan. When the derivation raises, [api_match] composes the query from
    the first occurring role title and the first two alphabetic words of
    more than three characters of the resume, the placeholder standing in
    when there is neither; [api_rag_search] answers "Data Scientist" when
    both "data" and "scientist" occur, "Software Engineer" when "engineer"
    or "developer" occurs, and the placeholder otherwise. *)
Theorem C8_query_fallback (resume_text : string) :
  (forall raw, too_short (rag_clean raw) = true ->
     let text := PyStr.lower resume_text in
     (forall t s, first_occurring rag_titles text t ->
                  first_occurring rag_skills text s ->
        rag_query (Ok raw) resume_text = PyStr.title t ++ " " ++ PyStr.title s)
     /\ (forall t, first_occurring rag_titles text t ->
                   none_occurs rag_skills text ->
        rag_query (Ok raw) resume_text = PyStr.title t)
     /\ (none_occurs rag_titles text ->
        rag_query (Ok raw) resume_text = placeholder))
  /\ (forall raw, too_short (match_extract raw) = true ->
        match_query (Ok raw) resume_text = placeholder)
  /\ (forall e,
        let text := PyStr.lower resume_text in
        let words := firstn 2 (leading_words resume_text) in
        (forall t, first_occurring match_titles text t ->
           match_query (Raise e) resume_text
           = PyStr.join " " (PyStr.title t :: words))
        /\ (none_occurs match_titles text -> words <> [] ->
           match_query (Raise e) resume_text = PyStr.join " " words)
        /\ (none_occurs match_titles text -> words = [] ->
           match_query (Raise e) resume_text = placeholder))
  /\ (forall e,
        let text := PyStr.lower resume_text in
        let data_scientist :=
          PyStr.contains "data" text && PyStr.contains "scientist" text in
        let engineer :=
          PyStr.contains "engineer" text || PyStr.contains "developer" text in
        rag_query (Raise e) resume_text
        = if data_scientist then "Data Scientist"
          else if engineer then "Software Engineer" else placeholder).
Proof.
  split; [|split; [|split]].
  - intros raw Hs text. unfold rag_query. rewrite Hs. unfold rag_scan.
    fold text. repeat split.
    + intros t s Ht Hk.
      now rewrite (first_occurring_first_in Ht), (first_occurring_first_in Hk).
    + intros t Ht Hk.
      now rewrite (first_occurring_first_in Ht), (none_occurs_first_in Hk).
    + intros Ht. now rewrite (none_occurs_first_in Ht).
  - intros raw Hs. unfold match_query, match_clean. now rewrite Hs.
  - intros e text words. unfold match_query, match_fallback. fold text.
    repeat split.
    + intros t Ht. rewrite (first_occurring_first_in Ht). reflexivity.
    + intros Ht Hw. rewrite (none_occurs_first_in Ht), app_nil_l.
      unfold words in *.
      destruct (firstn 2 (leading_words resume_text)); [congruence|reflexivity].
    + intros Ht Hw. rewrite (none_occurs_first_in Ht), app_nil_l.
      unfold words in *. now rewrite Hw.
  - intros e text. reflexivity.
Qed.

Lemma C8_query_fallback_witness :
  rag_query (Ok "") "AWS cloud Architect" = "Architect Cloud".
Proof.
  refine (proj1 (proj1 (C8_query_fallback "AWS cloud Architect") ""
                       eq_refl)
                "architect" "cloud" _ _);
    apply first_in_some; reflexivity.
Defined.

(** In [api_match] a two-character answer of the model gives the
    placeholder although the resume names a role title of the vocabulary;
    in [api_rag_search] an empty answer gives the placeholder although the
    resume names a skill keyword of the vocabulary. *)
Lemma C8_counterexample :
  (too_short (match_extract "ab") = true
   /\ first_occurring match_titles (PyStr.lower "Senior Python developer")
                      "developer"
   /\ match_query (Ok "ab") "Senior Python developer" = placeholder)
  /\ (too_short (rag_clean "") = true
      /\ first_occurring rag_skills (PyStr.lower "Python and SQL expert")
                         "python"
      /\ rag_query (Ok "") "Python and SQL expert" = placeholder).
Proof.
  repeat split; try reflexivity; apply first_in_some; reflexivity.
Qed.

(* ------------------------------------------------------------------ *)
(** ** The rerank step *)

Lemma with_explanation_fields (x : Json) (r : ResultEntry) :
  entry_job (with_explanation x r) = entry_job r
  /\ entry_similarity (with_explanation x r) = entry_similarity r
  /\ match_score (with_explanation x r) = match_score r
  /\ llm_score (with_explanation x r) = llm_score r.
Proof. repeat split. Qed.

(** Whatever the model and the parser do, the rerank step returns the
    entry of the same job with the same similarity. *)
Lemma rerank_entry_keeps_job (L : PyLib) (E : Env) (resume_text : string)
    (r : ResultEntry) :
  entry_job (rerank_entry L E resume_text r) = entry_job r
  /\ entry_similarity (rerank_entry L E resume_text r) = entry_similarity r
  /\ match_score (rerank_entry L E resume_text r) = match_score r.
Proof.
  unfold rerank_entry, rtry, rbind.
  destruct (chat_complete E _) as [llm_out|e]; [|repeat split].
  unfold parse_into, rbind.
  destruct (has_braces llm_out); [|repeat split].
  destruct (json_loads L _) as [parsed|e]; [|repeat split].
  destruct parsed; try (repeat split; fail).
  destruct (dict_get "score" d) as [v|]; [|repeat split].
  destruct v; try (repeat split; fail);
    destruct (py_int L _); repeat split.
Qed.

Lemma rerank_loop_keeps_jobs (L : PyLib) (E : Env) (resume_text : string)
    (entries : list ResultEntry) :
  map entry_job (map (rerank_entry L E resume_text) entries)
  = map entry_job entries.
Proof.
  rewrite map_map. apply map_ext. intro r.
  apply rerank_entry_keeps_job.
Qed.

Lemma rag_results_perm (L : PyLib) (E : Env) (rerank : bool)
    (resume_text : string) (entries : list ResultEntry) :
  Permutation (map entry_job entries)
              (map entry_job (rag_results L E rerank resume_text entries)).
Proof.
  unfold rag_results, Py.sorted_reverse.
  set (results := if rerank then _ else _).
  assert (Hr : map entry_job results = map entry_job entries).
  { unfold results. destruct rerank; [apply rerank_loop_keeps_jobs|reflexivity]. }
  rewrite <- Hr.
  destruct (rerank && existsb has_llm_score results);
    apply Permutation_map, sorted_perm.
Qed.

(** C7 as the code has it. For a candidate entering the rerank step with
    no [llm_score] and the text [llm_out] returned by [chat_complete]:
    when [llm_out] lacks an opening or a closing brace, the explanation is
    [llm_out] itself and no [llm_score] is set; when it has both and
    [json.loads] rejects the span between them, or the decoded score is
    refused by [int], the explanation is "Analysis unavailable: " followed
    by the exception's message, again with no [llm_score]. In every case
    the candidate stays in the output: the results are a permutation of
    the candidates, and nothing is raised. *)
Theorem C7_rerank_fallback (L : PyLib) (E : Env) (resume_text : string)
    (r : ResultEntry) (llm_out : string) :
  llm_score r = None ->
  chat_complete E (rerank_prompt resume_text (full_job_desc (entry_job r)))
  = Ok llm_out ->
  let r' := rerank_entry L E resume_text r in
  (has_braces llm_out = false ->
     match_explanation r' = JStr llm_out /\ llm_score r' = None)
  /\ (forall e, has_braces llm_out = true ->
        json_loads L (json_span llm_out) = Raise e ->
        match_explanation r' = JStr ("Analysis unavailable: " ++ str_exn e)
        /\ llm_score r' = None)
  /\ (forall d v e, has_braces llm_out = true ->
        json_loads L (json_span llm_out) = Ok (JDict d) ->
        dict_get "score" d = Some v -> v <> JNull ->
        py_int L v = Raise e ->
        match_explanation r' = JStr ("Analysis unavailable: " ++ str_exn e)
        /\ llm_score r' = None)
  /\ entry_job r' = entry_job r
  /\ (forall entries rerank,
        Permutation (map entry_job entries)
                    (map entry_job (rag_results L E rerank resume_text entries))).
Proof.
  intros Hs Hc r'.
  split; [|split; [|split; [|split]]].
  - intro Hb. unfold r', rerank_entry. rewrite Hc. simpl.
    unfold parse_into. rewrite Hb. simpl. now split.
  - intros e Hb He. unfold r', rerank_entry. rewrite Hc. simpl.
    unfold parse_into. rewrite Hb, He. simpl. now split.
  - intros d v e Hb Hd Hv Hn He. unfold r', rerank_entry. rewrite Hc. simpl.
    unfold parse_into. rewrite Hb, Hd. simpl. rewrite Hv.
    destruct v; try congruence; rewrite He; simpl; now split.
  - apply rerank_entry_keeps_job.
  - intros entries rerank. apply rag_results_perm.
Qed.

(** An answer without any brace becomes the explanation, unscored. *)
Lemma C7_rerank_fallback_witness :
  let r' := rerank_entry lib_rejecting (env_answering "A fair match overall.")
                         "Python developer" candidate in
  match_explanation r' = JStr "A fair match overall." /\ llm_score r' = None.
Proof.
  refine (proj1 (@C7_rerank_fallback lib_rejecting
                   (env_answering "A fair match overall.")
                   "Python developer" candidate "A fair match overall."
                   eq_refl eq_refl) eq_refl).
Defined.

(** An answer with braces that is not JSON: the explanation is the
    parser's message, not the answer. *)
Lemma C7_counterexample :
  let llm_out := "I rate this {good}" in
  let r' := rerank_entry lib_rejecting (env_answering llm_out)
                         "Python developer" candidate in
  json_span llm_out = "{good}"
  /\ json_loads lib_rejecting (json_span llm_out)
     = Raise (JSONDecodeError
         "Expecting property name enclosed in double quotes: line 1 column 2 (char 1)")
  /\ match_explanation r'
     = JStr "Analysis unavailable: Expecting property name enclosed in double quotes: line 1 column 2 (char 1)"
  /\ match_explanation r' <> JStr llm_out.
Proof.
  repeat split. discriminate.
Qed.

(* ------------------------------------------------------------------ *)
(** ** The similarity floor of the RAG search *)

Lemma in_combine_seq (l : list Q) (a i : nat) (s : Q) :
  In (i, s) (combine (seq a (length l)) l)
  <-> (a <= i)%nat /\ nth_error l (i - a) = Some s.
Proof.
  revert a. induction l as [|x l IH]; intro a; simpl.
  - split; [intros []|]. intros [_ H]. destruct (i - a)%nat; discriminate.
  - rewrite IH. split.
    + intros [H|[Hle H]].
      * inversion H; subst. split; [lia|]. now rewrite Nat.sub_diag.
      * split; [lia|]. replace (i - a)%nat with (S (i - S a)) by lia. exact H.
    + intros [Hle H]. destruct (i - a)%nat as [|k] eqn:Hk.
      * left. simpl in H. inversion H; subst. f_equal. lia.
      * right. split; [lia|]. simpl in H.
        replace (i - S a)%nat with k by lia. exact H.
Qed.

Lemma indices_at_least_spec (floor : Q) (sims : list Q) (i : nat) (s : Q) :
  In (i, s) (indices_at_least floor sims)
  <-> nth_error sims i = Some s /\ floor <= s.
Proof.
  unfold indices_at_least. rewrite filter_In, in_combine_seq. simpl.
  rewrite Qle_bool_iff, Nat.sub_0_r. intuition lia.
Qed.

Lemma indices_at_least_none (floor : Q) (sims : list Q) :
  (forall s, In s sims -> s < floor) -> indices_at_least floor sims = [].
Proof.
  intro H. unfold indices_at_least. apply filter_all_false.
  intros [i s] Hin. simpl.
  apply in_combine_r in Hin.
  destruct (Qle_bool floor s) eqn:Hc; [|reflexivity].
  apply Qle_bool_iff in Hc. exfalso.
  eapply Qlt_not_le; [apply (H s Hin)|exact Hc].
Qed.

Lemma in_firstn {A} (n : nat) (l : list A) (x : A) :
  In x (firstn n l) -> In x l.
Proof.
  intro H. rewrite <- (firstn_skipn n l). apply in_or_app. now left.
Qed.

Lemma slice_to_incl {A} (k : Z) (l : list A) (x : A) :
  In x (Py.slice_to k l) -> In x l.
Proof.
  unfold Py.slice_to. destruct (0 <=? k)%Z; apply in_firstn.
Qed.

Lemma slice_to_all {A} (k : Z) (l : list A) :
  (Z.of_nat (length l) <= k)%Z -> Py.slice_to k l = l.
Proof.
  intro H. unfold Py.slice_to.
  destruct (0 <=? k)%Z eqn:Hk; [|apply Z.leb_gt in Hk; lia].
  apply firstn_all2. lia.
Qed.

Lemma slice_to_head {A} (k : Z) (x : A) (l : list A) :
  (1 <= k)%Z -> exists t, Py.slice_to k (x :: l) = x :: t.
Proof.
  intro H. unfold Py.slice_to.
  destruct (0 <=? k)%Z eqn:Hk; [|apply Z.leb_gt in Hk; lia].
  destruct (Z.to_nat k) as [|n] eqn:Hn; [lia|]. simpl. eauto.
Qed.

Lemma slice_to_keeps_head {A} (k : Z) (l : list A) (h : A) (t : list A) :
  Py.slice_to k l = h :: t -> exists t', l = h :: t'.
Proof.
  unfold Py.slice_to.
  destruct (0 <=? k)%Z; destruct l as [|x l']; intro H;
    try (rewrite firstn_nil in H; discriminate).
  - destruct (Z.to_nat k); simpl in H; [discriminate|].
    inversion H; subst. eauto.
  - destruct (length (x :: l') - Z.to_nat (- k))%nat; simpl in H;
      [discriminate|]. inversion H; subst. eauto.
Qed.

Lemma in_map_fst_valid (l : list (nat * Q)) (i : nat) :
  In i (map fst l) <-> exists s, In (i, s) l.
Proof.
  rewrite in_map_iff. split.
  - intros [[j s] [E H]]. simpl in E. subst. eauto.
  - intros [s H]. exists (i, s). auto.
Qed.

(** C6. With the default floor, when no candidate reaches 0.30 the
    candidates kept are exactly those at 0.20 or more: each index
    returned has similarity at least 0.20, every such candidate is
    returned when [top_k] covers them, the result is not empty as soon as
    one candidate reaches 0.20 and [top_k] is positive, its first element
    then has the greatest similarity of all, and when no candidate
    reaches 0.20 the result is empty: the floor is not lowered again. *)
Theorem C6_rag_relaxation (top_k : Z) (sims : list Q) :
  (forall s, In s sims -> s < 3 # 10) ->
  valid_sims None sims = indices_at_least (2 # 10) sims
  /\ (forall i, In i (top_indices None top_k sims) ->
        exists s, nth_error sims i = Some s /\ 2 # 10 <= s)
  /\ (forall i s, nth_error sims i = Some s -> 2 # 10 <= s ->
        (Z.of_nat (length (indices_at_least (2 # 10) sims)) <= top_k)%Z ->
        In i (top_indices None top_k sims))
  /\ ((exists s, In s sims /\ 2 # 10 <= s) -> (1 <= top_k)%Z ->
        exists i rest s,
          top_indices None top_k sims = i :: rest
          /\ nth_error sims i = Some s
          /\ forall s', In s' sims -> s' <= s)
  /\ ((forall s, In s sims -> s < 2 # 10) -> top_indices None top_k sims = []).
Proof.
  intro Hnone.
  assert (Hv : valid_sims None sims = indices_at_least (2 # 10) sims).
  { unfold valid_sims. now rewrite (@indices_at_least_none _ _ Hnone). }
  split; [exact Hv|].
  unfold top_indices. rewrite Hv.
  set (valid := indices_at_least (2 # 10) sims).
  set (ranked := Py.sorted_reverse snd valid).
  assert (Hperm : Permutation valid ranked) by apply sorted_perm.
  split; [|split; [|split]].
  - intros i Hi. apply in_map_fst_valid in Hi. destruct Hi as [s Hi].
    exists s. apply indices_at_least_spec.
    apply slice_to_incl in Hi.
    eapply Permutation_in; [apply Permutation_sym, Hperm|exact Hi].
  - intros i s Hn Hs Hk. apply in_map_fst_valid. exists s.
    rewrite slice_to_all.
    + eapply Permutation_in; [exact Hperm|]. now apply indices_at_least_spec.
    + unfold ranked, Py.sorted_reverse. now rewrite sorted_length.
  - intros [s0 [Hin Hs0]] Hk.
    apply In_nth_error in Hin. destruct Hin as [i0 Hi0].
    assert (Hv0 : In (i0, s0) ranked).
    { eapply Permutation_in; [exact Hperm|]. now apply indices_at_least_spec. }
    destruct ranked as [|[i s] rk] eqn:Hr; [destruct Hv0|].
    destruct (@slice_to_head _ top_k (i, s) rk Hk) as [t Ht].
    exists i, (map fst t), s. rewrite Ht. simpl.
    assert (Hhead : In (i, s) valid).
    { eapply Permutation_in; [apply Permutation_sym, Hperm|now left]. }
    apply indices_at_least_spec in Hhead. destruct Hhead as [Hn Hs].
    repeat split; auto.
    intros s' Hs'.
    destruct (Qlt_le_dec s' (2 # 10)) as [Hlow|Hhigh].
    + apply Qlt_le_weak. eapply Qlt_le_trans; eauto.
    + apply In_nth_error in Hs'. destruct Hs' as [j Hj].
      assert (Hjr : In (j, s') ((i, s) :: rk)).
      { eapply Permutation_in; [exact Hperm|]. now apply indices_at_least_spec. }
      destruct Hjr as [Heq|Htail].
      * inversion Heq; subst. apply Qle_refl.
      * pose proof (@sorted_head _ (fun x : nat * Q => - snd x) valid
                      (i, s) rk Hr (j, s') Htail) as Hle.
        simpl in Hle. lra.
  - intros Hlow. unfold ranked, valid.
    rewrite (@indices_at_least_none _ _ Hlow).
    unfold Py.sorted_reverse, Py.slice_to. simpl.
    destruct (0 <=? top_k)%Z; [destruct (Z.to_nat top_k)|]; reflexivity.
Qed.

(** Three candidates at 0.10, 0.25 and 0.22: none reaches 0.30, the two
    at 0.20 or more are returned, best first. *)
Lemma C6_rag_relaxation_witness :
  top_indices None 10 [1 # 10; 25 # 100; 22 # 100] = [1%nat; 2%nat]
  /\ exists i rest s,
       top_indices None 10 [1 # 10; 25 # 100; 22 # 100] = i :: rest
       /\ nth_error [1 # 10; 25 # 100; 22 # 100] i = Some s
       /\ forall s', In s' [1 # 10; 25 # 100; 22 # 100] -> s' <= s.
Proof.
  split; [reflexivity|].
  refine (proj1 (proj2 (proj2 (proj2
            (@C6_rag_relaxation 10 [1 # 10; 25 # 100; 22 # 100] _)))) _ _).
  - intros s [<-|[<-|[<-|[]]]]; reflexivity.
  - exists (25 # 100). split; [right; left; reflexivity|discriminate].
  - lia.
Defined.

(* ------------------------------------------------------------------ *)
(** ** The embedding function and its cache *)

Definition is_provider_event (ev : Event) : Prop :=
  match ev with CallGetEmbedding _ => False | _ => True end.

Lemma get_embedding_blank (E : Env) (text : string) (w : World) :
  PyStr.blank text = true ->
  get_embedding E text w
  = (Ok (zeros 768), mkWorld (cache w) (trace w ++ [CallGetEmbedding text])).
Proof.
  intro H. unfold get_embedding, bind, emit. now rewrite H.
Qed.

(** [get_embedding] never raises and never touches the cache; its trace
    grows by the call itself followed by provider requests. *)
Lemma get_embedding_total (E : Env) (text : string) (w : World) :
  exists v evs,
    get_embedding E text w
    = (Ok v, mkWorld (cache w) (trace w ++ CallGetEmbedding text :: evs))
    /\ Forall is_provider_event evs.
Proof.
  unfold get_embedding, bind, emit, try_catch, call_vertex, call_openai, ret,
    raise.
  destruct (PyStr.blank text); simpl.
  { exists (zeros 768), []. split; [reflexivity|constructor]. }
  destruct (USE_VERTEX E); simpl.
  - destruct (vertex_get_embeddings E _ text) as [v|e]; simpl.
    + exists v, [CallVertexEmbed text]. rewrite <- app_assoc.
      split; [reflexivity|repeat constructor].
    + destruct (openai_client E); simpl.
      * destruct (openai_embeddings_create E _ text) as [v|e'];
          [exists v|exists (zeros 1536)];
          exists [CallVertexEmbed text; CallOpenAIEmbed text];
          rewrite <- !app_assoc; (split; [reflexivity|repeat constructor]).
      * exists (zeros 1536), [CallVertexEmbed text]. rewrite <- app_assoc.
        split; [reflexivity|repeat constructor].
  - destruct (openai_client E); simpl.
    + destruct (openai_embeddings_create E _ text) as [v|e'];
        [exists v|exists (zeros 1536)];
        exists [CallOpenAIEmbed text];
        rewrite <- !app_assoc; (split; [reflexivity|repeat constructor]).
    + exists (zeros 1536), []. split; [reflexivity|constructor].
Qed.

Lemma embedder_calls_app (text : string) (a b : list Event) :
  embedder_calls text (a ++ b)
  = (embedder_calls text a + embedder_calls text b)%nat.
Proof. unfold embedder_calls. now rewrite filter_app, length_app. Qed.

Lemma embedder_calls_providers (text : string) (evs : list Event) :
  Forall is_provider_event evs -> embedder_calls text evs = 0%nat.
Proof.
  unfold embedder_calls. induction 1 as [|ev evs Hev _ IH]; [reflexivity|].
  simpl. destruct ev; [destruct Hev| |]; exact IH.
Qed.

Lemma provider_calls_app (a b : list Event) :
  provider_calls (a ++ b) = (provider_calls a ++ provider_calls b)%list.
Proof. unfold provider_calls. apply filter_app. Qed.

Lemma lookup_firstn (k : string) (n : nat) (c : list (string * Vec)) (v : Vec) :
  lookup k (firstn n c) = Some v -> lookup k c = Some v.
Proof.
  revert n. induction c as [|[k' v'] c IH]; intros [|n]; simpl; try discriminate.
  destruct (String.eqb k k'); [auto|apply IH].
Qed.

Lemma lookup_firstn_none (k : string) (n : nat) (c : list (string * Vec)) :
  lookup k c = None -> lookup k (firstn n c) = None.
Proof.
  intro H. destruct (lookup k (firstn n c)) eqn:E; [|reflexivity].
  apply lookup_firstn in E. congruence.
Qed.

Lemma lookup_remove_same (k : string) (c : list (string * Vec)) :
  lookup k (remove k c) = None.
Proof.
  induction c as [|[k2 v2] c IH]; simpl; [reflexivity|].
  destruct (String.eqb k k2) eqn:E; [exact IH|]. simpl. now rewrite E.
Qed.

Lemma lookup_remove_other (k k' : string) (c : list (string * Vec)) :
  String.eqb k k' = false -> lookup k (remove k' c) = lookup k c.
Proof.
  intro Hne. induction c as [|[k2 v2] c IH]; simpl; [reflexivity|].
  destruct (String.eqb k' k2) eqn:E; simpl.
  - apply String.eqb_eq in E. subst k2. now rewrite Hne.
  - now rewrite IH.
Qed.

Lemma lookup_remove (k k' : string) (c : list (string * Vec)) (v : Vec) :
  lookup k (remove k' c) = Some v -> lookup k c = Some v.
Proof.
  destruct (String.eqb k k') eqn:E.
  - apply String.eqb_eq in E. subst k'. now rewrite lookup_remove_same.
  - now rewrite lookup_remove_other.
Qed.

Lemma remove_absent (k : string) (c : list (string * Vec)) :
  lookup k c = None -> remove k c = c.
Proof.
  induction c as [|[k2 v2] c IH]; simpl; [reflexivity|].
  destruct (String.eqb k k2); [discriminate|]. intro H. now rewrite IH.
Qed.

Lemma remove_length (k : string) (c : list (string * Vec)) (v : Vec) :
  lookup k c = Some v -> (S (length (remove k c)) <= length c)%nat.
Proof.
  induction c as [|[k2 v2] c IH]; simpl; [discriminate|].
  destruct (String.eqb k k2) eqn:E.
  - intros _. clear IH. apply le_n_S.
    induction c as [|[k3 v3] c IH]; simpl; [lia|].
    destruct (String.eqb k k3); simpl; lia.
  - intro H. simpl. apply le_n_S, IH, H.
Qed.

Lemma firstn_bounded {A} (n : nat) (l : list A) : (length (firstn n l) <= n)%nat.
Proof. rewrite length_firstn. lia. Qed.

(** Every call keeps the cache within [maxsize] entries. *)
Lemma cached_get_embedding_bounded (E : Env) (text : string) (w : World) :
  (length (cache w) <= maxsize)%nat ->
  (length (cache (snd (cached_get_embedding E text w))) <= maxsize)%nat.
Proof.
  intro Hb. unfold cached_get_embedding.
  destruct (lookup text (cache w)) as [v|] eqn:Hl.
  - cbn [snd cache length]. pose proof (remove_length _ _ Hl). lia.
  - destruct (get_embedding_total E text w) as (v & evs & -> & _).
    cbn [snd cache]. apply firstn_bounded.
Qed.

(** Every call keeps blank keys bound to the empty-text vector. *)
Lemma cached_get_embedding_blank_zero (E : Env) (text : string) (w : World) :
  blank_entries_zero (cache w) ->
  blank_entries_zero (cache (snd (cached_get_embedding E text w))).
Proof.
  intro Hz. unfold cached_get_embedding.
  destruct (lookup text (cache w)) as [v|] eqn:Hl.
  - cbn [snd cache]. intros k u. cbn [lookup].
    destruct (String.eqb k text) eqn:Ek.
    + apply String.eqb_eq in Ek. subst k. intros Hu Hb.
      inversion Hu; subst. eapply Hz; eauto.
    + intros Hu Hb. apply lookup_remove in Hu. eapply Hz; eauto.
  - destruct (PyStr.blank text) eqn:Hbl.
    + rewrite (get_embedding_blank E text w Hbl). cbn [snd cache].
      intros k u Hu Hb. apply lookup_firstn in Hu. cbn [lookup] in Hu.
      destruct (String.eqb k text) eqn:Ek.
      * now inversion Hu.
      * eapply Hz; eauto.
    + destruct (get_embedding_total E text w) as (v & evs & -> & _).
      cbn [snd cache].
      intros k u Hu Hb. apply lookup_firstn in Hu. cbn [lookup] in Hu.
      destruct (String.eqb k text) eqn:Ek.
      * apply String.eqb_eq in Ek. subst k. congruence.
      * eapply Hz; eauto.
Qed.

(** What the first branch of [get_embedding] does for every blank text:
    the answer is the constant vector of 768 zeros and no provider is
    asked, neither directly nor through the cache. *)
Lemma blank_text_embedding (E : Env) (text : string) (w : World) :
  PyStr.blank text = true ->
  blank_entries_zero (cache w) ->
  get_embedding E text w
  = (Ok (zeros 768), mkWorld (cache w) (trace w ++ [CallGetEmbedding text]))
  /\ fst (cached_get_embedding E text w) = Ok (zeros 768)
  /\ provider_calls (trace (snd (cached_get_embedding E text w)))
     = provider_calls (trace w).
Proof.
  intros Hb Hz. split; [now apply get_embedding_blank|].
  unfold cached_get_embedding.
  destruct (lookup text (cache w)) as [v|] eqn:Hl.
  - cbn [fst snd trace]. rewrite (Hz text v Hl Hb).
    split; reflexivity.
  - rewrite (get_embedding_blank E text w Hb). cbn [fst snd trace].
    rewrite provider_calls_app. cbn [provider_calls filter].
    rewrite app_nil_r.
    split; reflexivity.
Qed.

(** C5. The dimension of the vector for a blank text, in a process
    where Vertex is switched off and OpenAI answers: the backend in use
    is OpenAI, whose vectors have 1536 components. For the text of
    three blanks [get_embedding] asks no provider and answers with
    zeros, as the claim says, but with 768 of them, the constant of its
    first branch, which is not the dimension of the backend in use. The
    branch of the same function for a request that fails answers with
    1536 zeros. The vector for the blank text cannot be compared with
    the vector of any other text: [cosine_similarities] raises. *)
Theorem C5_blank_text_dimension :
  PyStr.blank "   " = true
  /\ active_backend env_openai_only = OpenAI
  /\ fst (get_embedding env_openai_only "   " w0) = Ok (zeros 768)
  /\ fst (cached_get_embedding env_openai_only "   " w0) = Ok (zeros 768)
  /\ provider_calls
       (trace (snd (cached_get_embedding env_openai_only "   " w0))) = []
  /\ length (zeros 768) <> declared_dimension (active_backend env_openai_only)
  /\ (exists v,
        fst (get_embedding env_openai_only "Python developer" w0) = Ok v
        /\ length v = declared_dimension (active_backend env_openai_only)
        /\ forall sqrt,
             cosine_similarities sqrt (zeros 768) v
             = Raise (ValueError "Incompatible dimension for X and Y matrices"))
  /\ fst (get_embedding env_unconfigured "Python developer" w0)
     = Ok (zeros 1536).
Proof.
  assert (Hz : blank_entries_zero (cache w0)) by (intros k v H; discriminate).
  destruct (@blank_text_embedding env_openai_only "   " w0 eq_refl Hz)
    as (H1 & H2 & H3).
  split; [reflexivity|]. split; [reflexivity|].
  split; [now rewrite H1|]. split; [exact H2|]. split; [exact H3|].
  split; [vm_compute; discriminate|]. split; [|reflexivity].
  eexists. split; [reflexivity|]. split; [vm_compute; reflexivity|].
  intro sqrt. unfold cosine_similarities, zeros. rewrite !repeat_length.
  reflexivity.
Qed.

(** A hit answers from the table and makes no call at all. *)
Lemma cached_hit_no_call (E : Env) (text : string) (w : World) (v : Vec) :
  lookup text (cache w) = Some v ->
  cached_get_embedding E text w
  = (Ok v, mkWorld ((text, v) :: remove text (cache w)) (trace w)).
Proof. intro H. unfold cached_get_embedding. now rewrite H. Qed.

Lemma keys_remove (k : string) (c : list (string * Vec)) :
  map fst (remove k c)
  = filter (fun x => negb (String.eqb x k)) (map fst c).
Proof.
  induction c as [|[k' v] c IH]; [reflexivity|]. cbn [remove map fst filter].
  rewrite (String.eqb_sym k' k).
  destruct (String.eqb k k'); cbn [negb map fst]; now rewrite IH.
Qed.

Lemma lookup_some_key (k : string) (c : list (string * Vec)) (v : Vec) :
  lookup k c = Some v -> In k (map fst c).
Proof.
  induction c as [|[k' v'] c IH]; cbn [lookup map fst In]; [discriminate|].
  destruct (String.eqb k k') eqn:E.
  - apply String.eqb_eq in E. now left.
  - intro H. right. now apply IH.
Qed.

Lemma lookup_none_key (k : string) (c : list (string * Vec)) :
  lookup k c = None -> ~ In k (map fst c).
Proof.
  induction c as [|[k' v] c IH]; cbn [lookup map fst In]; [tauto|].
  destruct (String.eqb k k') eqn:E; [discriminate|].
  apply String.eqb_neq in E. intros H [Hk|Hk]; [congruence|now apply IH].
Qed.

Lemma filter_other_id (t : string) (l : list string) :
  ~ In t l -> filter (fun x => negb (String.eqb x t)) l = l.
Proof.
  induction l as [|x l IH]; [reflexivity|]. cbn [In filter]. intro H.
  destruct (String.eqb x t) eqn:E.
  - apply String.eqb_eq in E. tauto.
  - cbn [negb]. rewrite IH; tauto.
Qed.

Lemma in_firstn_in {A} (n : nat) (l : list A) (x : A) :
  In x (firstn n l) -> In x l.
Proof.
  revert n. induction l as [|y l IH]; intros [|n]; cbn; try tauto.
  intros [H|H]; [now left|right; eauto].
Qed.

(** Removing a text that is among the first [S m] leaves the first [m]
    of the others. *)
Lemma filter_firstn_present (t : string) (l : list string) (m : nat) :
  NoDup l -> In t (firstn (S m) l) ->
  filter (fun x => negb (String.eqb x t)) (firstn (S m) l)
  = firstn m (filter (fun x => negb (String.eqb x t)) l).
Proof.
  intro Hnd. revert m.
  induction Hnd as [|x l Hx Hnd IH]; intros m Hin; [destruct Hin|].
  rewrite firstn_cons in *. cbn [filter].
  destruct (String.eqb x t) eqn:E; cbn [negb].
  - apply String.eqb_eq in E. subst x.
    rewrite (@filter_other_id t l Hx). apply filter_other_id.
    intro H. apply Hx. eapply in_firstn_in, H.
  - destruct Hin as [Hin|Hin];
      [apply String.eqb_neq in E; congruence|].
    destruct m as [|m]; [destruct Hin|].
    rewrite (IH m Hin), firstn_cons. reflexivity.
Qed.

(** A text that is not among the first [m] does not change them when it
    is removed. *)
Lemma firstn_filter_absent (t : string) (l : list string) (m : nat) :
  ~ In t (firstn m l) ->
  firstn m (filter (fun x => negb (String.eqb x t)) l) = firstn m l.
Proof.
  revert m. induction l as [|x l IH]; intros [|m]; cbn [firstn filter In];
    try reflexivity.
  intro H. destruct (String.eqb x t) eqn:E.
  - apply String.eqb_eq in E. tauto.
  - cbn [negb]. rewrite IH; tauto.
Qed.

Lemma firstn_prefix_in {A} (m : nat) (l : list A) (x : A) :
  In x (firstn m l) -> In x (firstn (S m) l).
Proof.
  revert m. induction l as [|y l IH]; intros [|m]; cbn [firstn In];
    try tauto.
  intros [H|H]; [now left|right; now apply IH].
Qed.

Lemma NoDup_touch (t : string) (l : list string) :
  NoDup l -> NoDup (touch t l).
Proof.
  intro H. unfold touch. constructor; [|now apply NoDup_filter].
  intro Hin. apply filter_In in Hin. destruct Hin as [_ Hin].
  now rewrite String.eqb_refl in Hin.
Qed.

(** One call keeps the cache at the most recently used texts. *)
Lemma cached_step_keys (E : Env) (t : string) (w : World)
    (used : list string) :
  NoDup used ->
  map fst (cache w) = firstn maxsize used ->
  map fst (cache (snd (cached_get_embedding E t w)))
  = firstn maxsize (touch t used).
Proof.
  intros Hnd Hk. unfold cached_get_embedding, touch.
  set (m := pred maxsize).
  change maxsize with (S m) in Hk. change maxsize with (S m).
  rewrite firstn_cons.
  destruct (lookup t (cache w)) as [v|] eqn:Hl.
  - cbn [snd cache map fst]. rewrite keys_remove, Hk. f_equal.
    apply filter_firstn_present; [exact Hnd|].
    rewrite <- Hk. eapply lookup_some_key, Hl.
  - destruct (get_embedding_total E t w) as (v & evs & -> & _).
    cbn [snd cache]. rewrite firstn_cons. cbn [map fst]. f_equal.
    rewrite <- firstn_map, Hk, firstn_firstn, Nat.min_l by lia.
    symmetry. apply firstn_filter_absent.
    intro Hin. apply (@lookup_none_key t (cache w) Hl).
    rewrite Hk. now apply firstn_prefix_in.
Qed.

Lemma calls_keys (E : Env) (texts : list string) (w : World)
    (used : list string) :
  NoDup used ->
  map fst (cache w) = firstn maxsize used ->
  map fst (cache (calls E texts w))
  = firstn maxsize (fold_left (fun used t => touch t used) texts used).
Proof.
  revert w used. induction texts as [|t rest IH]; intros w used Hnd Hk;
    [exact Hk|].
  cbn [calls fold_left]. apply IH; [now apply NoDup_touch|].
  now apply cached_step_keys.
Qed.

(** C9. For a text [t] not yet in the cache, two successive calls of
    [cached_get_embedding] return the same vector; [get_embedding] is
    invoked once, by the first call, and the second call leaves trace
    and cache as they are. The cache never exceeds 1024 entries, whatever
    text is asked next; a miss on a full cache puts the new entry in
    front and drops the entry at the back; [clear_embedding_cache]
    empties the cache. The entry at the back is the least recently used
    one: a hit moves its entry to the front, and after any sequence of
    calls on a cache that started empty the cache holds the 1024 texts
    used most recently, hits included, in the order of their last use. *)
Theorem C9_cache_idempotent (E : Env) (t : string) (w : World) :
  lookup t (cache w) = None ->
  (length (cache w) <= maxsize)%nat ->
  exists v w1,
    cached_get_embedding E t w = (Ok v, w1)
    /\ cached_get_embedding E t w1 = (Ok v, w1)
    /\ embedder_calls t (trace w1) = S (embedder_calls t (trace w))
    /\ cache w1 = firstn maxsize ((t, v) :: cache w)
    /\ (length (cache w) = maxsize -> cache w1 = (t, v) :: removelast (cache w))
    /\ (forall text,
          (length (cache (snd (cached_get_embedding E text w1))) <= maxsize)%nat)
    /\ maxsize = 1024%nat
    /\ cache (snd (clear_embedding_cache w1)) = []
    /\ (forall k u w2,
          lookup k (cache w2) = Some u ->
          cached_get_embedding E k w2
          = (Ok u, mkWorld ((k, u) :: remove k (cache w2)) (trace w2)))
    /\ (forall texts tr,
          map fst (cache (calls E texts (mkWorld [] tr)))
          = firstn maxsize (by_last_use texts)).
Proof.
  intros Hmiss Hbound.
  destruct (get_embedding_total E t w) as (v & evs & Hg & Hev).
  exists v, (mkWorld (firstn maxsize ((t, v) :: cache w))
                     (trace w ++ CallGetEmbedding t :: evs)).
  assert (Hfront : firstn maxsize ((t, v) :: cache w)
                   = (t, v) :: firstn (pred maxsize) (cache w)) by reflexivity.
  split; [|split; [|split; [|split; [|split; [|split; [|split;
    [|split; [|split]]]]]]]].
  - unfold cached_get_embedding. now rewrite Hmiss, Hg.
  - unfold cached_get_embedding. cbn [cache trace]. rewrite Hfront.
    cbn [lookup]. rewrite String.eqb_refl. cbn [remove].
    rewrite String.eqb_refl.
    rewrite remove_absent by (now apply lookup_firstn_none). reflexivity.
  - cbn [trace]. rewrite embedder_calls_app.
    change (CallGetEmbedding t :: evs) with ([CallGetEmbedding t] ++ evs)%list.
    rewrite embedder_calls_app, (embedder_calls_providers t Hev).
    unfold embedder_calls at 2. cbn [filter]. rewrite String.eqb_refl.
    cbn [length]. lia.
  - reflexivity.
  - intro Hfull. cbn [cache]. rewrite Hfront. f_equal.
    rewrite removelast_firstn_len. now rewrite Hfull.
  - intro text. apply cached_get_embedding_bounded. cbn [cache].
    apply firstn_bounded.
  - reflexivity.
  - reflexivity.
  - intros k u w2 Hhit. unfold cached_get_embedding. now rewrite Hhit.
  - intros texts tr. unfold by_last_use.
    apply calls_keys; [constructor|]. cbn [cache map].
    now rewrite firstn_nil.
Qed.

(** A full cache whose oldest text, "0", was asked again: the new text
    takes the place of "1", the text used least recently, and "0"
    stays. *)
Lemma C9_cache_idempotent_witness :
  exists v w1,
    cached_get_embedding env_toy "Python developer" w_full = (Ok v, w1)
    /\ cached_get_embedding env_toy "Python developer" w1 = (Ok v, w1)
    /\ embedder_calls "Python developer" (trace w1) = 1%nat
    /\ length (cache w1) = 1024%nat
    /\ lookup "0" (cache w1) <> None
    /\ lookup "1" (cache w1) = None.
Proof.
  assert (Hmiss : lookup "Python developer" (cache w_full) = None)
    by (vm_compute; reflexivity).
  assert (Hlen : (length (cache w_full) <= maxsize)%nat)
    by (apply Nat.leb_le; vm_compute; reflexivity).
  destruct (@C9_cache_idempotent env_toy "Python developer" w_full Hmiss Hlen)
    as (v & w1 & H1 & H2 & H3 & Hc & _).
  exists v, w1. split; [exact H1|]. split; [exact H2|].
  split; [rewrite H3; vm_compute; reflexivity|].
  rewrite Hc. split; [vm_compute; reflexivity|].
  split; [vm_compute; discriminate|vm_compute; reflexivity].
Defined.

(* ------------------------------------------------------------------ *)
(** ** Matching while no embedding backend answers *)

Lemma blank_false_truthy (s : string) :
  PyStr.blank s = false -> PyStr.truthy s = true.
Proof.
  unfold PyStr.blank. destruct (PyStr.truthy s); [reflexivity|discriminate].
Qed.

Lemma strip_truthy_not_blank (s : string) :
  PyStr.truthy (PyStr.strip s) = true -> PyStr.blank s = false.
Proof.
  unfold PyStr.blank. destruct s as [|c r]; [discriminate|].
  simpl PyStr.truthy at 2. simpl negb.
  destruct (PyStr.strip (String c r)); [discriminate|reflexivity].
Qed.

Lemma get_embedding_unreachable (E : Env) (text : string) (w : World) :
  embedding_unreachable E -> PyStr.blank text = false ->
  exists tr, get_embedding E text w = (Ok (zeros 1536), mkWorld (cache w) tr).
Proof.
  intros [Hv Ho] Hb.
  unfold get_embedding, bind, emit, try_catch, call_vertex, call_openai, ret,
    raise.
  rewrite Hb.
  destruct (USE_VERTEX E); simpl.
  - destruct (Hv (trace w ++ [CallGetEmbedding text])%list text) as [e ->].
    destruct (openai_client E); simpl.
    + destruct (Ho ((trace w ++ [CallGetEmbedding text])
                      ++ [CallVertexEmbed text])%list text) as [e' ->].
      eauto.
    + eauto.
  - destruct (openai_client E); simpl.
    + destruct (Ho (trace w ++ [CallGetEmbedding text])%list text) as [e' ->].
      eauto.
    + eauto.
Qed.

Lemma lookup_In (k : string) (c : list (string * Vec)) (v : Vec) :
  lookup k c = Some v -> In (k, v) c.
Proof.
  induction c as [|[k' v'] c IH]; simpl; [discriminate|].
  destruct (String.eqb k k') eqn:E.
  - intro H. inversion H; subst. apply String.eqb_eq in E. subst. now left.
  - intro H. right. now apply IH.
Qed.

Lemma remove_incl (k : string) (c : list (string * Vec)) (x : string * Vec) :
  In x (remove k c) -> In x c.
Proof.
  induction c as [|[k' v'] c IH]; simpl; [auto|].
  destruct (String.eqb k k'); simpl; intuition.
Qed.

Lemma cached_unreachable (E : Env) (text : string) (w : World) :
  embedding_unreachable E -> PyStr.blank text = false ->
  failure_cache (cache w) ->
  exists w',
    cached_get_embedding E text w = (Ok (zeros 1536), w')
    /\ failure_cache (cache w').
Proof.
  intros HE Hb Hc. unfold failure_cache in *. rewrite Forall_forall in Hc.
  unfold cached_get_embedding.
  destruct (lookup text (cache w)) as [v|] eqn:Hl.
  - pose proof (Hc _ (@lookup_In _ _ _ Hl)) as Hv. simpl in Hv. subst v.
    eexists. split; [reflexivity|]. cbn [cache].
    apply Forall_forall. intros x [<-|Hx]; [reflexivity|].
    apply Hc. eapply remove_incl; eauto.
  - destruct (@get_embedding_unreachable E text w HE Hb) as [tr ->].
    eexists. split; [reflexivity|]. cbn [cache].
    apply Forall_forall. intros x Hx. apply in_firstn in Hx.
    destruct Hx as [<-|Hx]; [reflexivity|]. now apply Hc.
Qed.

Section ZeroScores.

Variable sqrt : Q -> Q.

Lemma dot_zero_num (a b : Vec) :
  Forall zero_num a -> zero_num (dot a b).
Proof.
  intro H. revert b. induction H as [|x a Hx _ IH]; intro b.
  - reflexivity.
  - destruct b as [|y b]; [reflexivity|]. cbn [dot].
    apply zero_num_plus; [now apply zero_num_mult_l|apply IH].
Qed.

Lemma normalize_zeros (n : nat) : Forall zero_num (normalize sqrt (zeros n)).
Proof.
  unfold normalize. apply Forall_forall. intros x Hx.
  apply in_map_iff in Hx. destruct Hx as (y & <- & Hy).
  apply repeat_spec in Hy. subst y. now apply zero_num_div.
Qed.

Lemma pct_of_zeros (n : nat) :
  (0 < n)%nat ->
  exists p, pct_of sqrt (zeros n) (zeros n) = Ok p /\ zero_num p.
Proof.
  intro Hn. unfold pct_of, cosine_similarities, zeros.
  rewrite repeat_length, Nat.eqb_refl.
  destruct n as [|n]; [lia|]. cbn [Nat.eqb orb].
  eexists. split; [reflexivity|].
  apply zero_num_round2, zero_num_mult_l, dot_zero_num.
  apply (normalize_zeros (S n)).
Qed.

Lemma tagged_zero (j : Job) (src : string) (p : Q) :
  zero_num p -> zero_num (similarity (tagged j src p)).
Proof. intro H. cbn [tagged similarity]. now apply zero_num_div. Qed.

Variable E : Env.
Hypothesis unreachable : embedding_unreachable E.

Lemma match_local_unreachable (pl jt : string) (jobs : list Job) :
  forall w, failure_cache (cache w) ->
  exists ms w',
    match_local sqrt E (zeros 1536) pl jt jobs w = (Ok ms, w')
    /\ failure_cache (cache w')
    /\ Forall (fun m => zero_num (similarity m)) ms.
Proof.
  induction jobs as [|j rest IH]; intros w Hc.
  - exists [], w. repeat split; auto.
  - cbn [match_local].
    destruct (PyStr.truthy (PyStr.strip (full_job_desc j))) eqn:Hfull;
      cbn [negb]; [|now apply IH].
    apply strip_truthy_not_blank in Hfull.
    destruct (@cached_unreachable E (full_job_desc j) w unreachable Hfull Hc)
      as (w1 & Hw1 & Hc1).
    destruct (@pct_of_zeros 1536 ltac:(lia)) as (p & Hp & Hz).
    destruct (IH w1 Hc1) as (ms & w2 & Hrest & Hc2 & Hms).
    unfold bind at 1, try_catch, bind at 1. rewrite Hw1.
    unfold bind at 1, lift. rewrite Hp. unfold ret at 1.
    destruct (local_location_excluded pl (loc_of j)); [eauto|].
    destruct (local_job_type_excluded jt _); [eauto|].
    unfold bind. rewrite Hrest. unfold ret.
    exists (tagged j "local" p :: ms), w2. repeat split; auto.
    constructor; [now apply tagged_zero|exact Hms].
Qed.

Lemma match_external_unreachable (candidates : list Job) :
  Forall (fun j => PyStr.blank
                     (match description j with Some d => d | None => "" end)
                   = false) candidates ->
  forall w, failure_cache (cache w) ->
  exists ms w',
    match_external sqrt E (zeros 1536) candidates w = (Ok ms, w')
    /\ failure_cache (cache w')
    /\ Forall (fun m => zero_num (similarity m)) ms.
Proof.
  induction 1 as [|j rest Hj _ IH]; intros w Hc.
  - exists [], w. repeat split; auto.
  - cbn [match_external].
    destruct (@cached_unreachable E _ w unreachable Hj Hc) as (w1 & Hw1 & Hc1).
    destruct (@pct_of_zeros 1536 ltac:(lia)) as (p & Hp & Hz).
    destruct (IH w1 Hc1) as (ms & w2 & Hrest & Hc2 & Hms).
    unfold bind at 1. rewrite Hw1.
    unfold bind at 1, lift. rewrite Hp.
    unfold bind. rewrite Hrest. unfold ret.
    exists (tagged j "external" p :: ms), w2. repeat split; auto.
    constructor; [now apply tagged_zero|exact Hms].
Qed.

End ZeroScores.

Lemma backfill_all_zero (t : Q) (lm em : list Match) :
  0 < t ->
  Forall (fun m => zero_num (similarity m)) lm ->
  Forall (fun m => zero_num (similarity m)) em ->
  filter_and_backfill t lm em = [].
Proof.
  intros Ht Hl He.
  assert (Hnone : forall t', 0 < t' -> forall l,
            Forall (fun m => zero_num (similarity m)) l ->
            filter (reaches t') l = []).
  { intros t' Ht' l Hz. apply filter_all_false. intros m Hm.
    rewrite Forall_forall in Hz. unfold reaches.
    apply zero_num_below; [exact Ht'|]. now apply zero_num_mult_l, Hz. }
  unfold filter_and_backfill.
  rewrite (Hnone t Ht (lm ++ em)%list) by (now apply Forall_app).
  rewrite (Hnone 30 ltac:(reflexivity) lm Hl). cbn.
  destruct (length lm); reflexivity.
Qed.

Lemma message_of_empty (t : Q) (local_jobs external_jobs : list Job)
    (lm em : list Match) :
  message_of t local_jobs external_jobs lm em [] <> None.
Proof.
  unfold message_of. cbn [nonempty].
  destruct (lm ++ em)%list; [|discriminate].
  destruct ((length lm =? 0)%nat && (length em =? 0)%nat); [|discriminate].
  destruct ((length local_jobs =? 0)%nat && (length external_jobs =? 0)%nat);
    discriminate.
Qed.

Lemma threshold_positive (env : option Q) : 0 < threshold_pct_of env.
Proof.
  eapply Qlt_le_trans; [|apply py_max_lower_bound]. reflexivity.
Qed.

(** C1 as the code has it. When no embedding backend succeeds,
    [get_embedding] answers with the zero vector of 1536 components
    instead of raising, so a match request whose resume and external
    descriptions are not blank does not fail: every job that is scored
    gets similarity 0, none reaches the threshold or the 30% floor of the
    backfill, and the caller receives a successful response with empty
    match lists and a diagnostic message (or the "no jobs" response when
    there is no job at all). *)
Theorem C1_unreachable_embeddings_degrade (sqrt : Q -> Q) (E : Env)
    (MATCH_THRESHOLD : option Q)
    (resume_text preferred_location job_type : string)
    (local_jobs external_jobs : list Job) (w : World) :
  embedding_unreachable E ->
  failure_cache (cache w) ->
  PyStr.blank resume_text = false ->
  Forall (fun j => PyStr.blank
                     (match description j with Some d => d | None => "" end)
                   = false) external_jobs ->
  match fst (api_match sqrt E MATCH_THRESHOLD resume_text preferred_location
                       job_type local_jobs external_jobs w) with
  | Success b =>
      matches b = [] /\ local_matches b = [] /\ external_matches b = []
      /\ message b <> None
  | SuccessNoJobs _ => local_jobs = [] /\ external_jobs = []
  | Failure _ _ => False
  end.
Proof.
  intros HE Hc Hr Hx.
  unfold api_match, api_match_body.
  rewrite (blank_false_truthy _ Hr). cbn [negb].
  destruct (negb (nonempty local_jobs) && negb (nonempty external_jobs)) eqn:Hj.
  { cbn. destruct local_jobs, external_jobs; try discriminate. now split. }
  destruct (@cached_unreachable E resume_text w HE Hr Hc) as (w1 & Hw1 & Hc1).
  destruct (@match_local_unreachable sqrt E HE preferred_location job_type
              local_jobs w1 Hc1) as (lm & w2 & Hlm & Hc2 & Hzl).
  assert (Hcand : Forall (fun j => PyStr.blank
                     (match description j with Some d => d | None => "" end)
                   = false)
                   (candidate_external preferred_location job_type external_jobs)).
  { rewrite Forall_forall in *. intros j Hin. apply Hx.
    unfold candidate_external in Hin. now apply filter_In in Hin. }
  destruct (@match_external_unreachable sqrt E HE _ Hcand w2 Hc2)
    as (em & w3 & Hem & Hc3 & Hze).
  unfold bind at 1. rewrite Hw1.
  unfold bind at 1. rewrite Hlm.
  unfold bind at 1. rewrite Hem.
  unfold ret. cbn [fst].
  rewrite backfill_all_zero;
    [|apply threshold_positive|now apply sorted_Forall|now apply sorted_Forall].
  cbn [matches local_matches external_matches message filter].
  repeat split. apply message_of_empty.
Qed.

Lemma env_all_down_unreachable : embedding_unreachable env_all_down.
Proof. split; intros tr text; eexists; reflexivity. Qed.

Lemma C1_unreachable_embeddings_degrade_witness :
  match fst (api_match sqrt_fixpoints env_all_down None "Python developer" ""
                       "" [p5_local_job] [p5_external_job] w0) with
  | Success b =>
      matches b = [] /\ local_matches b = [] /\ external_matches b = []
      /\ message b <> None
  | SuccessNoJobs _ => [p5_local_job] = [] /\ [p5_external_job] = []
  | Failure _ _ => False
  end.
Proof.
  apply C1_unreachable_embeddings_degrade.
  - exact env_all_down_unreachable.
  - constructor.
  - reflexivity.
  - repeat constructor.
Defined.

(** Both backends fail on every call, and the request is answered with a
    success: no match, the message that none of the jobs met the
    threshold, best score 0. *)
Lemma C1_counterexample :
  embedding_unreachable env_all_down
  /\ exists b top,
       fst (api_match sqrt_fixpoints env_all_down None "Python developer" ""
                      "" [p5_local_job] [] w0) = Success b
       /\ matches b = []
       /\ threshold_pct b = 50
       /\ message b = Some (MsgNoneMeetThreshold 1 50 top)
       /\ top == 0.
Proof.
  split; [exact env_all_down_unreachable|].
  set (r := fst (api_match _ _ _ _ _ _ _ _ _)).
  vm_compute in r. subst r.
  do 2 eexists. repeat split.
Qed.

(* ------------------------------------------------------------------ *)
(** ** The endpoint hands tagged matches to the threshold step *)

Section Provenance.

Variable sqrt : Q -> Q.
Variable E : Env.

Lemma match_local_sources (resume_emb : Vec) (pl jt : string)
    (jobs : list Job) :
  forall w ms w',
    match_local sqrt E resume_emb pl jt jobs w = (Ok ms, w') ->
    Forall (fun m => source_is "local" m = true) ms.
Proof.
  induction jobs as [|j rest IH]; intros w ms w'; cbn [match_local].
  - unfold ret. intro H. inversion H. constructor.
  - destruct (negb (PyStr.truthy (PyStr.strip (full_job_desc j))));
      [apply IH|].
    unfold bind at 1.
    destruct (try_catch _ _ w) as [[[pct|]|e] w1]; try discriminate.
    + destruct (local_location_excluded pl (loc_of j)); [apply IH|].
      destruct (local_job_type_excluded jt _); [apply IH|].
      unfold bind.
      destruct (match_local sqrt E resume_emb pl jt rest w1)
        as [[ms1|e1] w2] eqn:Hrest; [|discriminate].
      unfold ret. intro H. inversion H; subst.
      constructor; [reflexivity|]. eapply IH; eauto.
    + apply IH.
Qed.

Lemma match_external_sources (resume_emb : Vec) (candidates : list Job) :
  forall w ms w',
    match_external sqrt E resume_emb candidates w = (Ok ms, w') ->
    Forall (fun m => source_is "external" m = true) ms.
Proof.
  induction candidates as [|j rest IH]; intros w ms w'; cbn [match_external].
  - unfold ret. intro H. inversion H. constructor.
  - unfold bind at 1.
    destruct (cached_get_embedding E _ w) as [[v|e] w1]; [|discriminate].
    unfold bind at 1, lift.
    destruct (pct_of sqrt resume_emb v) as [pct|e]; [|discriminate].
    unfold bind.
    destruct (match_external sqrt E resume_emb rest w1)
      as [[ms1|e1] w2] eqn:Hrest; [|discriminate].
    unfold ret. intro H. inversion H; subst.
    constructor; [reflexivity|]. eapply IH; eauto.
Qed.

(** Every successful response of [api_match] is the threshold filter
    with backfill applied to local matches tagged "local" and external
    matches tagged "external". *)
Lemma api_match_filters_tagged (MATCH_THRESHOLD : option Q)
    (resume_text pl jt : string) (local_jobs external_jobs : list Job)
    (w : World) (b : MatchBody) :
  fst (api_match sqrt E MATCH_THRESHOLD resume_text pl jt local_jobs
                 external_jobs w) = Success b ->
  exists lm em,
    Forall (fun m => source_is "local" m = true) lm
    /\ Forall (fun m => source_is "external" m = true) em
    /\ threshold_pct b = threshold_pct_of MATCH_THRESHOLD
    /\ matches b = filter_and_backfill (threshold_pct b) lm em.
Proof.
  unfold api_match, api_match_body.
  destruct (negb (PyStr.truthy resume_text)); [discriminate|].
  destruct (negb (nonempty local_jobs) && negb (nonempty external_jobs));
    [discriminate|].
  unfold bind at 1.
  destruct (cached_get_embedding E resume_text w) as [[v|e] w1];
    [|discriminate].
  unfold bind at 1.
  destruct (match_local sqrt E v pl jt local_jobs w1)
    as [[lm|e] w2] eqn:Hl; [|discriminate].
  unfold bind at 1.
  destruct (match_external sqrt E v _ w2) as [[em|e] w3] eqn:He;
    [|discriminate].
  unfold ret. cbn [fst]. intro H. inversion H; subst. cbn.
  exists (Py.sorted (fun x => - similarity x) lm),
         (Py.sorted (fun x => - similarity x) em).
  repeat split.
  - apply sorted_Forall. eapply match_local_sources; eauto.
  - apply sorted_Forall. eapply match_external_sources; eauto.
Qed.

End Provenance.

(* ================================================================== *)
(** * Further properties of the match endpoint *)

Lemma filter_filter_comm {A} (p q : A -> bool) (l : list A) :
  filter p (filter q l) = filter q (filter p l).
Proof.
  induction l as [|x l IH]; [reflexivity|]. simpl.
  destruct (p x) eqn:Hp, (q x) eqn:Hq; simpl; rewrite ?Hp, ?Hq, IH; reflexivity.
Qed.

Lemma locals_all_local (p : Match -> bool) (lm : list Match) :
  Forall (fun m => source_is "local" m = true) lm ->
  filter (source_is "local") (filter p lm) = filter p lm
  /\ filter (fun m => negb (source_is "local" m)) (filter p lm) = []
  /\ filter (source_is "external") (filter p lm) = [].
Proof.
  intro H. rewrite Forall_forall in H. repeat split.
  - apply filter_all_true. intros m Hm. apply filter_In in Hm. apply H, Hm.
  - apply filter_all_false. intros m Hm. apply filter_In in Hm.
    now rewrite (H m (proj1 Hm)).
  - apply filter_all_false. intros m Hm. apply filter_In in Hm.
    pose proof (H m (proj1 Hm)) as Hl.
    destruct (source_is "external" m) eqn:He; [|reflexivity].
    apply source_external_not_local in He. congruence.
Qed.

Lemma externals_all_external (p : Match -> bool) (em : list Match) :
  Forall (fun m => source_is "external" m = true) em ->
  filter (source_is "external") (filter p em) = filter p em.
Proof.
  intro H. rewrite Forall_forall in H.
  apply filter_all_true. intros m Hm. apply filter_In in Hm. apply H, Hm.
Qed.

Lemma existsb_false_filter {A} (p : A -> bool) (l : list A) :
  existsb p l = false -> filter p l = [].
Proof.
  intro H. apply filter_all_false. intros x Hx.
  destruct (p x) eqn:Hp; [|reflexivity].
  assert (existsb p l = true) by (apply existsb_exists; eauto). congruence.
Qed.

Lemma existsb_true_filter {A} (p : A -> bool) (l : list A) :
  existsb p l = true -> filter p l <> [].
Proof.
  intro H. apply existsb_exists in H. destruct H as (x & Hx & Hp).
  intro E. assert (Hin : In x (filter p l)) by (apply filter_In; auto).
  rewrite E in Hin. destruct Hin.
Qed.

(** The threshold step on tagged matches, in closed form. *)
Lemma backfill_closed_form (t : Q) (lm em : list Match) :
  Forall (fun m => source_is "local" m = true) lm ->
  Forall (fun m => source_is "external" m = true) em ->
  filter_and_backfill t lm em
  = (filter (reaches (if existsb (reaches t) lm then t else 30)) lm
     ++ filter (reaches t) em)%list.
Proof.
  intros Hl He. unfold filter_and_backfill.
  rewrite !filter_app.
  destruct (locals_all_local (reaches t) Hl) as (L1 & L2 & _).
  destruct (externals_have_no_local (reaches t) He) as (E1 & E2).
  rewrite L1, L2, E1, E2, app_nil_r. cbn [app].
  destruct (existsb (reaches t) lm) eqn:Hex.
  - pose proof (existsb_true_filter _ _ Hex) as Hne.
    destruct (filter (reaches t) lm) as [|m ms] eqn:Hf; [congruence|].
    cbn [length Nat.eqb]. now rewrite andb_false_r.
  - rewrite (existsb_false_filter _ _ Hex). cbn [length Nat.eqb app].
    rewrite andb_true_r.
    destruct lm as [|m ms]; [reflexivity|]. cbn [length Nat.ltb Nat.leb].
    destruct (filter (reaches 30) (m :: ms)); reflexivity.
Qed.


(** The stable sort really sorts. *)
Lemma insert_by_sorted {A} (key : A -> Q) (x : A) (l : list A) :
  StronglySorted (fun a b => key a <= key b) l ->
  StronglySorted (fun a b => key a <= key b) (Py.insert_by key x l).
Proof.
  induction 1 as [|y t Hs IH Hy]; simpl.
  - repeat constructor.
  - destruct (Qle_bool (key x) (key y)) eqn:Hc.
    + apply Qle_bool_iff in Hc. constructor; [now constructor|].
      constructor; [exact Hc|].
      rewrite Forall_forall in *. intros z Hz.
      eapply Qle_trans; [exact Hc|]. now apply Hy.
    + assert (Hyx : key y <= key x).
      { apply Qlt_le_weak, Qnot_le_lt. intro Hle.
        apply Qle_bool_iff in Hle. congruence. }
      constructor; [exact IH|].
      eapply Permutation_Forall; [apply insert_by_perm|].
      now constructor.
Qed.

Lemma sorted_sorted {A} (key : A -> Q) (l : list A) :
  StronglySorted (fun a b => key a <= key b) (Py.sorted key l).
Proof.
  induction l as [|x l IH]; simpl; [constructor|].
  now apply insert_by_sorted.
Qed.

Lemma StronglySorted_weaken {A} (R S : A -> A -> Prop) (l : list A) :
  (forall a b, R a b -> S a b) -> StronglySorted R l -> StronglySorted S l.
Proof.
  intros HRS. induction 1 as [|x l Hs IH Hx]; constructor; auto.
  eapply Forall_impl; [|exact Hx]. auto.
Qed.

Lemma sorted_descending (l : list Match) :
  StronglySorted (fun x y => similarity y <= similarity x)
                 (Py.sorted (fun x => - similarity x) l).
Proof.
  eapply StronglySorted_weaken; [|apply sorted_sorted].
  intros a b H. simpl in H. lra.
Qed.

Lemma StronglySorted_filter {A} (R : A -> A -> Prop) (p : A -> bool)
    (l : list A) :
  StronglySorted R l -> StronglySorted R (filter p l).
Proof.
  induction 1 as [|x l Hs IH Hx]; simpl; [constructor|].
  destruct (p x); [|exact IH].
  constructor; [exact IH|].
  rewrite Forall_forall in *. intros y Hy. apply filter_In in Hy.
  apply Hx, Hy.
Qed.

(** X1. On tagged matches the threshold step has a closed form: the
    local matches that reach the threshold or, when none of them does,
    those that reach 30%, followed by the external matches that reach the
    threshold. External matches are never re-admitted below it. *)
Theorem X1_backfill_closed_form (t : Q) (lm em : list Match) :
  Forall (fun m => source_is "local" m = true) lm ->
  Forall (fun m => source_is "external" m = true) em ->
  filter_and_backfill t lm em
  = (filter (reaches (if existsb (reaches t) lm then t else 30)) lm
     ++ filter (reaches t) em)%list.
Proof. apply backfill_closed_form. Qed.

Lemma X1_backfill_closed_form_witness :
  let l1 := tagged p5_local_job "local" 55 in
  let l2 := tagged p5_local_job "local" 35 in
  let e := tagged p5_external_job "external" 45 in
  filter_and_backfill 50 [l1; l2] [e] = [l1].
Proof.
  intros l1 l2 e.
  refine (eq_trans (@X1_backfill_closed_form 50 [l1; l2] [e] _ _) _).
  - repeat constructor.
  - repeat constructor.
  - reflexivity.
Defined.

(** What a successful response of [api_match] is made of. *)
Lemma api_match_success_shape (sqrt : Q -> Q) (E : Env)
    (MATCH_THRESHOLD : option Q) (resume_text pl jt : string)
    (local_jobs external_jobs : list Job) (w : World) (b : MatchBody) :
  fst (api_match sqrt E MATCH_THRESHOLD resume_text pl jt local_jobs
                 external_jobs w) = Success b ->
  exists lm0 em0,
    Forall (fun m => source_is "local" m = true) lm0
    /\ Forall (fun m => source_is "external" m = true) em0
    /\ b = (let lm := Py.sorted (fun x => - similarity x) lm0 in
            let em := Py.sorted (fun x => - similarity x) em0 in
            let t := threshold_pct_of MATCH_THRESHOLD in
            let filtered := filter_and_backfill t lm em in
            mkBody filtered
                   (filter (source_is "local") filtered)
                   (filter (source_is "external") filtered)
                   t
                   (message_of t local_jobs external_jobs lm em filtered)).
Proof.
  unfold api_match, api_match_body.
  destruct (negb (PyStr.truthy resume_text)); [discriminate|].
  destruct (negb (nonempty local_jobs) && negb (nonempty external_jobs));
    [discriminate|].
  unfold bind at 1.
  destruct (cached_get_embedding E resume_text w) as [[v|e] w1];
    [|discriminate].
  unfold bind at 1.
  destruct (match_local sqrt E v pl jt local_jobs w1)
    as [[lm|e] w2] eqn:Hl; [|discriminate].
  unfold bind at 1.
  destruct (match_external sqrt E v _ w2) as [[em|e] w3] eqn:He;
    [|discriminate].
  unfold ret. cbn [fst]. intro H. inversion H; subst.
  exists lm, em. repeat split.
  - eapply match_local_sources; eauto.
  - eapply match_external_sources; eauto.
Qed.

(** The matches a successful response returns, in closed form. *)
Lemma api_match_success_matches (sqrt : Q -> Q) (E : Env)
    (MATCH_THRESHOLD : option Q) (resume_text pl jt : string)
    (local_jobs external_jobs : list Job) (w : World) (b : MatchBody) :
  fst (api_match sqrt E MATCH_THRESHOLD resume_text pl jt local_jobs
                 external_jobs w) = Success b ->
  exists lm em floor,
    Forall (fun m => source_is "local" m = true) lm
    /\ Forall (fun m => source_is "external" m = true) em
    /\ StronglySorted (fun x y => similarity y <= similarity x) lm
    /\ StronglySorted (fun x y => similarity y <= similarity x) em
    /\ (floor = threshold_pct b \/ floor = 30)
    /\ threshold_pct b = threshold_pct_of MATCH_THRESHOLD
    /\ matches b = (filter (reaches floor) lm
                    ++ filter (reaches (threshold_pct b)) em)%list
    /\ local_matches b = filter (reaches floor) lm
    /\ external_matches b = filter (reaches (threshold_pct b)) em
    /\ message b = message_of (threshold_pct b) local_jobs external_jobs
                              lm em (matches b).
Proof.
  intro H. apply api_match_success_shape in H.
  destruct H as (lm0 & em0 & Hl0 & He0 & ->).
  set (lm := Py.sorted (fun x => - similarity x) lm0).
  set (em := Py.sorted (fun x => - similarity x) em0).
  set (t := threshold_pct_of MATCH_THRESHOLD).
  assert (Hl : Forall (fun m => source_is "local" m = true) lm)
    by (now apply sorted_Forall).
  assert (He : Forall (fun m => source_is "external" m = true) em)
    by (now apply sorted_Forall).
  exists lm, em, (if existsb (reaches t) lm then t else 30).
  cbn zeta. cbn [matches local_matches external_matches threshold_pct message].
  fold lm em t.
  rewrite (@backfill_closed_form t lm em Hl He).
  rewrite !filter_app.
  destruct (locals_all_local (reaches (if existsb (reaches t) lm then t else 30)) Hl)
    as (L1 & _ & L3).
  destruct (externals_have_no_local (reaches t) He) as (E1 & _).
  rewrite L1, L3, E1, (externals_all_external (reaches t) He), app_nil_r.
  cbn [app].
  repeat split; auto.
  - apply sorted_descending.
  - apply sorted_descending.
  - destruct (existsb (reaches t) lm); auto.
Qed.

(** X2. In every successful response the combined list is the local
    matches followed by the external matches, and the two partial lists
    hold nothing but matches of their own provenance. *)
Theorem X2_matches_partition (sqrt : Q -> Q) (E : Env)
    (MATCH_THRESHOLD : option Q) (resume_text pl jt : string)
    (local_jobs external_jobs : list Job) (w : World) (b : MatchBody) :
  fst (api_match sqrt E MATCH_THRESHOLD resume_text pl jt local_jobs
                 external_jobs w) = Success b ->
  matches b = (local_matches b ++ external_matches b)%list
  /\ Forall (fun m => source_is "local" m = true) (local_matches b)
  /\ Forall (fun m => source_is "external" m = true) (external_matches b).
Proof.
  intro H. apply api_match_success_matches in H.
  destruct H as (lm & em & fl & Hl & He & _ & _ & _ & _ & Hm & Hlm & Hem & _).
  rewrite Hm, Hlm, Hem. split; [reflexivity|].
  rewrite Forall_forall in Hl, He.
  split; apply Forall_forall; intros m Hin; apply filter_In in Hin;
    [apply Hl|apply He]; apply Hin.
Qed.

Lemma X2_matches_partition_witness :
  exists b, toy_response = Success b
            /\ length (local_matches b) = 1%nat
            /\ length (external_matches b) = 2%nat
            /\ matches b = (local_matches b ++ external_matches b)%list.
Proof.
  eexists. split; [vm_compute; reflexivity|].
  split; [reflexivity|]. split; [reflexivity|].
  refine (proj1 (@X2_matches_partition sqrt_fixpoints env_toy None
                   "Python developer" "" "" [p5_local_job]
                   [p5_external_job; python_external_job] w0 _ _)).
  vm_compute. reflexivity.
Defined.

(** X3. In every successful response the local matches and the external
    matches are each in descending order of similarity. *)
Theorem X3_matches_descending (sqrt : Q -> Q) (E : Env)
    (MATCH_THRESHOLD : option Q) (resume_text pl jt : string)
    (local_jobs external_jobs : list Job) (w : World) (b : MatchBody) :
  fst (api_match sqrt E MATCH_THRESHOLD resume_text pl jt local_jobs
                 external_jobs w) = Success b ->
  StronglySorted (fun x y => similarity y <= similarity x) (local_matches b)
  /\ StronglySorted (fun x y => similarity y <= similarity x)
                    (external_matches b).
Proof.
  intro H. apply api_match_success_matches in H.
  destruct H as (lm & em & fl & _ & _ & Sl & Se & _ & _ & _ & Hlm & Hem & _).
  rewrite Hlm, Hem. split; now apply StronglySorted_filter.
Qed.

Lemma X3_matches_descending_witness :
  exists b, toy_response = Success b
            /\ map (fun m => Qred (similarity m)) (external_matches b)
               = [1; 3 # 5]
            /\ StronglySorted (fun x y => similarity y <= similarity x)
                              (external_matches b).
Proof.
  eexists. split; [vm_compute; reflexivity|].
  split; [reflexivity|].
  refine (proj2 (@X3_matches_descending sqrt_fixpoints env_toy None
                   "Python developer" "" "" [p5_local_job]
                   [p5_external_job; python_external_job] w0 _ _)).
  vm_compute. reflexivity.
Defined.

(** X4. A successful response carries a diagnostic message exactly when
    it returns no match. *)
Theorem X4_message_iff_no_match (sqrt : Q -> Q) (E : Env)
    (MATCH_THRESHOLD : option Q) (resume_text pl jt : string)
    (local_jobs external_jobs : list Job) (w : World) (b : MatchBody) :
  fst (api_match sqrt E MATCH_THRESHOLD resume_text pl jt local_jobs
                 external_jobs w) = Success b ->
  (message b = None <-> matches b <> []).
Proof.
  intro H. apply api_match_success_matches in H.
  destruct H as (lm & em & fl & _ & _ & _ & _ & _ & _ & _ & _ & _ & Hmsg).
  rewrite Hmsg. destruct (matches b) as [|m ms] eqn:Hm.
  - split; [|congruence]. intro Hn. exfalso.
    exact (message_of_empty _ _ _ _ _ Hn).
  - split; [discriminate|reflexivity].
Qed.

Lemma X4_message_iff_no_match_witness :
  exists b, toy_response = Success b /\ (message b = None <-> matches b <> []).
Proof.
  eexists. split; [vm_compute; reflexivity|].
  refine (@X4_message_iff_no_match sqrt_fixpoints env_toy None
            "Python developer" "" "" [p5_local_job]
            [p5_external_job; python_external_job] w0 _ _).
  vm_compute. reflexivity.
Defined.

Lemma reaches_weaken (t t' : Q) (m : Match) :
  t' <= t -> reaches t m = true -> reaches t' m = true.
Proof.
  unfold reaches. intros Hle H. apply Qle_bool_iff in H.
  apply Qle_bool_iff. eapply Qle_trans; eauto.
Qed.

(** X5. No match below 30% is ever returned, no local match is returned
    below 30% nor any external match below the effective threshold, which
    is itself at least 40%. *)
Theorem X5_returned_scores_floor (sqrt : Q -> Q) (E : Env)
    (MATCH_THRESHOLD : option Q) (resume_text pl jt : string)
    (local_jobs external_jobs : list Job) (w : World) (b : MatchBody) :
  fst (api_match sqrt E MATCH_THRESHOLD resume_text pl jt local_jobs
                 external_jobs w) = Success b ->
  40 <= threshold_pct b
  /\ (forall m, In m (matches b) -> 30 <= similarity m * 100)
  /\ (forall m, In m (external_matches b) ->
        threshold_pct b <= similarity m * 100).
Proof.
  intro H. apply api_match_success_matches in H.
  destruct H as (lm & em & fl & _ & _ & _ & _ & Hfl & Ht & Hm & _ & Hem & _).
  assert (H40 : 40 <= threshold_pct b).
  { rewrite Ht. unfold threshold_pct_of. apply py_max_lower_bound. }
  assert (H30 : 30 <= threshold_pct b).
  { eapply Qle_trans; [|exact H40]. unfold Qle. simpl. lia. }
  split; [exact H40|]. split.
  - intros m Hin. rewrite Hm in Hin. apply in_app_or in Hin.
    apply Qle_bool_iff. change (reaches 30 m = true).
    destruct Hin as [Hin|Hin]; apply filter_In in Hin; destruct Hin as [_ Hr].
    + destruct Hfl as [-> | ->]; [|exact Hr].
      eapply reaches_weaken; eauto.
    + eapply reaches_weaken; eauto.
  - intros m Hin. rewrite Hem in Hin. apply filter_In in Hin.
    apply Qle_bool_iff. apply Hin.
Qed.

Lemma X5_returned_scores_floor_witness :
  exists b, toy_response = Success b
            /\ 40 <= threshold_pct b
            /\ (forall m, In m (matches b) -> 30 <= similarity m * 100).
Proof.
  eexists. split; [vm_compute; reflexivity|].
  refine (let H := @X5_returned_scores_floor sqrt_fixpoints env_toy None
                     "Python developer" "" "" [p5_local_job]
                     [p5_external_job; python_external_job] w0 _ _ in
          conj (proj1 H) (proj1 (proj2 H))).
  vm_compute. reflexivity.
Defined.

(* ------------------------------------------------------------------ *)
(** ** The location and job-type filters *)

Lemma contains_in_empty (s : string) :
  PyStr.truthy s = true -> PyStr.contains s "" = false.
Proof. destruct s; [discriminate|reflexivity]. Qed.

Lemma no_location_not_excluded (pl : string) (j : Job) :
  location j = None -> local_location_excluded pl (loc_of j) = false.
Proof.
  intro H. unfold local_location_excluded, loc_of. rewrite H.
  cbn [PyStr.truthy]. now rewrite andb_false_r.
Qed.

(** X6. Catalog rows carry no location, and for such jobs the preferred
    location plays no part: the local phase gives the same matches and
    leaves the same state whatever location the request names. *)
Theorem X6_location_inert_for_catalog (sqrt : Q -> Q) (E : Env)
    (resume_emb : Vec) (pl pl' jt : string) (jobs : list Job) :
  Forall (fun j => location j = None) jobs ->
  forall w,
    match_local sqrt E resume_emb pl jt jobs w
    = match_local sqrt E resume_emb pl' jt jobs w.
Proof.
  induction 1 as [|j rest Hj _ IH]; intro w; [reflexivity|].
  cbn [match_local].
  destruct (negb (PyStr.truthy (PyStr.strip (full_job_desc j)))); [apply IH|].
  unfold bind.
  destruct (try_catch _ _ w) as [[[pct|]|e] w1]; try reflexivity; [|apply IH].
  rewrite !(no_location_not_excluded _ j Hj).
  destruct (local_job_type_excluded jt _); [apply IH|].
  now rewrite IH.
Qed.

Lemma X6_location_inert_for_catalog_witness :
  match_local sqrt_fixpoints env_toy [1; 0] "berlin" "" [p5_local_job] w0
  = match_local sqrt_fixpoints env_toy [1; 0] "" "" [p5_local_job] w0.
Proof.
  apply X6_location_inert_for_catalog. repeat constructor.
Defined.

(** X7. The external phase is strict: when a location is requested,
    every external job kept has a location that contains it (a job
    without location is dropped), and when a job type is requested, even
    the word "any", every external job kept contains it in its title or
    description. *)
Theorem X7_external_filters_strict (pl jt : string) (jobs : list Job)
    (j : Job) :
  In j (candidate_external pl jt jobs) ->
  In j jobs
  /\ (PyStr.truthy pl = true ->
      exists l, location j = Some l
                /\ PyStr.contains pl (PyStr.lower l) = true)
  /\ (PyStr.truthy jt = true ->
      PyStr.contains jt (external_title_desc j) = true).
Proof.
  unfold candidate_external. intro H. apply filter_In in H.
  destruct H as [Hin H]. apply andb_prop in H. destruct H as [Hl Ht].
  split; [exact Hin|]. split.
  - intro Hp. unfold external_location_excluded, loc_of in Hl.
    rewrite Hp in Hl. cbn [andb] in Hl. rewrite negb_involutive in Hl.
    destruct (location j) as [l|]; [eauto|].
    now rewrite (contains_in_empty _ Hp) in Hl.
  - intro Hj. unfold external_job_type_excluded in Ht.
    rewrite Hj in Ht. cbn [andb] in Ht. now rewrite negb_involutive in Ht.
Qed.

Lemma X7_external_filters_strict_witness :
  candidate_external "remote" "" [p5_external_job; python_external_job]
  = [python_external_job]
  /\ exists l, location python_external_job = Some l
               /\ PyStr.contains "remote" (PyStr.lower l) = true.
Proof.
  split; [reflexivity|].
  refine (proj1 (proj2 (@X7_external_filters_strict "remote" ""
                          [p5_external_job; python_external_job]
                          python_external_job _)) eq_refl).
  change (In python_external_job [python_external_job]). now left.
Defined.

(* ------------------------------------------------------------------ *)
(** ** What a request does to the cache *)

Lemma keeps_ret {A} (a : A) : keeps (ret a).
Proof. intros w H. exact H. Qed.

Lemma keeps_lift {A} (r : Result A) : keeps (lift r).
Proof. intros w H. exact H. Qed.

Lemma keeps_bind {A B} (c : M A) (k : A -> M B) :
  keeps c -> (forall a, keeps (k a)) -> keeps (bind c k).
Proof.
  intros Hc Hk w Hw. unfold bind. specialize (Hc w Hw).
  destruct (c w) as [[a|e] w1]; [apply Hk|]; exact Hc.
Qed.

Lemma keeps_try_catch {A} (c : M A) (h : Exn -> M A) :
  keeps c -> (forall e, keeps (h e)) -> keeps (try_catch c h).
Proof.
  intros Hc Hh w Hw. unfold try_catch. specialize (Hc w Hw).
  destruct (c w) as [[a|e] w1]; [exact Hc|apply Hh; exact Hc].
Qed.

Lemma keeps_cached (E : Env) (text : string) :
  keeps (cached_get_embedding E text).
Proof.
  intros w [Hb Hz]. unfold cache_ok. split.
  - now apply cached_get_embedding_bounded.
  - now apply cached_get_embedding_blank_zero.
Qed.

Lemma keeps_match_local (sqrt : Q -> Q) (E : Env) (resume_emb : Vec)
    (pl jt : string) (jobs : list Job) :
  keeps (match_local sqrt E resume_emb pl jt jobs).
Proof.
  induction jobs as [|j rest IH]; cbn [match_local]; [apply keeps_ret|].
  destruct (negb _); [exact IH|].
  apply keeps_bind.
  - apply keeps_try_catch; [|intro; apply keeps_ret].
    apply keeps_bind; [apply keeps_cached|intro v].
    apply keeps_bind; [apply keeps_lift|intro p; apply keeps_ret].
  - intros [pct|]; [|exact IH].
    destruct (local_location_excluded _ _); [exact IH|].
    destruct (local_job_type_excluded _ _); [exact IH|].
    apply keeps_bind; [exact IH|intro; apply keeps_ret].
Qed.

Lemma keeps_match_external (sqrt : Q -> Q) (E : Env) (resume_emb : Vec)
    (candidates : list Job) :
  keeps (match_external sqrt E resume_emb candidates).
Proof.
  induction candidates as [|j rest IH]; cbn [match_external];
    [apply keeps_ret|].
  apply keeps_bind; [apply keeps_cached|intro v].
  apply keeps_bind; [apply keeps_lift|intro p].
  apply keeps_bind; [exact IH|intro; apply keeps_ret].
Qed.

(** X8. A match request, whatever its outcome, leaves the embedding
    cache within its 1024 entries and with every blank key still bound to
    the 768-component zero vector. *)
Theorem X8_request_keeps_cache (sqrt : Q -> Q) (E : Env)
    (MATCH_THRESHOLD : option Q) (resume_text pl jt : string)
    (local_jobs external_jobs : list Job) (w : World) :
  (length (cache w) <= maxsize)%nat ->
  blank_entries_zero (cache w) ->
  let w' := snd (api_match sqrt E MATCH_THRESHOLD resume_text pl jt
                           local_jobs external_jobs w) in
  (length (cache w') <= 1024)%nat /\ blank_entries_zero (cache w').
Proof.
  intros Hb Hz.
  assert (Hk : keeps (api_match_body sqrt E MATCH_THRESHOLD resume_text pl jt
                                     local_jobs external_jobs)).
  { unfold api_match_body.
    destruct (negb (PyStr.truthy resume_text)); [apply keeps_ret|].
    destruct (negb (nonempty local_jobs) && negb (nonempty external_jobs));
      [apply keeps_ret|].
    apply keeps_bind; [apply keeps_cached|intro v].
    apply keeps_bind; [apply keeps_match_local|intro lm].
    apply keeps_bind; [apply keeps_match_external|intro em].
    apply keeps_ret. }
  specialize (Hk w (conj Hb Hz)). unfold api_match.
  destruct (api_match_body _ _ _ _ _ _ _ _ w) as [[r|e] w1]; exact Hk.
Qed.

Lemma X8_request_keeps_cache_witness :
  let w' := snd (api_match sqrt_fixpoints env_toy None "Python developer" ""
                           "" [p5_local_job]
                           [p5_external_job; python_external_job] w0) in
  (length (cache w') <= 1024)%nat /\ blank_entries_zero (cache w').
Proof.
  apply X8_request_keeps_cache.
  - apply Nat.le_0_l.
  - intros k v H. discriminate.
Defined.

(* ================================================================== *)
(** * Further properties of the classifier *)

Import ClassifierMatch.

Lemma dot_comm (a b : Vec) : dot a b == dot b a.
Proof.
  revert b. induction a as [|x a IH]; intros [|y b]; cbn [dot];
    try reflexivity.
  rewrite IH. ring.
Qed.

(** X9. The cosine is symmetric: swapping its arguments gives the same
    number, or the same [ValueError] when the vectors cannot be compared
    (different lengths, or no component at all). *)
Theorem X9_cosine_symmetric (sqrt : Q -> Q) (a b : Vec) :
  match cosine_similarities sqrt a b, cosine_similarities sqrt b a with
  | Ok x, Ok y => x == y
  | Raise e1, Raise e2 => e1 = e2
  | _, _ => False
  end.
Proof.
  unfold cosine_similarities.
  rewrite (Nat.eqb_sym (List.length b) (List.length a)).
  destruct (List.length a =? 0)%nat, (List.length b =? 0)%nat; cbn [orb];
    try reflexivity.
  destruct (List.length a =? List.length b)%nat; [apply dot_comm|reflexivity].
Qed.

(** X11. With Vertex switched off and OpenAI answering with its 1536
    components, [match_resume_to_job] on a blank resume and a job text
    that is not blank does not return a score: the blank text gets 768
    zeros, and the comparison raises [ValueError]. *)
Theorem X11_blank_resume_dimension_mismatch (sqrt : Q -> Q) (E : Env)
    (resume_text job_description : string) (w : World) :
  PyStr.blank resume_text = true ->
  PyStr.blank job_description = false ->
  USE_VERTEX E = false ->
  openai_client E = true ->
  (forall tr, exists v, openai_embeddings_create E tr job_description = Ok v
                        /\ length v = 1536%nat) ->
  fst (match_resume_to_job sqrt E resume_text job_description w)
  = Raise (ValueError "Incompatible dimension for X and Y matrices").
Proof.
  intros Hr Hj Hv Hc Ho. unfold match_resume_to_job.
  unfold bind at 1. rewrite (get_embedding_blank E resume_text w Hr).
  unfold bind at 1.
  unfold get_embedding, bind, emit, try_catch, call_openai, ret.
  rewrite Hj, Hv, Hc. cbn [cache trace].
  match goal with
  | |- context [openai_embeddings_create E ?tr job_description] =>
      destruct (Ho tr) as (v & -> & Hlen)
  end.
  cbn [fst]. unfold lift, cosine_similarities.
  rewrite Hlen. unfold zeros. rewrite repeat_length. reflexivity.
Qed.

Lemma X11_blank_resume_dimension_mismatch_witness :
  fst (match_resume_to_job sqrt_fixpoints env_openai_only "  "
                           "Python developer" w0)
  = Raise (ValueError "Incompatible dimension for X and Y matrices").
Proof.
  apply X11_blank_resume_dimension_mismatch; try reflexivity.
  intro tr. eexists. split; [reflexivity|]. apply repeat_length.
Defined.

(** X12. One call of [get_embedding] asks each backend at most once, and
    Vertex first: the requests it adds to the trace are none (blank text,
    or nothing configured), Vertex alone (when Vertex answers, or OpenAI
    has no client), OpenAI alone (Vertex switched off), or Vertex then
    OpenAI. When Vertex answers, its vector is the result. *)
Theorem X12_embedding_requests (E : Env) (text : string) (w : World) :
  exists v evs,
    get_embedding E text w
    = (Ok v, mkWorld (cache w) (trace w ++ CallGetEmbedding text :: evs))
    /\ (evs = [] \/ evs = [CallVertexEmbed text]
        \/ evs = [CallOpenAIEmbed text]
        \/ evs = [CallVertexEmbed text; CallOpenAIEmbed text])
    /\ (PyStr.blank text = true -> evs = [] /\ v = zeros 768)
    /\ (forall x, PyStr.blank text = false -> USE_VERTEX E = true ->
          vertex_get_embeddings E (trace w ++ [CallGetEmbedding text]) text
          = Ok x ->
          evs = [CallVertexEmbed text] /\ v = x).
Proof.
  unfold get_embedding, bind, emit, try_catch, call_vertex, call_openai, ret,
    raise.
  destruct (PyStr.blank text); simpl.
  { exists (zeros 768), []. repeat split; auto; discriminate. }
  destruct (USE_VERTEX E); simpl.
  - destruct (vertex_get_embeddings E _ text) as [v|e]; simpl.
    + exists v, [CallVertexEmbed text]. rewrite <- app_assoc.
      repeat split; auto; try discriminate; congruence.
    + destruct (openai_client E); simpl.
      * destruct (openai_embeddings_create E _ text) as [v|e'];
          [exists v|exists (zeros 1536)];
          exists [CallVertexEmbed text; CallOpenAIEmbed text];
          rewrite <- !app_assoc; repeat split; auto; discriminate.
      * exists (zeros 1536), [CallVertexEmbed text]. rewrite <- app_assoc.
        repeat split; auto; discriminate.
  - destruct (openai_client E); simpl.
    + destruct (openai_embeddings_create E _ text) as [v|e'];
        [exists v|exists (zeros 1536)];
        exists [CallOpenAIEmbed text];
        rewrite <- !app_assoc; repeat split; auto; discriminate.
    + exists (zeros 1536), []. repeat split; auto; discriminate.
Qed.

(* ================================================================== *)
(** * Scoring submitted answers *)

Import Assessment.

Lemma round_half_even_integer (q : Q) (k : Z) :
  q == inject_Z k -> Py.round_half_even q = k.
Proof.
  unfold Qeq, Py.round_half_even. destruct q as [n d]. simpl.
  rewrite Z.mul_1_r. intros ->.
  rewrite Z.div_mul by discriminate.
  rewrite Z.mod_mul by discriminate.
  reflexivity.
Qed.

Lemma round_half_even_bounds (q : Q) (a b : Z) :
  inject_Z a <= q -> q <= inject_Z b ->
  (a <= Py.round_half_even q <= b)%Z.
Proof.
  unfold Qle, Py.round_half_even. destruct q as [n d].
  cbn [Qnum Qden inject_Z]. rewrite !Z.mul_1_r. intros Ha Hb.
  pose proof (Z.div_mod n (Zpos d) ltac:(discriminate)) as Hdm.
  pose proof (Z.mod_pos_bound n (Zpos d) ltac:(reflexivity)) as Hr.
  assert (Hf1 : (a <= n / Zpos d)%Z).
  { apply Z.div_le_lower_bound; [reflexivity|]. now rewrite Z.mul_comm. }
  assert (Hf2 : (n / Zpos d <= b)%Z).
  { apply Z.div_le_upper_bound; [reflexivity|]. now rewrite Z.mul_comm. }
  remember (n / Zpos d)%Z as f eqn:Ef.
  remember (n mod Zpos d)%Z as r eqn:Er. clear Ef Er.
  assert (Hfb : (f = b -> r = 0)%Z).
  { intros ->. rewrite Z.mul_comm in Hb. lia. }
  destruct (2 * r ?= Zpos d)%Z eqn:Hc.
  - apply Z.compare_eq in Hc. destruct (Z.even f); lia.
  - lia.
  - apply Z.compare_gt_iff in Hc. lia.
Qed.

Lemma round2_bounds (x : Q) : 0 <= x -> x <= 100 -> 0 <= Py.round2 x <= 100.
Proof.
  intros H0 H1. unfold Py.round2.
  assert (Hb : (0 <= Py.round_half_even (x * 100) <= 10000)%Z).
  { apply round_half_even_bounds.
    - change (inject_Z 0) with 0. nra.
    - change (inject_Z 10000) with 10000. nra. }
  destruct Hb as [Hb0 Hb1].
  assert (Q0 : inject_Z 0 <= inject_Z (Py.round_half_even (x * 100)))
    by (now rewrite <- Zle_Qle).
  assert (Q1 : inject_Z (Py.round_half_even (x * 100)) <= inject_Z 10000)
    by (now rewrite <- Zle_Qle).
  change (inject_Z 0) with 0 in Q0. change (inject_Z 10000) with 10000 in Q1.
  set (y := inject_Z (Py.round_half_even (x * 100))) in *.
  split.
  - apply Qle_shift_div_l; [reflexivity|]. nra.
  - apply Qle_shift_div_r; [reflexivity|]. nra.
Qed.

Section SubmitFacts.

Variable L : PyLib.
Variable E : Env.
Variable py_str : Json -> string.
Variable job_description : Json.
Variable answers : list (string * Json).

Let loop := assess_loop L E py_str job_description answers.
Let output := model_output E py_str job_description answers.

(** What a loop that ends normally has done. *)
Lemma assess_loop_ok (questions : list Json) :
  forall idx total results total' results',
    loop idx questions total results = Ok (total', results') ->
    exists new scores,
      results' = (results ++ new)%list
      /\ length new = length questions
      /\ Forall2 (fun r s => score_of L (v_validation r) = Ok s) new scores
      /\ total' = (total + zsum scores)%Z.
Proof.
  unfold loop.
  induction questions as [|q rest IH]; intros idx total results total' results';
    cbn [assess_loop].
  - intro H. inversion H; subst. exists [], []. rewrite app_nil_r.
    repeat split; [constructor|change (zsum []) with 0%Z; lia].
  - unfold rbind at 1.
    destruct (model_output E py_str job_description answers idx q)
      as [out|e]; [|discriminate].
    unfold rbind at 1.
    destruct (score_of L (validation_of L out)) as [s|e] eqn:Hs;
      [|discriminate].
    intro H. apply IH in H. destruct H as (new & scores & -> & Hlen & HF & ->).
    eexists (_ :: new), (s :: scores). rewrite <- app_assoc.
    split; [reflexivity|]. split; [cbn; now rewrite Hlen|].
    split; [constructor; [exact Hs|exact HF]|].
    change (zsum (s :: scores)) with (s + zsum scores)%Z. lia.
Qed.

Lemma score_of_undecodable (out : string) (e : Exn) :
  json_loads L out = Raise e ->
  score_of L (validation_of L out) = py_int L (JInt 70).
Proof. intro H. unfold validation_of. rewrite H. reflexivity. Qed.

Lemma assess_loop_undecodable (questions : list Json) :
  (forall idx q out, output idx q = Ok out ->
                     exists e, json_loads L out = Raise e) ->
  py_int L (JInt 70) = Ok 70%Z ->
  forall idx total results,
    exists new,
      loop idx questions total results
      = Ok ((total + 70 * Z.of_nat (length questions))%Z, (results ++ new)%list)
      /\ length new = length questions.
Proof.
  unfold loop, output. intros Hdec Hint.
  induction questions as [|q rest IH]; intros idx total results;
    cbn [assess_loop].
  - exists []. rewrite app_nil_r. split; [|reflexivity].
    f_equal. f_equal. cbn [length Z.of_nat]. lia.
  - destruct (chat_complete_ok E
                (validate_prompt py_str job_description
                   (question_text py_str q)
                   (get_or (str_nat (idx + 1)) answers (JStr ""))))
      as [out Hout].
    destruct (Hdec idx q out Hout) as [e He].
    unfold model_output at 1. rewrite Hout. cbn [rbind].
    rewrite (score_of_undecodable _ He), Hint. cbn [rbind].
    match goal with
    | |- context [assess_loop _ _ _ _ _ (S idx) rest ?t ?r] =>
        destruct (IH (S idx) t r) as (new & Hnew & Hlen)
    end.
    rewrite Hnew. rewrite <- app_assoc. eexists (_ :: new).
    split; [|cbn [length]; now rewrite Hlen].
    f_equal. f_equal; [|reflexivity].
    cbn [length]. rewrite Nat2Z.inj_succ. lia.
Qed.

Lemma assess_loop_non_object (questions : list Json) :
  forall i idx total results q out parsed,
    nth_error questions i = Some q ->
    output (idx + i)%nat q = Ok out ->
    json_loads L out = Ok parsed ->
    (forall d, parsed <> JDict d) ->
    exists e, loop idx questions total results = Raise e.
Proof.
  unfold loop, output.
  induction questions as [|q0 rest IH];
    intros i idx total results q out parsed Hn Ho Hj Hd.
  - destruct i; discriminate.
  - cbn [assess_loop]. destruct i as [|i]; cbn [nth_error] in Hn.
    + inversion Hn; subst q0. rewrite Nat.add_0_r in Ho. rewrite Ho.
      cbn [rbind]. unfold validation_of. rewrite Hj.
      destruct parsed; cbn [score_of rbind]; eauto.
      exfalso. eapply Hd; reflexivity.
    + unfold rbind at 1.
      destruct (model_output E py_str job_description answers idx q0);
        [|eauto].
      unfold rbind at 1.
      destruct (score_of L (validation_of L a)); [|eauto].
      eapply IH; eauto. now rewrite Nat.add_succ_comm.
Qed.

End SubmitFacts.

Lemma round2_of_70 (x : Q) : x == 70 -> Py.round2 x == 70.
Proof.
  intro H. unfold Py.round2.
  rewrite (@round_half_even_integer (x * 100) 7000).
  - reflexivity.
  - rewrite H. reflexivity.
Qed.

Lemma mean_of_seventies (n : nat) :
  (0 < n)%nat ->
  inject_Z (0 + 70 * Z.of_nat n) / (inject_Z (Z.of_nat n) * 100) * 100 == 70.
Proof.
  intro Hn. rewrite Z.add_0_l, inject_Z_mult.
  assert (Hnz : ~ inject_Z (Z.of_nat n) == 0).
  { change 0 with (inject_Z 0). rewrite inject_Z_injective. lia. }
  change (inject_Z 70) with 70. field. exact Hnz.
Qed.

(** X13. When none of the model's outputs decodes as JSON (as when the
    model is down and [chat_complete] hands back its fixed sentence),
    every question is given the stand-in score 70: a submission with at
    least one question gets 70 percent and, under the default pass
    threshold of 60, the status "passed", with one result per question. *)
Theorem X13_undecodable_outputs_pass (L : PyLib) (E : Env)
    (py_str : Json -> string) (job_description : Json)
    (answers : list (string * Json)) (questions : list Json) :
  questions <> [] ->
  (forall idx q out,
     model_output E py_str job_description answers idx q = Ok out ->
     exists e, json_loads L out = Raise e) ->
  py_int L (JInt 70) = Ok 70%Z ->
  exists percent results,
    assess L E py_str job_description answers None questions
    = Ok (percent, "passed", results)
    /\ percent == 70
    /\ length results = length questions.
Proof.
  intros Hne Hdec Hint. unfold assess.
  destruct (@assess_loop_undecodable L E py_str job_description answers
              questions Hdec Hint 0%nat 0%Z []) as (new & Hloop & Hlen).
  rewrite Hloop. cbn [rbind fst snd app].
  assert (Hp : percent_of (0 + 70 * Z.of_nat (length questions)) questions
               == 70).
  { unfold percent_of. destruct questions as [|q qs]; [congruence|].
    cbn [App.nonempty]. apply round2_of_70, mean_of_seventies.
    cbn [length]. lia. }
  assert (Hs : Qle_bool 60 (percent_of (0 + 70 * Z.of_nat (length questions))
                                        questions) = true).
  { apply Qle_bool_iff. rewrite Hp. discriminate. }
  rewrite Hs. eexists _, new. split; [reflexivity|]. split; assumption.
Qed.

Lemma X13_undecodable_outputs_pass_witness :
  exists percent results,
    assess lib_model_down env_unconfigured str_of_strings
           (JStr "Build APIs") [("1", JStr "I would use FastAPI.")] None
           [JStr "How would you design a REST API?"]
    = Ok (percent, "passed", results)
    /\ percent == 70
    /\ length results = 1%nat.
Proof.
  apply (@X13_undecodable_outputs_pass lib_model_down env_unconfigured
           str_of_strings (JStr "Build APIs")
           [("1", JStr "I would use FastAPI.")]
           [JStr "How would you design a REST API?"]).
  - discriminate.
  - intros idx q out _. eexists. reflexivity.
  - reflexivity.
Defined.

Lemma zsum_bounds (scores : list Z) :
  Forall (fun s => (0 <= s <= 100)%Z) scores ->
  (0 <= zsum scores <= 100 * Z.of_nat (length scores))%Z.
Proof.
  induction 1 as [|s l Hs _ IH].
  - cbn. lia.
  - change (zsum (s :: l)) with (s + zsum l)%Z.
    cbn [length]. rewrite Nat2Z.inj_succ. lia.
Qed.

Lemma mean_bounds (total : Z) (n : nat) :
  (0 < n)%nat -> (0 <= total <= 100 * Z.of_nat n)%Z ->
  0 <= inject_Z total / (inject_Z (Z.of_nat n) * 100) * 100 <= 100.
Proof.
  intros Hn [H0 H1].
  assert (Hpos : 0 < inject_Z (Z.of_nat n)).
  { change 0 with (inject_Z 0). rewrite <- Zlt_Qlt. lia. }
  assert (Q0 : 0 <= inject_Z total).
  { change 0 with (inject_Z 0). rewrite <- Zle_Qle. lia. }
  assert (Q1 : inject_Z total <= 100 * inject_Z (Z.of_nat n)).
  { change 100 with (inject_Z 100). rewrite <- inject_Z_mult, <- Zle_Qle. lia. }
  set (t := inject_Z total) in *. set (m := inject_Z (Z.of_nat n)) in *.
  assert (E : t / (m * 100) * 100 == t / m) by (field; lra).
  rewrite E. split.
  - apply Qle_shift_div_l; [exact Hpos|]. lra.
  - apply Qle_shift_div_r; [exact Hpos|]. lra.
Qed.

(** X14. A submission that is scored has one result per question; when
    each recorded validation carries a score between 0 and 100 the
    percentage lies between 0 and 100; it is 0 when there is no question;
    and the status is "passed" exactly when the percentage reaches the
    pass threshold (60 unless configured). *)
Theorem X14_percent_and_status (L : PyLib) (E : Env)
    (py_str : Json -> string) (job_description : Json)
    (answers : list (string * Json)) (PASS_THRESHOLD : option Q)
    (questions : list Json) (percent : Q) (status : string)
    (results : list Validated) :
  assess L E py_str job_description answers PASS_THRESHOLD questions
  = Ok (percent, status, results) ->
  length results = length questions
  /\ (questions = [] -> percent = 0)
  /\ (Forall (fun r => forall s, score_of L (v_validation r) = Ok s ->
                                 (0 <= s <= 100)%Z) results ->
      0 <= percent <= 100)
  /\ (status = "passed"
      <-> match PASS_THRESHOLD with Some v => v | None => 60 end <= percent).
Proof.
  unfold assess.
  destruct (assess_loop L E py_str job_description answers 0 questions 0 [])
    as [[total rs]|e] eqn:Hloop; [|discriminate].
  cbn [rbind fst snd]. intro H. inversion H; subst. clear H.
  apply assess_loop_ok in Hloop.
  destruct Hloop as (new & scores & Hrs & Hlen & HF & Ht).
  cbn [app] in Hrs. subst results.
  split; [exact Hlen|]. split; [|split].
  - intros ->. reflexivity.
  - intro Hrange. unfold percent_of.
    destruct questions as [|q qs]; [cbn; split; discriminate|].
    cbn [App.nonempty]. 
    assert (Hsc : Forall (fun s => (0 <= s <= 100)%Z) scores).
    { clear - HF Hrange. induction HF as [|r s rs ss Hrs _ IH];
        constructor.
      - inversion Hrange; subst. auto.
      - apply IH. now inversion Hrange. }
    pose proof (zsum_bounds Hsc) as Hz.
    rewrite <- (Forall2_length HF), Hlen in Hz.
    assert (Hm := @mean_bounds total (length (q :: qs))
                    ltac:(cbn [length]; lia) ltac:(lia)).
    destruct Hm as [M0 M1]. now apply round2_bounds.
  - destruct (Qle_bool _ _) eqn:Hc.
    + apply Qle_bool_iff in Hc. split; auto.
    + split; [discriminate|]. intro Hle. apply Qle_bool_iff in Hle.
      congruence.
Qed.

Lemma X14_percent_and_status_witness :
  exists percent results,
    assess (lib_decoding (JDict [("score", JInt 85)])) (env_answering score_85_text)
           str_of_strings (JStr "Build APIs") [] (Some 90)
           [JStr "How would you design a REST API?"]
    = Ok (percent, "failed", results)
    /\ 0 <= percent <= 100.
Proof.
  eexists _, _. split; [reflexivity|].
  refine (proj1 (proj2 (proj2
            (@X14_percent_and_status
               (lib_decoding (JDict [("score", JInt 85)]))
               (env_answering score_85_text) str_of_strings (JStr "Build APIs") []
               (Some 90) [JStr "How would you design a REST API?"]
               _ _ _ eq_refl))) _).
  repeat constructor; cbn in H; inversion H; lia.
Defined.

(** X15. When the model's output for one of the questions decodes as
    JSON that is not an object (a bare number, a list, a string), the
    scoring raises and the whole submission is answered with an error:
    no score is computed for any question. *)
Theorem X15_non_object_output_fails (L : PyLib) (E : Env)
    (py_str : Json -> string) (job_description : Json)
    (answers : list (string * Json)) (PASS_THRESHOLD : option Q)
    (questions : list Json) (i : nat) (q : Json) (out : string)
    (parsed : Json) :
  nth_error questions i = Some q ->
  model_output E py_str job_description answers i q = Ok out ->
  json_loads L out = Ok parsed ->
  (forall d, parsed <> JDict d) ->
  exists e,
    assess L E py_str job_description answers PASS_THRESHOLD questions
    = Raise e.
Proof.
  intros Hn Ho Hj Hd. unfold assess.
  destruct (@assess_loop_non_object L E py_str job_description answers
              questions i 0%nat 0%Z [] q out parsed Hn Ho Hj Hd) as [e He].
  exists e. now rewrite He.
Qed.

Lemma X15_non_object_output_fails_witness :
  exists e,
    assess (lib_decoding (JInt 85)) (env_answering "85") str_of_strings
           (JStr "Build APIs") [] None
           [JStr "How would you design a REST API?"]
    = Raise e.
Proof.
  eapply (@X15_non_object_output_fails (lib_decoding (JInt 85))
            (env_answering "85") str_of_strings (JStr "Build APIs") [] None
            [JStr "How would you design a REST API?"] 0).
  - reflexivity.
  - reflexivity.
  - reflexivity.
  - discriminate.
Defined.

(* ================================================================== *)
(** * Generating interview questions *)

(** X16. The questions endpoint answers without its fallback note
    exactly when the model answered, its text was decoded and topped up,
    and the job row was updated with the result: the questions returned
    are then those stored. In every other case the note is attached, and
    with the note come the five fixed questions; that is what happens
    whenever the model's text does not decode or the job row cannot be
    updated. *)
Theorem X16_questions_fallback (L : PyLib) (E : Env)
    (py_str : Json -> string) (store : list Json -> Result unit)
    (j : Job) (experience_level : string) :
  let r := generate_questions L E py_str store j experience_level in
  let prompt := questions_prompt j experience_level in
  (snd r = true ->
     fst r = map JStr fallback_questions /\ length (fst r) = 5%nat)
  /\ (snd r = false <->
       exists response,
         chat_complete E prompt = Ok response
         /\ build_questions L py_str response (skills j) = Ok (fst r)
         /\ store (fst r) = Ok tt)
  /\ (snd r = true <->
       (exists e, chat_complete E prompt = Raise e)
       \/ (exists response e,
             chat_complete E prompt = Ok response
             /\ build_questions L py_str response (skills j) = Raise e)
       \/ (exists response questions e,
             chat_complete E prompt = Ok response
             /\ build_questions L py_str response (skills j) = Ok questions
             /\ store questions = Raise e))
  /\ (forall response e,
        chat_complete E prompt = Ok response ->
        json_loads L (questions_text response) = Raise e ->
        r = (map JStr fallback_questions, true))
  /\ (forall response questions e,
        chat_complete E prompt = Ok response ->
        build_questions L py_str response (skills j) = Ok questions ->
        store questions = Raise e ->
        r = (map JStr fallback_questions, true)).
Proof.
  intros r prompt. unfold r, generate_questions. fold prompt.
  destruct (chat_complete E prompt) as [response|e0] eqn:Hc; cbn [rbind].
  - destruct (build_questions L py_str response (skills j))
      as [qs|e1] eqn:Hb; cbn [rbind].
    + destruct (store qs) as [[]|e2] eqn:Hs; cbn [rbind fst snd].
      * split; [discriminate|]. split; [|split; [|split]].
        -- split; [intros _; exists response; auto|reflexivity].
        -- split; [discriminate|].
           intros [(e & H)|[(r' & e & H & H')|(r' & q' & e & H & H' & H'')]];
             congruence.
        -- intros response' e H1 H2. inversion H1; subst response'.
           unfold build_questions in Hb. rewrite H2 in Hb. discriminate.
        -- intros response' qs' e H1 H2 H3. inversion H1; subst response'.
           rewrite Hb in H2. inversion H2; subst qs'. congruence.
      * split; [auto|]. split; [|split; [|split; reflexivity]].
        -- split; [discriminate|].
           intros (r' & H & H' & H''). inversion H; subst r'.
           rewrite Hb in H'. inversion H'; subst qs. cbn in H''.
           congruence.
        -- split; [|reflexivity]. intros _. right. right.
           exists response, qs, e2. auto.
    + cbn [fst snd]. split; [auto|]. split; [|split; [|split; reflexivity]].
      * split; [discriminate|].
        intros (r' & H & H' & _). congruence.
      * split; [|reflexivity]. intros _. right. left.
        exists response, e1. auto.
  - cbn [fst snd]. split; [auto|]. split; [|split; [|split; reflexivity]].
    + split; [discriminate|]. intros (r' & H & _). congruence.
    + split; [|reflexivity]. intros _. left. eauto.
Qed.

Lemma firstn_app_exact {A} (l r : list A) : firstn (length l) (l ++ r) = l.
Proof.
  induction l as [|x l IH]; [destruct r; reflexivity|].
  cbn. now rewrite IH.
Qed.

(** X17. When the model's text decodes to a list, the list is kept as it
    is and, if it has fewer than five entries, topped up with generic
    questions about the first three skills of the job, up to five in
    all. The result therefore reaches five questions only when the list
    and those skills together do; otherwise fewer are returned. *)
Theorem X17_questions_top_up (L : PyLib) (py_str : Json -> string)
    (response : string) (skills : list string) (l : list Json) :
  json_loads L (questions_text response) = Ok (JList l) ->
  exists questions,
    build_questions L py_str response skills = Ok questions
    /\ firstn (length l) questions = l
    /\ length questions
       = (if (length l <? 5)%nat
          then length l + Nat.min (5 - length l) (Nat.min 3 (length skills))
          else length l)%nat
    /\ ((5 <= length questions)%nat
        <-> (5 <= length l + Nat.min 3 (length skills))%nat).
Proof.
  intro H. unfold build_questions. rewrite H. cbn [rbind].
  eexists. split; [reflexivity|].
  assert (Hg : length (generic_questions skills) = Nat.min 3 (length skills)).
  { unfold generic_questions. now rewrite length_map, length_firstn. }
  destruct (length l <? 5)%nat eqn:Hlt.
  - apply Nat.ltb_lt in Hlt.
    rewrite firstn_app_exact, length_app, length_map, length_firstn, Hg.
    split; [reflexivity|]. split; [reflexivity|]. lia.
  - apply Nat.ltb_ge in Hlt. rewrite firstn_all.
    split; [reflexivity|]. split; [reflexivity|]. lia.
Qed.

Lemma X17_questions_top_up_witness :
  questions_text two_questions_text
  = "[" ++ dq ++ "What is REST?" ++ dq ++ ", " ++ dq ++ "What is SQL?" ++ dq
    ++ "]"
  /\ exists questions,
       build_questions (lib_decoding two_questions) str_of_strings
                       two_questions_text (skills one_skill_job)
       = Ok questions
       /\ questions = [JStr "What is REST?"; JStr "What is SQL?";
                       JStr "Explain your experience with sql."]
       /\ ~ (5 <= length questions)%nat.
Proof.
  split; [reflexivity|].
  destruct (@X17_questions_top_up (lib_decoding two_questions) str_of_strings
              two_questions_text (skills one_skill_job)
              [JStr "What is REST?"; JStr "What is SQL?"] eq_refl)
    as (qs & Hb & _ & _ & H5).
  exists qs. split; [exact Hb|].
  assert (Hq : qs = [JStr "What is REST?"; JStr "What is SQL?";
                     JStr "Explain your experience with sql."]).
  { cbv in Hb. now inversion Hb. }
  split; [exact Hq|]. rewrite H5. cbn. lia.
Defined.

(* ================================================================== *)
(** * External postings *)

Import External.

Lemma postings_of_In (build : string -> RawItem -> Posting)
    (uuid4 : nat -> string) (n : nat) (items : list RawItem) (p : Posting) :
  In p (postings_of build uuid4 n items) ->
  exists fresh item, In item items /\ usable item = true
                     /\ p = build fresh item.
Proof.
  unfold postings_of. intro H. apply in_map_iff in H.
  destruct H as ([i item] & <- & Hin). apply filter_In in Hin.
  destruct Hin as [Hin Hu]. apply in_combine_r in Hin.
  exists (uuid4 i), item. repeat split; auto.
  eapply in_firstn; eauto.
Qed.

Lemma postings_of_length (build : string -> RawItem -> Posting)
    (uuid4 : nat -> string) (n : nat) (items : list RawItem) :
  (length (postings_of build uuid4 n items) <= n)%nat.
Proof.
  unfold postings_of. rewrite length_map.
  eapply Nat.le_trans; [apply filter_length_le|].
  rewrite length_combine, length_seq, Nat.min_id. apply firstn_bounded.
Qed.

Lemma is_company_source (p : Posting) :
  is_company p = true -> p_source p = "company".
Proof. unfold is_company. apply String.eqb_eq. Qed.

(** X18. The external jobs handed to the matcher are at most fifteen:
    up to ten postings classified as company-site, followed by up to five
    of the others. *)
Theorem X18_external_jobs_caps (uuid4 : nat -> string) (items : list RawItem) :
  exists company_jobs other_jobs,
    external_jobs uuid4 items = (company_jobs ++ other_jobs)%list
    /\ (length company_jobs <= 10)%nat
    /\ (length other_jobs <= 5)%nat
    /\ Forall (fun p => p_source p = "company") company_jobs
    /\ Forall (fun p => p_source p = "other") other_jobs
    /\ (length (external_jobs uuid4 items) <= 15)%nat.
Proof.
  unfold external_jobs.
  set (ps := postings_of posting uuid4 20 items).
  exists (firstn 10 (filter is_company ps)),
         (firstn 5 (filter (fun p => negb (is_company p)) ps)).
  pose proof (firstn_bounded 10 (filter is_company ps)) as H10.
  pose proof (firstn_bounded 5 (filter (fun p => negb (is_company p)) ps))
    as H5.
  repeat split; auto.
  - apply Forall_forall. intros p Hp. apply in_firstn in Hp.
    apply filter_In in Hp. apply is_company_source, Hp.
  - apply Forall_forall. intros p Hp. apply in_firstn in Hp.
    apply filter_In in Hp. destruct Hp as [Hin Hc].
    apply postings_of_In in Hin. destruct Hin as (fresh & item & _ & _ & ->).
    unfold is_company in Hc. cbn [posting p_source] in *.
    destruct (is_company_site item); [discriminate|reflexivity].
  - rewrite length_app. lia.
Qed.

Lemma truthy_app (a b : string) :
  PyStr.truthy a = true -> PyStr.truthy (a ++ b) = true.
Proof. destruct a; [discriminate|reflexivity]. Qed.

Lemma take_length (n : nat) (s : string) :
  (String.length (PyStr.take n s) <= n)%nat.
Proof.
  revert s. induction n as [|n IH]; intros [|c r]; cbn; try lia.
  specialize (IH r). lia.
Qed.

Lemma take_truthy (n : nat) (s : string) :
  PyStr.truthy s = true -> PyStr.truthy (PyStr.take (S n) s) = true.
Proof. destruct s; [discriminate|reflexivity]. Qed.

Lemma ext_prefix (x : string) : String.prefix "ext_" ("ext_" ++ x) = true.
Proof. cbn. destruct x; reflexivity. Qed.

Lemma full_description_truthy (item : RawItem) :
  usable item = true -> PyStr.truthy (full_description item) = true.
Proof.
  unfold usable, full_description, append_highlight. intro H.
  apply andb_prop in H. destruct H as [_ Hd].
  destruct (job_highlights_is_dict item); [|exact Hd].
  destruct (raw_qualifications item) as [q|];
    [destruct (highlight_truthy q)|];
    (destruct (raw_responsibilities item) as [r|];
     [destruct (highlight_truthy r)|]);
    repeat apply truthy_app; exact Hd.
Qed.

(** X19. Every external posting, in the match endpoint and in the RAG
    search alike, has an identifier that starts with "ext_", a title that
    is not empty, and a description that is not empty and no longer than
    4000 characters. The RAG search keeps at most fifteen of them, all
    with source "external". *)
Theorem X19_postings_well_formed (uuid4 : nat -> string)
    (items : list RawItem) (p : Posting) :
  In p (external_jobs uuid4 items) \/ In p (rag_external_jobs uuid4 items) ->
  String.prefix "ext_" (p_id p) = true
  /\ PyStr.truthy (p_title p) = true
  /\ PyStr.truthy (p_description p) = true
  /\ (String.length (p_description p) <= 4000)%nat
  /\ (In p (rag_external_jobs uuid4 items) -> p_source p = "external")
  /\ (length (rag_external_jobs uuid4 items) <= 15)%nat.
Proof.
  intro H.
  assert (Hp : exists fresh item,
             usable item = true
             /\ (p = posting fresh item \/ p = rag_posting fresh item)).
  { destruct H as [H|H].
    - unfold external_jobs in H. apply in_app_or in H.
      destruct H as [H|H]; apply in_firstn, filter_In in H;
        destruct H as [H _]; apply postings_of_In in H;
        destruct H as (f & it & _ & Hu & ->); eauto.
    - apply postings_of_In in H.
      destruct H as (f & it & _ & Hu & ->); eauto. }
  destruct Hp as (fresh & item & Hu & Hp).
  assert (Ht : PyStr.truthy (get_str (raw_title item)) = true).
  { unfold usable in Hu. now apply andb_prop in Hu. }
  pose proof (full_description_truthy item Hu) as Hd.
  pose proof (take_length 4000 (full_description item)) as Hl.
  pose proof (take_truthy 3999 _ Hd) as Hd'.
  change (S 3999) with 4000%nat in Hd'.
  split; [destruct Hp as [-> | ->]; apply ext_prefix|].
  split; [destruct Hp as [-> | ->]; exact Ht|].
  split; [destruct Hp as [-> | ->]; exact Hd'|].
  split; [destruct Hp as [-> | ->]; exact Hl|].
  split.
  - intro Hr. apply postings_of_In in Hr.
    destruct Hr as (f & it & _ & _ & ->). reflexivity.
  - apply postings_of_length.
Qed.

Lemma X19_postings_well_formed_witness :
  map p_id (external_jobs (fun _ => "0f8b") [item_no_company; item_aggregator])
  = ["ext_abc"; "ext_0f8b"]
  /\ String.prefix "ext_" (p_id (posting "0f8b" item_aggregator)) = true.
Proof.
  split; [reflexivity|].
  refine (proj1 (@X19_postings_well_formed (fun _ => "0f8b")
                   [item_no_company; item_aggregator]
                   (posting "0f8b" item_aggregator) _)).
  left. right. left. reflexivity.
Defined.

Lemma contains_empty (s : string) : PyStr.contains "" s = true.
Proof. destruct s; reflexivity. Qed.

(** X20. An item whose company name is missing or empty is always
    classified as a company-site posting, whatever its "via" text: the
    empty name is found in every string. *)
Theorem X20_no_company_name_is_company_site (fresh : string) (item : RawItem) :
  get_str (raw_company_name item) = "" ->
  is_company_site item = true
  /\ p_source (posting fresh item) = "company".
Proof.
  intro H. assert (Hc : is_company_site item = true).
  { unfold is_company_site. rewrite H.
    change (PyStr.lower "") with "". rewrite contains_empty.
    now rewrite orb_true_r. }
  split; [exact Hc|]. cbn [posting p_source]. now rewrite Hc.
Qed.

Lemma X20_no_company_name_is_company_site_witness :
  raw_via item_no_company = Some "via LinkedIn"
  /\ p_source (posting "0f8b" item_no_company) = "company".
Proof.
  split; [reflexivity|].
  exact (proj2 (@X20_no_company_name_is_company_site "0f8b" item_no_company
                  eq_refl)).
Defined.

(* ================================================================== *)
(** * Secrets *)

Import Secrets.

Lemma unavailable_cases (a : Args) (msg : string) :
  (required a = true /\ default a = None
   /\ unavailable a msg = Raised (RuntimeError msg))
  \/ ((required a = false \/ default a <> None)
      /\ unavailable a msg = Returned (default a)).
Proof.
  unfold unavailable. destruct (required a), (default a) as [d|]; cbn.
  - right. split; [right; discriminate|reflexivity].
  - left. auto.
  - right. split; [now left|reflexivity].
  - right. split; [now left|reflexivity].
Qed.

(** X21. For a call that is not answered from the memo table: a set
    environment variable wins, even when set to the empty string;
    [RuntimeError] is raised exactly when the variable is unset, the
    secret is required without default, and either no project is
    resolved or Secret Manager answers NotFound or another API error;
    any other exception met while fetching the secret reaches the
    caller, whether the secret is required or not. *)
Theorem X21_get_secret_outcomes (O : Outside) (a : Args) (m : Memo) :
  memo_lookup a m = None ->
  let r := fst (get_secret O a m) in
  (forall v, getenv O (secret_id a) = Some v -> r = Returned (Some v))
  /\ ((exists msg, r = Raised (RuntimeError msg))
      <-> getenv O (secret_id a) = None
          /\ required a = true /\ default a = None
          /\ (secret_name O a = None
              \/ exists name msg,
                   secret_name O a = Some name
                   /\ (access_secret_version O name = Fails (NotFound msg)
                       \/ access_secret_version O name
                          = Fails (GoogleAPICallError msg))))
  /\ (forall msg,
        r = Raised (Uncaught msg)
        <-> getenv O (secret_id a) = None
            /\ exists name,
                 secret_name O a = Some name
                 /\ access_secret_version O name = Fails (OtherError msg)).
Proof.
  intros Hm r.
  assert (Hr : r = match get_secret_body O a with
                   | Returned v => Returned v
                   | Raised e => Raised e
                   end).
  { unfold r, get_secret. rewrite Hm.
    destruct (get_secret_body O a); reflexivity. }
  rewrite Hr. clear Hr r. unfold get_secret_body.
  destruct (getenv O (secret_id a)) as [v|] eqn:Hg.
  { split; [intros v' H; now inversion H|].
    split; [split; [intros [msg H]; discriminate|intros [H _]; discriminate]|].
    intro msg. split; [discriminate|intros [H _]; discriminate]. }
  split; [discriminate|].
  destruct (secret_name O a) as [name|] eqn:Hn.
  - destruct (access_secret_version O name) as [payload|[nf|api|other]] eqn:Ha.
    + split; [split|intro msg; split].
      * intros [msg H]. discriminate.
      * intros (_ & _ & _ & [H|(n & ms & Hn' & H)]); [discriminate|].
        inversion Hn'; subst n. rewrite Ha in H. destruct H; discriminate.
      * discriminate.
      * intros (_ & n & Hn' & H). inversion Hn'; subst n. congruence.
    + match goal with |- context [unavailable a ?msg] =>
        destruct (unavailable_cases a msg) as [(R & D & ->)|([R|D] & ->)] end.
      * split; [split|intro msg; split].
        -- intros _. repeat split; auto. right. exists name, nf. auto.
        -- eauto.
        -- discriminate.
        -- intros (_ & n & Hn' & H). inversion Hn'; subst n. congruence.
      * split; [split|intro msg; split]; try discriminate.
        -- intros [msg H]. discriminate.
        -- intros (_ & R' & _). congruence.
        -- intros (_ & n & Hn' & H). inversion Hn'; subst n. congruence.
      * split; [split|intro msg; split]; try discriminate.
        -- intros [msg H]. discriminate.
        -- intros (_ & _ & D' & _). congruence.
        -- intros (_ & n & Hn' & H). inversion Hn'; subst n. congruence.
    + match goal with |- context [unavailable a ?msg] =>
        destruct (unavailable_cases a msg) as [(R & D & ->)|([R|D] & ->)] end.
      * split; [split|intro msg; split].
        -- intros _. repeat split; auto. right. exists name, api. auto.
        -- eauto.
        -- discriminate.
        -- intros (_ & n & Hn' & H). inversion Hn'; subst n. congruence.
      * split; [split|intro msg; split]; try discriminate.
        -- intros [msg H]. discriminate.
        -- intros (_ & R' & _). congruence.
        -- intros (_ & n & Hn' & H). inversion Hn'; subst n. congruence.
      * split; [split|intro msg; split]; try discriminate.
        -- intros [msg H]. discriminate.
        -- intros (_ & _ & D' & _). congruence.
        -- intros (_ & n & Hn' & H). inversion Hn'; subst n. congruence.
    + split; [split|intro msg; split].
      * intros [msg H]. discriminate.
      * intros (_ & _ & _ & [H|(n & ms & Hn' & H)]); [discriminate|].
        inversion Hn'; subst n. rewrite Ha in H. destruct H; discriminate.
      * intro H. inversion H; subst. split; [reflexivity|]. eauto.
      * intros (_ & n & Hn' & H). inversion Hn'; subst n.
        rewrite Ha in H. now inversion H.
  - destruct (unavailable_cases a (unresolved_message a))
      as [(R & D & ->)|([R|D] & ->)].
    + split; [split|intro msg; split].
      * intros _. repeat split; auto.
      * eauto.
      * discriminate.
      * intros (_ & n & Hn' & _). discriminate.
    + split; [split|intro msg; split]; try discriminate.
      * intros [msg H]. discriminate.
      * intros (_ & R' & _). congruence.
      * intros (_ & n & Hn' & _). discriminate.
    + split; [split|intro msg; split]; try discriminate.
      * intros [msg H]. discriminate.
      * intros (_ & _ & D' & _). congruence.
      * intros (_ & n & Hn' & _). discriminate.
Qed.

(** The key set to the empty string is returned as it is; with only a
    project set and no credentials, the call raises although the secret
    is optional. *)
Lemma X21_get_secret_outcomes_witness :
  fst (get_secret outside_empty_key serpapi_args []) = Returned (Some "")
  /\ fst (get_secret outside_no_credentials serpapi_args [])
     = Raised (Uncaught "DefaultCredentialsError").
Proof.
  split.
  - exact (proj1 (@X21_get_secret_outcomes outside_empty_key serpapi_args []
                    eq_refl) "" eq_refl).
  - apply (proj2 (proj2 (@X21_get_secret_outcomes outside_no_credentials
                           serpapi_args [] eq_refl))).
    split; [reflexivity|]. eexists. split; reflexivity.
Defined.

Lemma opt_eqb_refl (x : option string) : opt_eqb x x = true.
Proof. destruct x; [apply String.eqb_refl|reflexivity]. Qed.

Lemma args_eqb_refl (a : Args) : args_eqb a a = true.
Proof.
  unfold args_eqb.
  now rewrite !String.eqb_refl, !opt_eqb_refl, Bool.eqb_reflx.
Qed.

(** X22. [get_secret] is memoised per argument tuple: once a call has
    returned, the same call returns the same value again whatever the
    environment and Secret Manager have become; a call that raised
    leaves the memo table as it was, so it is tried again. *)
Theorem X22_get_secret_memoised (O : Outside) (a : Args) (m : Memo) :
  (forall v m1,
     get_secret O a m = (Returned v, m1) ->
     forall O', fst (get_secret O' a m1) = Returned v)
  /\ (forall e m1, get_secret O a m = (Raised e, m1) -> m1 = m).
Proof.
  split.
  - intros v m1 H O'. unfold get_secret in *.
    destruct (memo_lookup a m) as [v0|] eqn:Hl.
    + inversion H; subst. cbn [memo_lookup]. now rewrite args_eqb_refl.
    + destruct (get_secret_body O a) as [v0|e]; inversion H; subst.
      change (firstn 256 ((a, v) :: m)) with ((a, v) :: firstn 255 m).
      cbn [memo_lookup]. now rewrite args_eqb_refl.
  - intros e m1 H. unfold get_secret in H.
    destruct (memo_lookup a m); [discriminate|].
    destruct (get_secret_body O a); now inversion H.
Qed.

(* ================================================================== *)
(** * The MCP server *)

Import Mcp.

Lemma dict_set_names (t : Tool) (tools : list Tool) (n : string) :
  In n (map tool_name (dict_set t tools))
  <-> n = tool_name t \/ In n (map tool_name tools).
Proof.
  induction tools as [|x r IH]; cbn [dict_set map In].
  - intuition.
  - destruct (String.eqb (tool_name t) (tool_name x)) eqn:E; cbn [map In].
    + apply String.eqb_eq in E. rewrite <- E. intuition.
    + rewrite IH. intuition.
Qed.

Lemma dict_set_nodup (t : Tool) (tools : list Tool) :
  NoDup (map tool_name tools) -> NoDup (map tool_name (dict_set t tools)).
Proof.
  induction tools as [|x r IH]; cbn [dict_set map]; intro H.
  - repeat constructor. intros [].
  - inversion H as [|? ? Hx Hr]; subst.
    destruct (String.eqb (tool_name t) (tool_name x)) eqn:E; cbn [map].
    + apply String.eqb_eq in E. rewrite E. now constructor.
    + constructor; [|now apply IH].
      rewrite dict_set_names. intros [Hn|Hn]; [|contradiction].
      apply String.eqb_neq in E. congruence.
Qed.

Lemma dict_set_find (t : Tool) (tools : list Tool) (n : string) :
  find_tool n (dict_set t tools)
  = if String.eqb n (tool_name t) then Some t else find_tool n tools.
Proof.
  induction tools as [|x r IH]; cbn [dict_set find_tool].
  - destruct (String.eqb n (tool_name t)); reflexivity.
  - destruct (String.eqb (tool_name t) (tool_name x)) eqn:E; cbn [find_tool].
    + apply String.eqb_eq in E. rewrite <- E.
      destruct (String.eqb n (tool_name t)); reflexivity.
    + rewrite IH. destruct (String.eqb n (tool_name x)) eqn:E2; [|reflexivity].
      apply String.eqb_eq in E2. subst n.
      rewrite String.eqb_sym, E. reflexivity.
Qed.

Lemma dict_set_length (t : Tool) (tools : list Tool) :
  length (dict_set t tools)
  = match find_tool (tool_name t) tools with
    | Some _ => length tools
    | None => S (length tools)
    end.
Proof.
  induction tools as [|x r IH]; cbn [dict_set find_tool length]; [reflexivity|].
  destruct (String.eqb (tool_name t) (tool_name x)); cbn [length]; [reflexivity|].
  rewrite IH. destruct (find_tool (tool_name t) r); reflexivity.
Qed.

(** X23. Registering a tool keeps the registry free of duplicate names:
    afterwards the tool is found under its name with the description
    just given (a later registration replaces an earlier one), every
    other name is found as before, and the registry has grown by one
    entry exactly when the name was new. *)
Theorem X23_registry_register (name description : string)
    (parameters : option Json) (tools : list Tool) :
  NoDup (map tool_name tools) ->
  let tools' := register_tool name description parameters tools in
  NoDup (map tool_name (get_tools tools'))
  /\ (exists t, find_tool name tools' = Some t
                /\ tool_name t = name /\ tool_description t = description)
  /\ (forall other, other <> name ->
        find_tool other tools' = find_tool other tools)
  /\ length (get_tools tools')
     = match find_tool name tools with
       | Some _ => length tools
       | None => S (length tools)
       end.
Proof.
  intros Hnd tools'. unfold tools', register_tool, get_tools.
  split; [now apply dict_set_nodup|]. split; [|split].
  - eexists. rewrite dict_set_find. cbn [tool_name].
    rewrite String.eqb_refl. repeat split.
  - intros other Hne. rewrite dict_set_find. cbn [tool_name].
    apply String.eqb_neq in Hne. now rewrite Hne.
  - rewrite dict_set_length. reflexivity.
Qed.

Lemma X23_registry_register_witness :
  let tools := register_tool "search_jobs" "old" None [] in
  let tools' := register_tool "search_jobs" "Search for jobs" None tools in
  length (get_tools tools') = 1%nat
  /\ exists t, find_tool "search_jobs" tools' = Some t
               /\ tool_name t = "search_jobs"
               /\ tool_description t = "Search for jobs".
Proof.
  intros tools tools'.
  assert (Hnd : NoDup (map tool_name tools)) by (repeat constructor; intros []).
  destruct (@X23_registry_register "search_jobs" "Search for jobs" None tools
              Hnd) as (_ & Hf & _ & Hl).
  split; [exact Hl|exact Hf].
Defined.

Lemma found_list_titled (items : list (option External.RawItem)) :
  Forall (fun f => PyStr.truthy (f_title f) = true) (found_list items).
Proof.
  induction items as [|[i|] rest IH]; cbn [found_list]; [constructor| |exact IH].
  destruct (titled (Some i)) eqn:E; [|exact IH].
  constructor; [exact E|exact IH].
Qed.

Lemma found_list_length (items : list (option External.RawItem)) :
  (length (found_list items) <= length items)%nat.
Proof.
  induction items as [|[i|] rest IH]; cbn [found_list length]; [lia| |lia].
  destruct (titled (Some i)); cbn [length]; lia.
Qed.

(** X24. The job-search tool always answers with a body, never with an
    HTTP error: an empty query, a missing key and a failed request all
    give [ok = false] with no result. An answer with [ok = true] means
    that the query was not empty and a key was configured; its results
    all have a title and, for a limit that is not negative, are no more
    than the limit. *)
Theorem X24_search_tool_answers (str_exn : ToolExn -> string)
    (JOB_LOCATION SERPAPI_KEY : option string)
    (serpapi : string -> string -> string -> Z ->
               Attempt (list (option External.RawItem)))
    (query : string) (location : option string) (limit : Z) :
  let a := search_jobs_tool str_exn JOB_LOCATION SERPAPI_KEY serpapi query
                            location limit in
  (ok a = false -> results a = [] /\ error a <> None)
  /\ (ok a = true ->
      PyStr.truthy query = true
      /\ (exists key, SERPAPI_KEY = Some key /\ PyStr.truthy key = true)
      /\ Forall (fun f => PyStr.truthy (f_title f) = true) (results a)
      /\ ((0 <= limit)%Z -> (Z.of_nat (length (results a)) <= limit)%Z))
  /\ (PyStr.truthy query = false ->
      a = mkAnswer false
            (Some (str_exn (HTTPException 400 "query is required"))) []).
Proof.
  intro a. unfold a, search_jobs_tool, search_jobs_body.
  destruct (PyStr.truthy query) eqn:Hq; cbn [negb].
  - destruct SERPAPI_KEY as [key|];
      [destruct (PyStr.truthy key) eqn:Hk|]; cbn [ok results error];
      try (repeat split; try discriminate; fail).
    destruct (serpapi query key _ limit) as [items|e]; cbn [ok results error];
      [|repeat split; discriminate].
    split; [discriminate|]. split; [|discriminate].
    intros _. split; [reflexivity|]. split; [eauto|]. split.
    + apply found_list_titled.
    + intro Hl.
      eapply Z.le_trans; [apply inj_le, found_list_length|].
      unfold Py.slice_to. apply Z.leb_le in Hl. rewrite Hl.
      pose proof (firstn_bounded (Z.to_nat limit) items). apply Z.leb_le in Hl.
      lia.
  - cbn [ok results error]. repeat split; discriminate.
Qed.

(* ================================================================== *)
(** * The job table *)

Import Jobs.

Lemma sapp_nil_r (s : string) : s ++ "" = s.
Proof. induction s; cbn; congruence. Qed.

Lemma sapp_assoc (a b c : string) : (a ++ b) ++ c = a ++ (b ++ c).
Proof. induction a; cbn; congruence. Qed.

Lemma srev_onto_app (s acc : string) :
  PyStr.srev_onto acc s = PyStr.srev s ++ acc.
Proof.
  unfold PyStr.srev. revert acc.
  induction s as [|c r IH]; intro acc; cbn; [reflexivity|].
  rewrite (IH (String c acc)), (IH (String c "")), sapp_assoc. reflexivity.
Qed.

Lemma srev_cons (c : ascii) (r : string) :
  PyStr.srev (String c r) = PyStr.srev r ++ String c "".
Proof. unfold PyStr.srev at 1. cbn. apply srev_onto_app. Qed.

Lemma srev_app (a b : string) :
  PyStr.srev (a ++ b) = PyStr.srev b ++ PyStr.srev a.
Proof.
  induction a as [|c r IH]; cbn [append].
  - now rewrite sapp_nil_r.
  - now rewrite !srev_cons, IH, sapp_assoc.
Qed.

Lemma srev_involutive (s : string) : PyStr.srev (PyStr.srev s) = s.
Proof.
  induction s as [|c r IH]; [reflexivity|].
  rewrite srev_cons, srev_app, IH. reflexivity.
Qed.

Lemma lstrip_idem (s : string) : PyStr.lstrip (PyStr.lstrip s) = PyStr.lstrip s.
Proof.
  induction s as [|c r IH]; [reflexivity|]. cbn.
  destruct (PyStr.is_space c) eqn:E; [exact IH|]. cbn. now rewrite E.
Qed.

Lemma lstrip_app_nonspace (y z : string) (c : ascii) :
  PyStr.is_space c = false ->
  PyStr.lstrip (y ++ String c z) = PyStr.lstrip y ++ String c z.
Proof.
  intro Hc. induction y as [|d r IH]; cbn.
  - now rewrite Hc.
  - destruct (PyStr.is_space d); [exact IH|reflexivity].
Qed.

Lemma rstrip_keeps_head (c : ascii) (r : string) :
  PyStr.is_space c = false ->
  exists r', PyStr.rstrip (String c r) = String c r'.
Proof.
  intro Hc. unfold PyStr.rstrip.
  rewrite srev_cons, (@lstrip_app_nonspace _ "" c Hc), srev_app.
  cbn. eauto.
Qed.

Lemma lstrip_fixed_cases (x : string) :
  PyStr.lstrip x = x ->
  x = "" \/ exists c r, x = String c r /\ PyStr.is_space c = false.
Proof.
  destruct x as [|c r]; [now left|]. intro H. right. exists c, r.
  split; [reflexivity|]. cbn in H.
  destruct (PyStr.is_space c) eqn:E; [|reflexivity].
  exfalso. pose proof (f_equal String.length H) as Hl. cbn in Hl.
  assert (Hle : forall s, (String.length (PyStr.lstrip s) <= String.length s)%nat).
  { clear. induction s as [|d s IH]; cbn; [lia|].
    destruct (PyStr.is_space d); cbn; lia. }
  specialize (Hle r). lia.
Qed.

Lemma lstrip_rstrip (x : string) :
  PyStr.lstrip x = x -> PyStr.lstrip (PyStr.rstrip x) = PyStr.rstrip x.
Proof.
  intro H. destruct (@lstrip_fixed_cases x H) as [->|(c & r & -> & Hc)].
  - reflexivity.
  - destruct (@rstrip_keeps_head c r Hc) as [r' ->]. cbn. now rewrite Hc.
Qed.

Lemma rstrip_idem (x : string) : PyStr.rstrip (PyStr.rstrip x) = PyStr.rstrip x.
Proof.
  unfold PyStr.rstrip. now rewrite srev_involutive, lstrip_idem.
Qed.

Lemma strip_idem (s : string) : PyStr.strip (PyStr.strip s) = PyStr.strip s.
Proof.
  unfold PyStr.strip.
  rewrite (@lstrip_rstrip (PyStr.lstrip s) (lstrip_idem s)).
  apply rstrip_idem.
Qed.

Lemma strip_fixed_lstrip (x : string) : PyStr.strip x = x -> PyStr.lstrip x = x.
Proof.
  intro H. unfold PyStr.strip in H.
  pose proof (@lstrip_rstrip (PyStr.lstrip x) (lstrip_idem x)) as Hl.
  rewrite H in Hl. exact Hl.
Qed.

Lemma strip_fixed_rstrip (x : string) : PyStr.strip x = x -> PyStr.rstrip x = x.
Proof.
  intro H. pose proof (@strip_fixed_lstrip x H) as Hl.
  unfold PyStr.strip in H. now rewrite Hl in H.
Qed.

Lemma lstrip_spaces_app (p x : string) :
  PyStr.all_chars PyStr.is_space p = true ->
  PyStr.lstrip (p ++ x) = PyStr.lstrip x.
Proof.
  induction p as [|c r IH]; cbn; [reflexivity|].
  intro H. apply andb_true_iff in H. destruct H as [Hc Hr].
  rewrite Hc. now apply IH.
Qed.

Lemma strip_padded (p x : string) :
  PyStr.all_chars PyStr.is_space p = true ->
  PyStr.strip x = x -> PyStr.strip (p ++ x) = x.
Proof.
  intros Hp Hx. unfold PyStr.strip.
  rewrite (@lstrip_spaces_app p x Hp), (@strip_fixed_lstrip x Hx).
  now apply strip_fixed_rstrip.
Qed.

Lemma find_none_cons (sep c : ascii) (r : string) :
  PyStr.find sep (String c r) = None ->
  Ascii.eqb sep c = false /\ PyStr.find sep r = None.
Proof.
  cbn. destruct (Ascii.eqb sep c); [discriminate|].
  destruct (PyStr.find sep r); [discriminate|]. now split.
Qed.

Lemma find_none_app (sep : ascii) (a b : string) :
  PyStr.find sep a = None -> PyStr.find sep b = None ->
  PyStr.find sep (a ++ b) = None.
Proof.
  intros Ha Hb. induction a as [|c r IH]; [exact Hb|].
  apply find_none_cons in Ha. destruct Ha as [Hc Hr]. cbn.
  rewrite Hc, (IH Hr). reflexivity.
Qed.

Lemma split_on_go_free (sep : ascii) (x s tok : string) :
  PyStr.find sep x = None ->
  PyStr.split_on_go sep tok (x ++ s) = PyStr.split_on_go sep (tok ++ x) s.
Proof.
  revert tok. induction x as [|c r IH]; intros tok H.
  - cbn [append]. now rewrite sapp_nil_r.
  - apply find_none_cons in H. destruct H as [Hc Hr].
    cbn [append PyStr.split_on_go]. rewrite Hc, (IH _ Hr), sapp_assoc.
    reflexivity.
Qed.

Lemma join_cons2 (sep x y : string) (l : list string) :
  PyStr.join sep (x :: y :: l) = x ++ sep ++ PyStr.join sep (y :: l).
Proof. reflexivity. Qed.

(** A non-empty list of clean entries, written with a separator and some
    blank padding after it, splits back into the same entries. *)
Lemma pieces_join_padded (sep : ascii) (pad : string) (l : list string)
    (x p : string) :
  PyStr.all_chars PyStr.is_space pad = true ->
  PyStr.find sep pad = None ->
  PyStr.all_chars PyStr.is_space p = true ->
  PyStr.find sep p = None ->
  Forall (fun x => PyStr.truthy x = true /\ PyStr.strip x = x
                   /\ PyStr.find sep x = None) (x :: l) ->
  pieces sep (p ++ PyStr.join (String sep pad) (x :: l)) = x :: l.
Proof.
  intros Hpad Hpadf. revert x p.
  induction l as [|y l IH]; intros x p Hp Hpf Hall;
    inversion Hall as [|? ? (Hxt & Hxs & Hxf) Hrest]; subst.
  - unfold pieces, PyStr.split_on. cbn [PyStr.join].
    rewrite <- (sapp_nil_r (p ++ x)).
    rewrite (@split_on_go_free sep (p ++ x) "" "" (@find_none_app sep p x Hpf Hxf)).
    cbn [append PyStr.split_on_go filter map].
    rewrite (@strip_padded p x Hp Hxs), Hxt. cbn [map].
    now rewrite (@strip_padded p x Hp Hxs).
  - unfold pieces, PyStr.split_on. rewrite join_cons2.
    rewrite <- sapp_assoc.
    rewrite (@split_on_go_free sep (p ++ x) _ "" (@find_none_app sep p x Hpf Hxf)).
    cbn [append PyStr.split_on_go]. rewrite Ascii.eqb_refl.
    cbn [filter]. rewrite (@strip_padded p x Hp Hxs), Hxt. cbn [map].
    rewrite (@strip_padded p x Hp Hxs). f_equal.
    apply (IH y pad Hpad Hpadf Hrest).
Qed.

(** X25. The list fields of a job (skills separated by commas,
    responsibilities and qualifications by line breaks) are split into
    entries that are never empty and carry no surrounding blanks; and a
    list of such entries, written out with the separator and any blank
    padding after it (as in ["Python, SQL"]), is read back unchanged. *)
Theorem X25_list_fields_round_trip (sep : ascii) (pad text : string)
    (l : list string) :
  Forall (fun s => PyStr.truthy s = true /\ PyStr.strip s = s)
         (pieces sep text)
  /\ (PyStr.all_chars PyStr.is_space pad = true ->
      PyStr.find sep pad = None ->
      Forall (fun x => PyStr.truthy x = true /\ PyStr.strip x = x
                       /\ PyStr.find sep x = None) l ->
      as_list sep (JStr (PyStr.join (String sep pad) l)) = JList (map JStr l)).
Proof.
  split.
  - apply Forall_forall. intros s Hs. unfold pieces in Hs.
    apply in_map_iff in Hs. destruct Hs as (x & <- & Hx).
    apply filter_In in Hx. split; [apply Hx|apply strip_idem].
  - intros Hpad Hpadf Hall. cbn [as_list]. do 2 f_equal.
    destruct l as [|x l]; [reflexivity|].
    apply (@pieces_join_padded sep pad l x "" Hpad Hpadf eq_refl eq_refl Hall).
Qed.

Lemma X25_list_fields_round_trip_witness :
  as_list comma (JStr "Python, SQL") = JList [JStr "Python"; JStr "SQL"].
Proof.
  apply (proj2 (@X25_list_fields_round_trip comma " " "" ["Python"; "SQL"]));
    [reflexivity|reflexivity|].
  repeat constructor.
Defined.

Section JobStore.

Variable L : PyLib.
Variable json_dumps : Json -> string.

Lemma text_or_none_idem (c : option string) :
  text_or_none (text_or_none c) = text_or_none c.
Proof.
  destruct c as [s|]; [|reflexivity]. cbn.
  destruct (PyStr.truthy s) eqn:E; cbn; [now rewrite E|reflexivity].
Qed.

Lemma as_list_is_list (sep : ascii) (v : Json) :
  exists l, as_list sep v = JList l.
Proof. destruct v; cbn; eauto. Qed.

Lemma loads_dumps_list (l : list Json) :
  round_trips L json_dumps (JList l) ->
  loads_if L (dumps_if json_dumps (JList l)) (JList []) = Ok (JList l).
Proof.
  intros [Hl Ht]. unfold dumps_if, loads_if. destruct l as [|x l]; cbn.
  - reflexivity.
  - cbn in Ht. rewrite Ht. exact Hl.
Qed.

Lemma loads_dumps_always (v d : Json) :
  round_trips L json_dumps v ->
  loads_if L (Some (json_dumps v)) d = Ok v.
Proof. intros [Hl Ht]. unfold loads_if. now rewrite Ht. Qed.

Lemma stripped_field_ok (d : list (string * Json)) (k s : string) :
  stripped_field (JDict d) k = Ok s ->
  exists raw, Assessment.get_or k d (JStr "") = JStr raw
              /\ s = PyStr.strip raw.
Proof.
  unfold stripped_field, body_get. cbn [rbind].
  destruct (Assessment.get_or k d (JStr "")); cbn; try discriminate.
  intro H. injection H as <-. eauto.
Qed.

Lemma stripped_field_dict (data : Json) (k s : string) :
  stripped_field data k = Ok s -> exists d, data = JDict d.
Proof.
  unfold stripped_field, body_get. destruct data; cbn; try discriminate.
  eauto.
Qed.

Lemma optional_fields_ok (d : list (string * Json)) f :
  optional_fields (JDict d) = Ok f ->
  exists company hr,
    Assessment.get_or "company_name" d (JStr "") = JStr company
    /\ Assessment.get_or "hr_email" d (JStr "") = JStr hr
    /\ f = (as_list comma (Assessment.get_or "skills" d (JList [])),
            as_list newline (Assessment.get_or "responsibilities" d (JList [])),
            as_list newline (Assessment.get_or "qualifications" d (JList [])),
            text_or_none (Some (PyStr.strip company)),
            text_or_none (Some (PyStr.strip hr))).
Proof.
  unfold optional_fields. cbn [body_get rbind].
  destruct (stripped_field (JDict d) "company_name") as [c|] eqn:Ec;
    cbn [rbind]; [|discriminate].
  destruct (stripped_field (JDict d) "hr_email") as [h|] eqn:Eh;
    cbn [rbind]; [|discriminate].
  apply stripped_field_ok in Ec. destruct Ec as (company & Hc & ->).
  apply stripped_field_ok in Eh. destruct Eh as (hr & Hh & ->).
  intro H. injection H as <-. exists company, hr. auto.
Qed.

Lemma find_app_fresh (id : string) (r : Row) (t : Table) :
  existsb (has_id id) t = false ->
  find (has_id id) (t ++ [r]) = if has_id id r then Some r else None.
Proof.
  induction t as [|x t IH]; cbn; [reflexivity|].
  destruct (has_id id x); cbn; [discriminate|exact IH].
Qed.

Lemma find_app_other (id : string) (r : Row) (t : Table) :
  has_id id r = false ->
  find (has_id id) (t ++ [r]) = find (has_id id) t.
Proof.
  intro H. induction t as [|x t IH]; cbn; [now rewrite H|].
  destruct (has_id id x); [reflexivity|exact IH].
Qed.

Lemma existsb_find_none (id : string) (t : Table) :
  existsb (has_id id) t = false -> find (has_id id) t = None.
Proof.
  induction t as [|x t IH]; cbn; [reflexivity|].
  destruct (has_id id x); cbn; [discriminate|exact IH].
Qed.

Lemma has_id_other (id other : string) (r : Row) :
  other <> id -> has_id id r = true -> has_id other r = false.
Proof.
  unfold has_id. intros Hne H. apply String.eqb_eq in H.
  apply String.eqb_neq. congruence.
Qed.

Lemma find_map_same (id : string) (f : Row -> Row) (t : Table) :
  (forall r, row_id (f r) = row_id r) ->
  find (has_id id) (map f t) = option_map f (find (has_id id) t).
Proof.
  intro Hid. induction t as [|x t IH]; cbn; [reflexivity|].
  unfold has_id at 1. rewrite Hid. fold (has_id id x).
  destruct (has_id id x); [reflexivity|exact IH].
Qed.

Lemma find_map_other (id other : string) (f : Row -> Row) (t : Table) :
  (forall r, row_id (f r) = row_id r) ->
  (forall r, has_id id r = false -> f r = r) ->
  other <> id ->
  find (has_id other) (map f t) = find (has_id other) t.
Proof.
  intros Hid Hfix Hne. induction t as [|x t IH]; cbn; [reflexivity|].
  unfold has_id at 1. rewrite Hid. fold (has_id other x).
  destruct (has_id other x) eqn:E; [|exact IH].
  f_equal. apply Hfix. destruct (has_id id x) eqn:E2; [|reflexivity].
  pose proof (@has_id_other id other x Hne E2). congruence.
Qed.

Lemma find_filter_gone (id : string) (t : Table) :
  find (has_id id) (filter (fun r => negb (has_id id r)) t) = None.
Proof.
  induction t as [|x t IH]; cbn; [reflexivity|].
  destruct (has_id id x) eqn:E; cbn; [exact IH|]. now rewrite E.
Qed.

Lemma find_filter_other (id other : string) (t : Table) :
  other <> id ->
  find (has_id other) (filter (fun r => negb (has_id id r)) t)
  = find (has_id other) t.
Proof.
  intro Hne. induction t as [|x t IH]; cbn; [reflexivity|].
  destruct (has_id id x) eqn:E; cbn.
  - rewrite (@has_id_other id other x Hne E). exact IH.
  - destruct (has_id other x); [reflexivity|exact IH].
Qed.

Lemma filter_gone_shorter (id : string) (t : Table) (r : Row) :
  find (has_id id) t = Some r ->
  (length (filter (fun r => negb (has_id id r)) t) < length t)%nat.
Proof.
  induction t as [|x t IH]; cbn; [discriminate|].
  destruct (has_id id x) eqn:E; cbn.
  - intros _. pose proof (filter_length_le (fun r => negb (has_id id r)) t).
    lia.
  - intro H. specialize (IH H). lia.
Qed.

Lemma get_job_some (id : string) (t : Table) (j : JobDict) :
  get_job_by_id L id t = Ok (Some j) ->
  exists r, find (has_id id) t = Some r /\ decode L r = Ok j.
Proof.
  unfold get_job_by_id. destruct (find (has_id id) t) as [r|]; [|discriminate].
  destruct (decode L r) as [j'|] eqn:E; cbn; [|discriminate].
  intro H. injection H as <-. eauto.
Qed.

Lemma get_job_none (id : string) (t : Table) :
  get_job_by_id L id t = Ok None -> find (has_id id) t = None.
Proof.
  unfold get_job_by_id. destruct (find (has_id id) t) as [r|]; [|reflexivity].
  destruct (decode L r); cbn; discriminate.
Qed.

Lemma decode_parts (r : Row) (j : JobDict) :
  decode L r = Ok j ->
  loads_if L (row_skills r) (JList []) = Ok (job_skills j)
  /\ loads_if L (row_questions r) JNull = Ok (job_questions j)
  /\ loads_if L (row_responsibilities r) (JList []) = Ok (job_responsibilities j)
  /\ loads_if L (row_qualifications r) (JList []) = Ok (job_qualifications j)
  /\ job_id j = row_id r /\ job_title j = row_title r
  /\ job_description j = row_description r
  /\ job_created_by j = row_created_by r
  /\ job_company_name j = text_or_none (row_company_name r)
  /\ job_hr_email j = text_or_none (row_hr_email r).
Proof.
  unfold decode.
  destruct (loads_if L (row_skills r) (JList [])); cbn [rbind]; [|discriminate].
  destruct (loads_if L (row_questions r) JNull); cbn [rbind]; [|discriminate].
  destruct (loads_if L (row_responsibilities r) (JList []));
    cbn [rbind]; [|discriminate].
  destruct (loads_if L (row_qualifications r) (JList []));
    cbn [rbind]; [|discriminate].
  intro H. injection H as <-. cbn. repeat split.
Qed.

End JobStore.

Lemma create_failure_keeps_table (json_dumps : Json -> string) (data : Json)
    (jid : string) (t : Table) :
  snd (fst (api_create_job json_dumps data jid t)) <> 200%nat ->
  snd (api_create_job json_dumps data jid t) = t.
Proof.
  unfold api_create_job, guarded.
  destruct (stripped_field data "title") as [title|]; cbn [rbind];
    [|reflexivity].
  destruct (stripped_field data "description") as [description|]; cbn [rbind];
    [|reflexivity].
  destruct (stripped_field data "created_by") as [created_by|]; cbn [rbind];
    [|reflexivity].
  destruct (PyStr.truthy title); cbn [negb]; [|reflexivity].
  destruct (PyStr.truthy description); cbn [negb]; [|reflexivity].
  destruct (PyStr.truthy created_by); cbn [negb]; [|reflexivity].
  destruct (optional_fields data) as [[[[[sk rs] ql] cn] hr]|]; cbn [rbind];
    [|reflexivity].
  destruct (save_job _ _ _ _ _ _ _ _ _ _ _ _); cbn [rbind]; [|reflexivity].
  cbn. intro H. now elim H.
Qed.

(** X26. Creating a job and reading it back. When [api_create_job]
    answers 200, the identifier was not in use before, and
    [get_job_by_id] now returns, under that identifier, the title,
    description and author with their surrounding blanks removed (none of
    them empty), the three list fields as normalised, no questions, and
    the company name and HR address stripped, [None] when blank; every
    other job reads as before. Whenever the answer is not 200, for any
    body, the table is unchanged. *)
Theorem X26_create_then_get (L : PyLib) (json_dumps : Json -> string)
    (d : list (string * Json)) (jid : string) (t : Table) :
  let skills := as_list comma (Assessment.get_or "skills" d (JList [])) in
  let responsibilities :=
    as_list newline (Assessment.get_or "responsibilities" d (JList [])) in
  let qualifications :=
    as_list newline (Assessment.get_or "qualifications" d (JList [])) in
  round_trips L json_dumps skills ->
  round_trips L json_dumps responsibilities ->
  round_trips L json_dumps qualifications ->
  let r := api_create_job json_dumps (JDict d) jid t in
  (snd (fst r) = 200%nat ->
   exists title description created_by company hr,
     Assessment.get_or "title" d (JStr "") = JStr title
     /\ Assessment.get_or "description" d (JStr "") = JStr description
     /\ Assessment.get_or "created_by" d (JStr "") = JStr created_by
     /\ Assessment.get_or "company_name" d (JStr "") = JStr company
     /\ Assessment.get_or "hr_email" d (JStr "") = JStr hr
     /\ PyStr.truthy (PyStr.strip title) = true
     /\ PyStr.truthy (PyStr.strip description) = true
     /\ PyStr.truthy (PyStr.strip created_by) = true
     /\ get_job_by_id L jid t = Ok None
     /\ get_job_by_id L jid (snd r)
        = Ok (Some (mkJobDict jid (PyStr.strip title)
                      (PyStr.strip description) skills JNull
                      (PyStr.strip created_by) responsibilities
                      qualifications
                      (text_or_none (Some (PyStr.strip company)))
                      (text_or_none (Some (PyStr.strip hr)))))
     /\ (forall other, other <> jid ->
           get_job_by_id L other (snd r) = get_job_by_id L other t)
     /\ fst (fst r)
        = JDict [("ok", JBool true); ("job_id", JStr jid);
                 ("message", JStr "Job created successfully")])
  /\ (forall data,
        snd (fst (api_create_job json_dumps data jid t)) <> 200%nat ->
        snd (api_create_job json_dumps data jid t) = t).
Proof.
  intros skills responsibilities qualifications Hsk Hrs Hql r.
  split; [|intro data; apply create_failure_keeps_table].
  unfold r, api_create_job, guarded.
  destruct (stripped_field (JDict d) "title") as [title|] eqn:Et;
    cbn [rbind]; [|cbn; discriminate].
  destruct (stripped_field (JDict d) "description") as [description|] eqn:Ed;
    cbn [rbind]; [|cbn; discriminate].
  destruct (stripped_field (JDict d) "created_by") as [created_by|] eqn:Ec;
    cbn [rbind]; [|cbn; discriminate].
  destruct (PyStr.truthy title) eqn:Tt; cbn [negb]; [|cbn; discriminate].
  destruct (PyStr.truthy description) eqn:Td; cbn [negb];
    [|cbn; discriminate].
  destruct (PyStr.truthy created_by) eqn:Tc; cbn [negb];
    [|cbn; discriminate].
  destruct (optional_fields (JDict d)) as [f|] eqn:Ef; cbn [rbind];
    [|cbn; discriminate].
  apply optional_fields_ok in Ef. destruct Ef as (company & hr & Hco & Hhr & ->).
  fold skills responsibilities qualifications.
  unfold save_job, insert_row. cbn [row_id].
  destruct (existsb (has_id jid) t) eqn:Ex; cbn [rbind fst snd];
    [discriminate|].
  intros _.
  apply stripped_field_ok in Et. destruct Et as (rt & Ht & ->).
  apply stripped_field_ok in Ed. destruct Ed as (rd & Hd & ->).
  apply stripped_field_ok in Ec. destruct Ec as (rc & Hc & ->).
  exists rt, rd, rc, company, hr.
  repeat (split; [assumption|]).
  split; [unfold get_job_by_id; now rewrite (@existsb_find_none jid t Ex)|].
  split; [|split; [|reflexivity]].
  - unfold get_job_by_id. rewrite (@find_app_fresh jid _ t Ex).
    unfold has_id at 1. cbn [row_id]. rewrite String.eqb_refl.
    unfold decode.
    cbn [row_id row_title row_description row_skills row_questions
         row_created_by row_responsibilities row_qualifications
         row_company_name row_hr_email].
    rewrite (@loads_dumps_always L json_dumps skills (JList []) Hsk).
    cbn [rbind].
    change (dumps_if json_dumps JNull) with (@None string).
    cbn [loads_if rbind].
    destruct (as_list_is_list newline
                (Assessment.get_or "responsibilities" d (JList [])))
      as [lr Hlr].
    destruct (as_list_is_list newline
                (Assessment.get_or "qualifications" d (JList [])))
      as [lq Hlq].
    unfold responsibilities, qualifications in *. rewrite Hlr, Hlq in *.
    rewrite (@loads_dumps_list L json_dumps lr Hrs),
            (@loads_dumps_list L json_dumps lq Hql).
    cbn [rbind]. rewrite !text_or_none_idem. reflexivity.
  - intros other Hne. unfold get_job_by_id.
    rewrite find_app_other; [reflexivity|].
    unfold has_id. cbn [row_id]. apply String.eqb_neq. congruence.
Qed.

Lemma X26_create_then_get_witness :
  let r := api_create_job dumps_string_lists (JDict create_request) "job-2"
                          one_job_table in
  exists job, get_job_by_id lib_jobs "job-2" (snd r) = Ok (Some job)
              /\ job_title job = "Data Engineer"
              /\ job_skills job = JList [JStr "Python"; JStr "SQL"].
Proof.
  intro r.
  destruct (@X26_create_then_get lib_jobs dumps_string_lists create_request
              "job-2" one_job_table)
    as [H _]; [split; reflexivity ..|].
  destruct (H eq_refl)
    as (title & description & created_by & company & hr & Ht & _ & _ & _ & _
        & _ & _ & _ & _ & Hget & _).
  injection Ht as <-.
  eexists. split; [exact Hget|]. split; reflexivity.
Defined.

Lemma update_failure_keeps_table (L : PyLib) (json_dumps : Json -> string)
    (id : string) (data : Json) (t : Table) :
  snd (fst (api_update_job L json_dumps id data t)) <> 200%nat ->
  snd (api_update_job L json_dumps id data t) = t.
Proof.
  unfold api_update_job, guarded.
  destruct (get_job_by_id L id t) as [[old|]|]; cbn [rbind];
    [|reflexivity|reflexivity].
  destruct (stripped_field data "title") as [title|]; cbn [rbind];
    [|reflexivity].
  destruct (stripped_field data "description") as [description|]; cbn [rbind];
    [|reflexivity].
  destruct (PyStr.truthy title); cbn [negb]; [|reflexivity].
  destruct (PyStr.truthy description); cbn [negb]; [|reflexivity].
  destruct (optional_fields data) as [[[[[sk rs] ql] cn] hr]|]; cbn [rbind];
    [|reflexivity].
  cbn. intro H. now elim H.
Qed.

(** X27. Updating a job. When [api_update_job] answers 200 the job
    existed, and reading it back gives the new title and description
    (stripped, not empty), the new list fields, company name and HR
    address, with the identifier, the author and the stored questions
    of the old job; every other job reads as before and the table has
    as many rows as before. Whenever the answer is not 200, for any
    body, the table is unchanged, and an unknown identifier is answered
    404. *)
Theorem X27_update_keeps_identity (L : PyLib) (json_dumps : Json -> string)
    (id : string) (d : list (string * Json)) (t : Table) :
  let skills := as_list comma (Assessment.get_or "skills" d (JList [])) in
  let responsibilities :=
    as_list newline (Assessment.get_or "responsibilities" d (JList [])) in
  let qualifications :=
    as_list newline (Assessment.get_or "qualifications" d (JList [])) in
  round_trips L json_dumps skills ->
  round_trips L json_dumps responsibilities ->
  round_trips L json_dumps qualifications ->
  let r := api_update_job L json_dumps id (JDict d) t in
  (snd (fst r) = 200%nat ->
   exists old title description company hr,
     get_job_by_id L id t = Ok (Some old)
     /\ Assessment.get_or "title" d (JStr "") = JStr title
     /\ Assessment.get_or "description" d (JStr "") = JStr description
     /\ Assessment.get_or "company_name" d (JStr "") = JStr company
     /\ Assessment.get_or "hr_email" d (JStr "") = JStr hr
     /\ PyStr.truthy (PyStr.strip title) = true
     /\ PyStr.truthy (PyStr.strip description) = true
     /\ get_job_by_id L id (snd r)
        = Ok (Some (mkJobDict (job_id old) (PyStr.strip title)
                      (PyStr.strip description) skills (job_questions old)
                      (job_created_by old) responsibilities qualifications
                      (text_or_none (Some (PyStr.strip company)))
                      (text_or_none (Some (PyStr.strip hr)))))
     /\ (forall other, other <> id ->
           get_job_by_id L other (snd r) = get_job_by_id L other t)
     /\ length (snd r) = length t)
  /\ (forall data,
        snd (fst (api_update_job L json_dumps id data t)) <> 200%nat ->
        snd (api_update_job L json_dumps id data t) = t)
  /\ (forall data, get_job_by_id L id t = Ok None ->
        api_update_job L json_dumps id data t
        = (error_reply "Job not found" 404, t)).
Proof.
  intros skills responsibilities qualifications Hsk Hrs Hql r.
  split; [|split; [intro data; apply update_failure_keeps_table|]].
  2:{ intros data H. unfold api_update_job. now rewrite H. }
  unfold r, api_update_job, guarded.
  destruct (get_job_by_id L id t) as [[old|]|] eqn:Eg; cbn [rbind];
    [|cbn; discriminate|cbn; discriminate].
  destruct (stripped_field (JDict d) "title") as [title|] eqn:Et;
    cbn [rbind]; [|cbn; discriminate].
  destruct (stripped_field (JDict d) "description") as [description|] eqn:Ed;
    cbn [rbind]; [|cbn; discriminate].
  destruct (PyStr.truthy title) eqn:Tt; cbn [negb]; [|cbn; discriminate].
  destruct (PyStr.truthy description) eqn:Td; cbn [negb];
    [|cbn; discriminate].
  destruct (optional_fields (JDict d)) as [f|] eqn:Ef; cbn [rbind];
    [|cbn; discriminate].
  apply optional_fields_ok in Ef. destruct Ef as (company & hr & Hco & Hhr & ->).
  fold skills responsibilities qualifications. cbn [fst snd]. intros _.
  apply stripped_field_ok in Et. destruct Et as (rt & Ht & ->).
  apply stripped_field_ok in Ed. destruct Ed as (rd & Hd & ->).
  exists old, rt, rd, company, hr.
  split; [reflexivity|]. repeat (split; [assumption|]).
  destruct (@get_job_some L id t old Eg) as (row & Hfind & Hdec).
  apply decode_parts in Hdec.
  destruct Hdec as (_ & Hq & _ & _ & Hid & _ & _ & Hcb & _ & _).
  split; [|split].
  - unfold get_job_by_id, update_job.
    rewrite find_map_same;
      [|intro x; destruct (has_id id x); reflexivity].
    rewrite Hfind. cbn [option_map].
    rewrite (proj2 (find_some _ _ Hfind)).
    unfold decode.
    cbn [row_id row_title row_description row_skills row_questions
         row_created_by row_responsibilities row_qualifications
         row_company_name row_hr_email].
    rewrite (@loads_dumps_always L json_dumps skills (JList []) Hsk).
    cbn [rbind]. rewrite Hq. cbn [rbind].
    destruct (as_list_is_list newline
                (Assessment.get_or "responsibilities" d (JList [])))
      as [lr Hlr].
    destruct (as_list_is_list newline
                (Assessment.get_or "qualifications" d (JList [])))
      as [lq Hlq].
    unfold responsibilities, qualifications in *. rewrite Hlr, Hlq in *.
    rewrite (@loads_dumps_list L json_dumps lr Hrs),
            (@loads_dumps_list L json_dumps lq Hql).
    cbn [rbind]. rewrite !text_or_none_idem, Hid, Hcb. reflexivity.
  - intros other Hne. unfold get_job_by_id, update_job.
    rewrite (@find_map_other id other); [reflexivity| | |exact Hne].
    + intro x; destruct (has_id id x); reflexivity.
    + intros x Hx. now rewrite Hx.
  - unfold update_job. apply length_map.
Qed.

Lemma X27_update_keeps_identity_witness :
  let r := api_update_job lib_jobs dumps_string_lists "job-1"
                          (JDict create_request) one_job_table in
  exists job, get_job_by_id lib_jobs "job-1" (snd r) = Ok (Some job)
              /\ job_title job = "Data Engineer"
              /\ job_created_by job = "hr-1"
              /\ length (snd r) = 1%nat.
Proof.
  intro r.
  destruct (@X27_update_keeps_identity lib_jobs dumps_string_lists "job-1"
              create_request one_job_table)
    as [H _]; [split; reflexivity ..|].
  destruct (H eq_refl)
    as (old & title & description & company & hr & Hold & Ht & _ & _ & _ & _
        & _ & Hget & _ & Hlen).
  injection Ht as <-. injection Hold as <-.
  eexists. split; [exact Hget|]. split; [reflexivity|].
  split; [reflexivity|exact Hlen].
Defined.

(** X28. Deleting a job. When [api_delete_job] answers 200 the job
    existed, it is no longer found afterwards, every other job reads as
    before, and the table has lost at least one row. Whenever the
    answer is not 200 the table is unchanged, and an unknown identifier
    is answered 404. *)
Theorem X28_delete_removes_only_that_job (L : PyLib) (id : string)
    (t : Table) :
  let r := api_delete_job L id t in
  (snd (fst r) = 200%nat ->
   (exists old, get_job_by_id L id t = Ok (Some old))
   /\ get_job_by_id L id (snd r) = Ok None
   /\ (forall other, other <> id ->
         get_job_by_id L other (snd r) = get_job_by_id L other t)
   /\ (length (snd r) < length t)%nat)
  /\ (snd (fst r) <> 200%nat -> snd r = t)
  /\ (get_job_by_id L id t = Ok None ->
      r = (error_reply "Job not found" 404, t)).
Proof.
  intro r. unfold r, api_delete_job, guarded.
  destruct (get_job_by_id L id t) as [[old|]|] eqn:Eg; cbn [rbind fst snd].
  - split; [|split; [intro H; now elim H|discriminate]].
    intros _. destruct (@get_job_some L id t old Eg) as (row & Hfind & _).
    split; [eauto|]. split; [|split].
    + unfold get_job_by_id, delete_job. now rewrite find_filter_gone.
    + intros other Hne. unfold get_job_by_id, delete_job.
      now rewrite (@find_filter_other id other t Hne).
    + unfold delete_job. apply (@filter_gone_shorter id t row Hfind).
  - split; [discriminate|]. split; reflexivity.
  - split; [discriminate|]. split; [reflexivity|discriminate].
Qed.

Lemma json_or_dict (d : list (string * Json)) :
  Assessment.json_or (JDict d) (JDict []) = JDict d.
Proof. destruct d; reflexivity. Qed.

Lemma save_questions_failure_keeps_table (L : PyLib)
    (json_dumps py_str : Json -> string) (id : string) (data : Json)
    (t : Table) :
  snd (fst (api_save_questions L json_dumps py_str id data t)) <> 200%nat ->
  snd (api_save_questions L json_dumps py_str id data t) = t.
Proof.
  unfold api_save_questions, guarded.
  destruct (get_job_by_id L id t) as [[old|]|]; cbn [rbind];
    [|reflexivity|reflexivity].
  destruct (body_get _ "questions" (JList [])) as [q|]; cbn [rbind];
    [|reflexivity].
  destruct q; try reflexivity. cbn. intro H. now elim H.
Qed.

Lemma cleaned_questions_clean (py_str : Json -> string) (l : list Json) :
  Forall (fun q => PyStr.truthy q = true /\ PyStr.strip q = q)
         (cleaned_questions py_str l).
Proof.
  apply Forall_forall. intros q Hq. unfold cleaned_questions in Hq.
  apply filter_In in Hq. destruct Hq as [Hin Ht]. split; [exact Ht|].
  apply in_map_iff in Hin. destruct Hin as (x & <- & _).
  destruct x; cbn; apply strip_idem.
Qed.

(** X29. Saving questions and reading the job back. For a job that
    exists and a body whose ["questions"] is an array,
    [api_save_questions] answers 200 with the cleaned questions: each is
    a non-empty text without surrounding blanks, and there are no more
    of them than elements sent. The endpoint [get_job] then returns the
    job as before with exactly these questions, also when none is left
    (the column then holds NULL and the endpoint answers the empty
    list); other jobs read as before. Whenever the answer is not 200,
    for any body, the table is unchanged. *)
Theorem X29_saved_questions_read_back (L : PyLib)
    (json_dumps py_str : Json -> string) (id : string)
    (d : list (string * Json)) (l : list Json) (old : JobDict) (t : Table) :
  Assessment.get_or "questions" d (JList []) = JList l ->
  round_trips L json_dumps (JList (map JStr (cleaned_questions py_str l))) ->
  get_job_by_id L id t = Ok (Some old) ->
  let r := api_save_questions L json_dumps py_str id (JDict d) t in
  let cleaned := cleaned_questions py_str l in
  fst r = (JDict [("ok", JBool true); ("questions", JList (map JStr cleaned))],
           200%nat)
  /\ Forall (fun q => PyStr.truthy q = true /\ PyStr.strip q = q) cleaned
  /\ (length cleaned <= length l)%nat
  /\ get_job L id (snd r)
     = Ok (Some (mkJobDict (job_id old) (job_title old) (job_description old)
                   (job_skills old) (JList (map JStr cleaned))
                   (job_created_by old) (job_responsibilities old)
                   (job_qualifications old) (job_company_name old)
                   (job_hr_email old)))
  /\ (forall other, other <> id ->
        get_job_by_id L other (snd r) = get_job_by_id L other t)
  /\ (forall data,
        snd (fst (api_save_questions L json_dumps py_str id data t))
        <> 200%nat ->
        snd (api_save_questions L json_dumps py_str id data t) = t).
Proof.
  intros Hq Hrt Hold r cleaned.
  assert (Hr : r = ((JDict [("ok", JBool true);
                            ("questions", JList (map JStr cleaned))], 200%nat),
                    update_job_questions json_dumps id
                      (JList (map JStr cleaned)) t)).
  { unfold r, api_save_questions, guarded. rewrite Hold. cbn [rbind].
    rewrite json_or_dict. cbn [body_get rbind]. rewrite Hq. reflexivity. }
  rewrite Hr. cbn [fst snd].
  split; [reflexivity|]. split; [apply cleaned_questions_clean|].
  split.
  { unfold cleaned, cleaned_questions.
    eapply Nat.le_trans; [apply filter_length_le|]. now rewrite length_map. }
  split; [|split; [|intro data; apply save_questions_failure_keeps_table]].
  - destruct (@get_job_some L id t old Hold) as (row & Hfind & Hdec).
    apply decode_parts in Hdec.
    destruct Hdec as (Hsk & _ & Hrs & Hql & Hid & Hti & Hde & Hcb & Hcn & Hhr).
    unfold get_job, get_job_by_id, update_job_questions.
    rewrite find_map_same;
      [|intro x; destruct (has_id id x); reflexivity].
    rewrite Hfind. cbn [option_map].
    rewrite (proj2 (find_some _ _ Hfind)).
    unfold decode.
    cbn [row_id row_title row_description row_skills row_questions
         row_created_by row_responsibilities row_qualifications
         row_company_name row_hr_email].
    rewrite Hsk. cbn [rbind].
    unfold cleaned in *. clear Hr.
    remember (map JStr (cleaned_questions py_str l)) as qs0 eqn:Ec.
    destruct qs0 as [|q qs].
    + change (dumps_if json_dumps (JList [])) with (@None string).
      cbn [loads_if rbind]. rewrite Hrs, Hql. cbn [rbind].
      cbn [job_questions Assessment.json_truthy App.nonempty].
      cbn. rewrite Hid, Hti, Hde, Hcb, Hcn, Hhr. reflexivity.
    + unfold dumps_if. cbn [Assessment.json_truthy App.nonempty].
      destruct Hrt as [Hl Ht]. unfold loads_if at 1. rewrite Ht, Hl.
      cbn [rbind]. rewrite Hrs, Hql. cbn [rbind].
      cbn [job_questions Assessment.json_truthy App.nonempty].
      rewrite Hid, Hti, Hde, Hcb, Hcn, Hhr. reflexivity.
  - intros other Hne. unfold get_job_by_id, update_job_questions.
    rewrite (@find_map_other id other); [reflexivity| | |exact Hne].
    + intro x; destruct (has_id id x); reflexivity.
    + intros x Hx. now rewrite Hx.
Qed.

Lemma X29_saved_questions_read_back_witness :
  let r := api_save_questions lib_questions dumps_string_lists str_of_strings
                              "job-1" (JDict questions_request)
                              one_job_table in
  fst r = (JDict [("ok", JBool true);
                  ("questions", JList [JStr "What is SQL?"])], 200%nat)
  /\ exists job, get_job lib_questions "job-1" (snd r) = Ok (Some job)
                 /\ job_questions job = JList [JStr "What is SQL?"].
Proof.
  intro r.
  destruct (@X29_saved_questions_read_back lib_questions dumps_string_lists
              str_of_strings "job-1" questions_request _ _ one_job_table
              eq_refl (conj eq_refl eq_refl) eq_refl)
    as (Hreply & _ & _ & Hget & _).
  split; [exact Hreply|]. eexists. split; [exact Hget|reflexivity].
Defined.


(* ================================================================== *)
(** * The user table *)

Import Users.

Lemma violates_false_find (uid u : string) (p : option string) (t : Users.Table) :
  violates uid (Some u) t = false ->
  find (credentials (Some u) p) t = None.
Proof.
  unfold violates. induction t as [|x t IH]; cbn; [reflexivity|].
  intro H. apply orb_false_iff in H. destruct H as [Hx Ht].
  apply orb_false_iff in Hx. destruct Hx as [_ Hu].
  unfold credentials at 1. rewrite Hu. cbn. now apply IH.
Qed.

Lemma find_app_last (A : Type) (f : A -> bool) (t : list A) (x : A) :
  find f t = None -> find f (t ++ [x]) = if f x then Some x else None.
Proof.
  induction t as [|y t IH]; cbn; [reflexivity|].
  destruct (f y); [discriminate|exact IH].
Qed.

Lemma find_app_miss (A : Type) (f : A -> bool) (t : list A) (x : A) :
  f x = false -> find f (t ++ [x]) = find f t.
Proof.
  intro H. induction t as [|y t IH]; cbn; [now rewrite H|].
  destruct (f y); [reflexivity|exact IH].
Qed.

Lemma sql_eq_neq (a b : option string) : b <> a -> sql_eq a b = false.
Proof.
  destruct a as [x|], b as [y|]; cbn; try reflexivity.
  intro H. apply String.eqb_neq. congruence.
Qed.

(** X30. Registering and logging in. A registration with a user name
    and a password that succeeds makes exactly these credentials log in,
    as the user just stored: any other password for that name is
    refused, the name could not log in before, and every other name
    logs in or not as before. A registration that fails answers
    "Username exists" and leaves the table unchanged. A missing user
    name never logs in, whatever the table holds. *)
Theorem X30_register_then_login (uid u p : string)
    (role name : option string) (t : Users.Table) :
  let r := register_user uid (Some u) (Some p) role name t in
  (fst (fst r) = true ->
   authenticate (Some u) (Some p) (snd r)
   = Some (mkUser uid role name (Some u))
   /\ (forall p', p' <> Some p -> authenticate (Some u) p' (snd r) = None)
   /\ (forall p', authenticate (Some u) p' t = None)
   /\ (forall u' p', u' <> Some u ->
         authenticate u' p' (snd r) = authenticate u' p' t))
  /\ (fst (fst r) = false -> r = ((false, "Username exists"), t))
  /\ (forall p' t0, authenticate None p' t0 = None).
Proof.
  intro r. unfold r, register_user.
  destruct (violates uid (Some u) t) eqn:Ev; cbn [fst snd].
  - split; [discriminate|]. split; [reflexivity|].
    intros p' t0. unfold authenticate.
    replace (find (credentials None p') t0) with (@None UserRow);
      [reflexivity|].
    induction t0 as [|x t0 IH]; cbn; [reflexivity|].
    unfold credentials at 1. destruct (u_username x); cbn; exact IH.
  - split; [|split; [discriminate|]].
    + intros _. split; [|split; [|split]].
      * unfold authenticate.
        rewrite (@find_app_last _ _ t _ (@violates_false_find uid u (Some p) t Ev)).
        unfold credentials. cbn. now rewrite !String.eqb_refl.
      * intros p' Hp. unfold authenticate.
        rewrite (@find_app_last _ _ t _ (@violates_false_find uid u p' t Ev)).
        unfold credentials. cbn [u_username u_password].
        now rewrite (@sql_eq_neq (Some p) p' Hp), andb_false_r.
      * intro p'. unfold authenticate.
        now rewrite (@violates_false_find uid u p' t Ev).
      * intros u' p' Hu. unfold authenticate.
        rewrite find_app_miss; [reflexivity|].
        unfold credentials. cbn [u_username u_password].
        now rewrite (@sql_eq_neq (Some u) u' Hu).
    + intros p' t0. unfold authenticate.
      replace (find (credentials None p') t0) with (@None UserRow);
        [reflexivity|].
      induction t0 as [|x t0 IH]; cbn; [reflexivity|].
      unfold credentials at 1. destruct (u_username x); cbn; exact IH.
Qed.
